(** * Channel membership and moderation (src/game/Chat/Channel.cpp)

    A shallow embedding of [Channel] and of its command surface, followed by
    the properties of the channel state machine.

    The C++ object is a record of the member variables; a [void] member
    function is a function from the channel to the new channel and the list
    of packets handed to sessions, in the order [SendPacket] is called. *)

From Stdlib Require Import NArith ZArith List String Bool Lia Sorted.
From stdpp Require Import base decidable numbers list gmap strings.

Open Scope string_scope.
Open Scope list_scope.
Open Scope N_scope.

(** ** Identities *)

(** [ObjectGuid] is a raw 64-bit value; the default-constructed guid is 0 and
    [bool(guid)] is true exactly for a non-zero raw value. *)
Definition ObjectGuid := N.

Definition EmptyGuid : ObjectGuid := 0.

Definition guid_bool (g : ObjectGuid) : bool := negb (g =? 0).

(** ** Member state: [Channel::PlayerInfo] *)

(** Modelled from the spec: the role bits of a member and
    [Channel::PlayerInfo] are declared in Channel.h, which is not among the
    sources.  A member state is an identity and the role bits owner,
    moderator and muted, kept in one flag byte. *)
Definition MEMBER_FLAG_NONE : N := 0.
Definition MEMBER_FLAG_OWNER : N := 1.
Definition MEMBER_FLAG_MODERATOR : N := 2.
Definition MEMBER_FLAG_MUTED : N := 8.

Module PlayerInfo.

Record t := mk { player : ObjectGuid; flags : N }.

Definition HasFlag (flag : N) (i : t) : bool := negb (N.land (flags i) flag =? 0).

(** [flags |= flag] when [state], [flags &= ~flag] otherwise (on a byte,
    clearing the bits of [flag]). *)
Definition ApplyFlag (flag : N) (state : bool) (i : t) : t :=
  if state then mk (player i) (N.lor (flags i) flag)
  else mk (player i) (N.ldiff (flags i) flag).

Definition IsOwner : t -> bool := HasFlag MEMBER_FLAG_OWNER.
Definition SetOwner : bool -> t -> t := ApplyFlag MEMBER_FLAG_OWNER.
Definition IsModerator : t -> bool := HasFlag MEMBER_FLAG_MODERATOR.
Definition SetModerator : bool -> t -> t := ApplyFlag MEMBER_FLAG_MODERATOR.
Definition IsMuted : t -> bool := HasFlag MEMBER_FLAG_MUTED.
Definition SetMuted : bool -> t -> t := ApplyFlag MEMBER_FLAG_MUTED.

(** The value-initialised entry [operator[]] creates. *)
Definition default : t := mk EmptyGuid MEMBER_FLAG_NONE.

End PlayerInfo.

(** ** The members table: [std::map<ObjectGuid, PlayerInfo>] *)

Module PlayerList.

(** Modelled from the spec: the type of [m_players] is declared in Channel.h,
    which is not among the sources.  The members are a mapping from identity
    to member state; Channel.cpp uses it as a [std::map] ([find], [erase],
    [operator[]], iteration from [begin()]).  The table is the sequence of its
    entries in iteration order, which for a [std::map] is ascending key
    order. *)
Definition t := list (ObjectGuid * PlayerInfo.t).

Fixpoint find (k : ObjectGuid) (m : t) : option PlayerInfo.t :=
  match m with
  | [] => None
  | (k', i) :: r => if k' =? k then Some i else find k r
  end.

Fixpoint erase (k : ObjectGuid) (m : t) : t :=
  match m with
  | [] => []
  | (k', i) :: r => if k' =? k then erase k r else (k', i) :: erase k r
  end.

(** Mutation through an iterator or a reference to the mapped value. *)
Fixpoint modify (k : ObjectGuid) (f : PlayerInfo.t -> PlayerInfo.t) (m : t) : t :=
  match m with
  | [] => []
  | (k', i) :: r => if k' =? k then (k', f i) :: modify k f r else (k', i) :: modify k f r
  end.

(** Insertion of a key at its place in ascending order. *)
Fixpoint insert (k : ObjectGuid) (i : PlayerInfo.t) (m : t) : t :=
  match m with
  | [] => [(k, i)]
  | (k', i') :: r =>
      if k <? k' then (k, i) :: (k', i') :: r
      else if k' =? k then (k', i) :: r
      else (k', i') :: insert k i r
  end.

(** [m[k]]: the entry is created value-initialised when it is missing. *)
Definition subscript (k : ObjectGuid) (m : t) : t :=
  match find k m with
  | Some _ => m
  | None => insert k PlayerInfo.default m
  end.

Definition size (m : t) : N := N.of_nat (List.length m).

Definition keys (m : t) : list ObjectGuid := List.map fst m.

End PlayerList.

(** ** Players, the directory and the configuration *)

(** Modelled from the spec: the security levels of an account, declared
    outside Channel.cpp; "GM-or-higher" is [SEC_GAMEMASTER] and above. *)
Inductive AccountTypes :=
| SEC_PLAYER | SEC_MODERATOR | SEC_GAMEMASTER | SEC_ADMINISTRATOR | SEC_CONSOLE.

Definition AccountTypes_level (s : AccountTypes) : N :=
  match s with
  | SEC_PLAYER => 0 | SEC_MODERATOR => 1 | SEC_GAMEMASTER => 2
  | SEC_ADMINISTRATOR => 3 | SEC_CONSOLE => 4
  end.

Definition sec_lt (a b : AccountTypes) : bool := AccountTypes_level a <? AccountTypes_level b.

(** What [Channel.cpp] reads from a [Player*].  A player in the world has a
    non-empty guid, hence the [positive] counter. *)
Record Player := mkPlayer {
  GetGUIDLow : positive;
  GetName : string;
  GetSecurity : AccountTypes;          (* GetSession()->GetSecurity() *)
  GetTeam : N;
  GetGuildId : N;
  visualRank : Z;                      (* GetHonorRankInfo().visualRank *)
  rank : N;                            (* GetHonorRankInfo().rank *)
  GetChatTag : N;
  ignored : list ObjectGuid            (* GetSocial(): the ignore list *)
}.

Definition GetObjectGuid (p : Player) : ObjectGuid := Npos (GetGUIDLow p).

Definition HasIgnore (p : Player) (g : ObjectGuid) : bool :=
  existsb (N.eqb g) (ignored p).

Record ChatChannelsEntry := mkEntry { ChannelID : N; dbc_flags : N }.

(** The collaborators and constants [Channel.cpp] takes from other files:
    the object manager, the world configuration, the channel catalogue and
    the honor rank limits. *)
Record World := mkWorld {
  GetPlayer : ObjectGuid -> option Player;              (* sObjectMgr.GetPlayer(guid) *)
  GetPlayerByName : string -> option Player;            (* sObjectMgr.GetPlayer(name) *)
  CheckPublicMessageLanguage : string -> bool;
  GetChannelEntryFor : string -> option ChatChannelsEntry;
  CONFIG_BOOL_CHANNEL_GM_JOIN_SILENTLY : bool;
  CONFIG_BOOL_ALLOW_TWO_SIDE_INTERACTION_CHANNEL : bool;
  CONFIG_UINT32_CHANNEL_RESTRICTED_LANGUAGE_MODE : N;
  CONFIG_UINT32_CHANNEL_STATIC_AUTO_TRESHOLD : N;
  CHANNEL_ID_LOCAL_DEFENSE : N;
  CHANNEL_ID_WORLD_DEFENSE : N;
  SPEAK_IN_LOCALDEFENSE_RANK : Z;
  SPEAK_IN_WORLDDEFENSE_RANK : Z;
  SetOwner_exclaim_default : bool      (* default of the [exclaim] argument, Channel.h *)
}.

(** ** Packets *)

Inductive ChatNotify :=
| CHAT_JOINED_NOTICE | CHAT_LEFT_NOTICE | CHAT_YOU_JOINED_NOTICE | CHAT_YOU_LEFT_NOTICE
| CHAT_WRONG_PASSWORD_NOTICE | CHAT_NOT_MEMBER_NOTICE | CHAT_NOT_MODERATOR_NOTICE
| CHAT_PASSWORD_CHANGED_NOTICE | CHAT_OWNER_CHANGED_NOTICE | CHAT_PLAYER_NOT_FOUND_NOTICE
| CHAT_NOT_OWNER_NOTICE | CHAT_CHANNEL_OWNER_NOTICE | CHAT_MODE_CHANGE_NOTICE
| CHAT_ANNOUNCEMENTS_ON_NOTICE | CHAT_ANNOUNCEMENTS_OFF_NOTICE
| CHAT_MODERATION_ON_NOTICE | CHAT_MODERATION_OFF_NOTICE | CHAT_MUTED_NOTICE
| CHAT_PLAYER_KICKED_NOTICE | CHAT_BANNED_NOTICE | CHAT_PLAYER_BANNED_NOTICE
| CHAT_PLAYER_UNBANNED_NOTICE | CHAT_PLAYER_NOT_BANNED_NOTICE
| CHAT_PLAYER_ALREADY_MEMBER_NOTICE | CHAT_INVITE_NOTICE
| CHAT_INVITE_WRONG_FACTION_NOTICE | CHAT_WRONG_FACTION_NOTICE | CHAT_INVALID_NAME_NOTICE
| CHAT_NOT_MODERATED_NOTICE | CHAT_PLAYER_INVITED_NOTICE | CHAT_PLAYER_INVITE_BANNED_NOTICE
| CHAT_THROTTLED_NOTICE.

(** A value streamed into a packet with [data << v]. *)
Inductive Field :=
| FGuid (g : ObjectGuid)
| FUInt8 (n : N)
| FUInt32 (n : N)
| FString (s : string).

Inductive WorldPacket :=
| SMSG_CHANNEL_NOTIFY (type : ChatNotify) (channel : string) (body : list Field)
| SMSG_MESSAGECHAT (text : string) (lang : N) (chatTag : N) (sender : ObjectGuid)
    (senderName : string) (channel : string) (senderRank : N).

Definition MakeNotifyPacket (channel : string) (type : ChatNotify) : WorldPacket :=
  SMSG_CHANNEL_NOTIFY type channel [].

Definition stream (data : WorldPacket) (v : Field) : WorldPacket :=
  match data with
  | SMSG_CHANNEL_NOTIFY type channel body => SMSG_CHANNEL_NOTIFY type channel (body ++ [v])
  | _ => data
  end.

Notation "data <<< v" := (stream data v) (at level 40, left associativity).

(** One call of [WorldSession::SendPacket]: the receiver and the packet. *)
Definition Event : Type := ObjectGuid * WorldPacket.

Definition MakeJoined (channel : string) (guid : ObjectGuid) : WorldPacket :=
  MakeNotifyPacket channel CHAT_JOINED_NOTICE <<< FGuid guid.

Definition MakeLeft (channel : string) (guid : ObjectGuid) : WorldPacket :=
  MakeNotifyPacket channel CHAT_LEFT_NOTICE <<< FGuid guid.

Definition MakeYouJoined (channel : string) (flags channelId : N) : WorldPacket :=
  MakeNotifyPacket channel CHAT_YOU_JOINED_NOTICE
    <<< FUInt8 flags <<< FUInt32 channelId <<< FUInt32 0.

Definition MakeYouLeft (channel : string) : WorldPacket :=
  MakeNotifyPacket channel CHAT_YOU_LEFT_NOTICE.

Definition MakeWrongPassword (channel : string) : WorldPacket :=
  MakeNotifyPacket channel CHAT_WRONG_PASSWORD_NOTICE.

Definition MakeNotMember (channel : string) : WorldPacket :=
  MakeNotifyPacket channel CHAT_NOT_MEMBER_NOTICE.

Definition MakeNotModerator (channel : string) : WorldPacket :=
  MakeNotifyPacket channel CHAT_NOT_MODERATOR_NOTICE.

Definition MakePasswordChanged (channel : string) (guid : ObjectGuid) : WorldPacket :=
  MakeNotifyPacket channel CHAT_PASSWORD_CHANGED_NOTICE <<< FGuid guid.

Definition MakeOwnerChanged (channel : string) (guid : ObjectGuid) : WorldPacket :=
  MakeNotifyPacket channel CHAT_OWNER_CHANGED_NOTICE <<< FGuid guid.

Definition MakePlayerNotFound (channel name : string) : WorldPacket :=
  MakeNotifyPacket channel CHAT_PLAYER_NOT_FOUND_NOTICE <<< FString name.

Definition MakeNotOwner (channel : string) : WorldPacket :=
  MakeNotifyPacket channel CHAT_NOT_OWNER_NOTICE.

Definition MakeModeChange (channel : string) (guid : ObjectGuid) (oldflags newFlags : N)
  : WorldPacket :=
  MakeNotifyPacket channel CHAT_MODE_CHANGE_NOTICE
    <<< FGuid guid <<< FUInt8 oldflags <<< FUInt8 newFlags.

Definition MakeAnnouncementsOn (channel : string) (guid : ObjectGuid) : WorldPacket :=
  MakeNotifyPacket channel CHAT_ANNOUNCEMENTS_ON_NOTICE <<< FGuid guid.

Definition MakeAnnouncementsOff (channel : string) (guid : ObjectGuid) : WorldPacket :=
  MakeNotifyPacket channel CHAT_ANNOUNCEMENTS_OFF_NOTICE <<< FGuid guid.

Definition MakeModerationOn (channel : string) (guid : ObjectGuid) : WorldPacket :=
  MakeNotifyPacket channel CHAT_MODERATION_ON_NOTICE <<< FGuid guid.

Definition MakeModerationOff (channel : string) (guid : ObjectGuid) : WorldPacket :=
  MakeNotifyPacket channel CHAT_MODERATION_OFF_NOTICE <<< FGuid guid.

Definition MakeMuted (channel : string) : WorldPacket :=
  MakeNotifyPacket channel CHAT_MUTED_NOTICE.

Definition MakePlayerKicked (channel : string) (target source : ObjectGuid) : WorldPacket :=
  MakeNotifyPacket channel CHAT_PLAYER_KICKED_NOTICE <<< FGuid target <<< FGuid source.

Definition MakeBanned (channel : string) : WorldPacket :=
  MakeNotifyPacket channel CHAT_BANNED_NOTICE.

Definition MakePlayerBanned (channel : string) (target source : ObjectGuid) : WorldPacket :=
  MakeNotifyPacket channel CHAT_PLAYER_BANNED_NOTICE <<< FGuid target <<< FGuid source.

Definition MakePlayerUnbanned (channel : string) (target source : ObjectGuid) : WorldPacket :=
  MakeNotifyPacket channel CHAT_PLAYER_UNBANNED_NOTICE <<< FGuid target <<< FGuid source.

Definition MakePlayerNotBanned (channel name : string) : WorldPacket :=
  MakeNotifyPacket channel CHAT_PLAYER_NOT_BANNED_NOTICE <<< FString name.

Definition MakePlayerAlreadyMember (channel : string) (guid : ObjectGuid) : WorldPacket :=
  MakeNotifyPacket channel CHAT_PLAYER_ALREADY_MEMBER_NOTICE <<< FGuid guid.

Definition MakeInvite (channel : string) (guid : ObjectGuid) : WorldPacket :=
  MakeNotifyPacket channel CHAT_INVITE_NOTICE <<< FGuid guid.

Definition MakeInviteWrongFaction (channel : string) : WorldPacket :=
  MakeNotifyPacket channel CHAT_INVITE_WRONG_FACTION_NOTICE.

Definition MakePlayerInvited (channel name : string) : WorldPacket :=
  MakeNotifyPacket channel CHAT_PLAYER_INVITED_NOTICE <<< FString name.

Definition MakePlayerInviteBanned (channel name : string) : WorldPacket :=
  MakeNotifyPacket channel CHAT_PLAYER_INVITE_BANNED_NOTICE <<< FString name.

Definition LANG_UNIVERSAL : N := 0.

(** [ChatHandler::BuildChatPacket] for [CHAT_MSG_CHANNEL], with the empty
    target the caller passes. *)
Definition BuildChatPacket (text : string) (lang : N) (player : Player) (channel : string)
  : WorldPacket :=
  SMSG_MESSAGECHAT text lang (GetChatTag player) (GetObjectGuid player) (GetName player)
    channel (rank player).

(** ** The channel *)

(** Modelled from the spec: the bits of [flagSet] (General, Trade, City,
    LFG/NotLFG, Custom) and the catalogue flags, declared outside
    Channel.cpp. *)
Definition CHANNEL_FLAG_CUSTOM : N := 0x01.
Definition CHANNEL_FLAG_TRADE : N := 0x04.
Definition CHANNEL_FLAG_NOT_LFG : N := 0x08.
Definition CHANNEL_FLAG_GENERAL : N := 0x10.
Definition CHANNEL_FLAG_CITY : N := 0x20.
Definition CHANNEL_FLAG_LFG : N := 0x40.

Definition CHANNEL_DBC_FLAG_TRADE : N := 0x00008.
Definition CHANNEL_DBC_FLAG_CITY_ONLY2 : N := 0x00020.
Definition CHANNEL_DBC_FLAG_LFG : N := 0x40000.

Record Channel := mkChannel {
  m_announce : bool;
  m_moderate : bool;
  m_name : string;
  m_flags : N;
  m_channelId : N;
  m_ownerGuid : ObjectGuid;
  m_static : bool;
  m_realmzone : bool;
  m_password : string;
  m_players : PlayerList.t;
  m_banned : gset N
}.

Definition set_announce (b : bool) (c : Channel) : Channel :=
  mkChannel b (m_moderate c) (m_name c) (m_flags c) (m_channelId c) (m_ownerGuid c)
    (m_static c) (m_realmzone c) (m_password c) (m_players c) (m_banned c).

Definition set_moderate (b : bool) (c : Channel) : Channel :=
  mkChannel (m_announce c) b (m_name c) (m_flags c) (m_channelId c) (m_ownerGuid c)
    (m_static c) (m_realmzone c) (m_password c) (m_players c) (m_banned c).

Definition set_ownerGuid (g : ObjectGuid) (c : Channel) : Channel :=
  mkChannel (m_announce c) (m_moderate c) (m_name c) (m_flags c) (m_channelId c) g
    (m_static c) (m_realmzone c) (m_password c) (m_players c) (m_banned c).

Definition set_static (b : bool) (c : Channel) : Channel :=
  mkChannel (m_announce c) (m_moderate c) (m_name c) (m_flags c) (m_channelId c)
    (m_ownerGuid c) b (m_realmzone c) (m_password c) (m_players c) (m_banned c).

Definition set_password (s : string) (c : Channel) : Channel :=
  mkChannel (m_announce c) (m_moderate c) (m_name c) (m_flags c) (m_channelId c)
    (m_ownerGuid c) (m_static c) (m_realmzone c) s (m_players c) (m_banned c).

Definition set_players (m : PlayerList.t) (c : Channel) : Channel :=
  mkChannel (m_announce c) (m_moderate c) (m_name c) (m_flags c) (m_channelId c)
    (m_ownerGuid c) (m_static c) (m_realmzone c) (m_password c) m (m_banned c).

Definition set_banned (s : gset N) (c : Channel) : Channel :=
  mkChannel (m_announce c) (m_moderate c) (m_name c) (m_flags c) (m_channelId c)
    (m_ownerGuid c) (m_static c) (m_realmzone c) (m_password c) (m_players c) s.

(** Modelled from the spec: the inline accessors of Channel.h, which is not
    among the sources.  A built-in channel is one with a non-zero channel id;
    a channel is public when it is built-in or static, and only a channel that
    is not public is owner-governed; [IsOn] and [IsBanned] are membership of
    the members table and of the banned set. *)
Definition GetFlags (c : Channel) : N := m_flags c.
Definition GetChannelId (c : Channel) : N := m_channelId c.
Definition HasFlag (c : Channel) (flag : N) : bool := negb (N.land (m_flags c) flag =? 0).
Definition IsConstant (c : Channel) : bool := negb (m_channelId c =? 0).
Definition IsStatic (c : Channel) : bool := m_static c.
Definition IsPublic (c : Channel) : bool := IsConstant c || IsStatic c.
Definition GetNumPlayers (c : Channel) : N := PlayerList.size (m_players c).

Definition IsOn (c : Channel) (who : ObjectGuid) : bool :=
  match PlayerList.find who (m_players c) with Some _ => true | None => false end.

Definition IsBanned (c : Channel) (guid : ObjectGuid) : bool :=
  bool_decide (guid ∈ m_banned c).

Definition GetPlayerFlags (c : Channel) (guid : ObjectGuid) : N :=
  match PlayerList.find guid (m_players c) with
  | Some i => PlayerInfo.flags i
  | None => 0
  end.

(** [m_players[guid]] read where [IsOn(guid)] has been checked: the entry. *)
Definition member (c : Channel) (guid : ObjectGuid) : PlayerInfo.t :=
  match PlayerList.find guid (m_players c) with
  | Some i => i
  | None => PlayerInfo.default
  end.

(** The constructor.  A custom channel has channel id 0 ("only built-in
    channel have channel id != 0"), no owner, no password, nobody banned. *)
Definition Channel_new (w : World) (name : string) : Channel :=
  match GetChannelEntryFor w name with
  | Some ch =>
      let f0 := N.lor 0 CHANNEL_FLAG_GENERAL in
      let f1 := if negb (N.land (dbc_flags ch) CHANNEL_DBC_FLAG_TRADE =? 0)
                then N.lor f0 CHANNEL_FLAG_TRADE else f0 in
      let f2 := if negb (N.land (dbc_flags ch) CHANNEL_DBC_FLAG_CITY_ONLY2 =? 0)
                then N.lor f1 CHANNEL_FLAG_CITY else f1 in
      let f3 := if negb (N.land (dbc_flags ch) CHANNEL_DBC_FLAG_LFG =? 0)
                then N.lor f2 CHANNEL_FLAG_LFG else N.lor f2 CHANNEL_FLAG_NOT_LFG in
      mkChannel false false name f3 (ChannelID ch) EmptyGuid false true "" [] ∅
  | None =>
      mkChannel true false name (N.lor 0 CHANNEL_FLAG_CUSTOM) 0 EmptyGuid false
        (CheckPublicMessageLanguage w name) "" [] ∅
  end.

(** ** Commands *)

(** A [void] member function: the new channel and the packets sent. *)
Definition Cmd : Type := Channel -> Channel * list Event.

Definition skip : Cmd := fun c => (c, []).

Definition seq (a b : Cmd) : Cmd := fun c =>
  let '(c1, e1) := a c in
  let '(c2, e2) := b c1 in
  (c2, e1 ++ e2).

Notation "a >> b" := (seq a b) (at level 65, right associativity).

Definition update (f : Channel -> Channel) : Cmd := fun c => (f c, []).

Section Commands.

Context (w : World).

(** *** Dispatch *)

Definition SendToOne (data : WorldPacket) (receiver : ObjectGuid) : Cmd := fun c =>
  (c, match GetPlayer w receiver with
      | Some _ => [(receiver, data)]
      | None => []
      end).

Definition SendToAll (data : WorldPacket) : Cmd := fun c =>
  (c, flat_map (fun kv => snd (SendToOne data (fst kv) c)) (m_players c)).

Definition SendMessage (data : WorldPacket) (sender : ObjectGuid) : Cmd := fun c =>
  (c, flat_map (fun kv : ObjectGuid * PlayerInfo.t =>
                  match GetPlayer w (fst kv) with
                  | Some plr =>
                      if negb (guid_bool sender) || negb (HasIgnore plr sender)
                      then [(fst kv, data)] else []
                  | None => []
                  end) (m_players c)).

(** *** Roles *)

(** Modelled from the spec: [Channel::SetModerator(guid, set)] and
    [Channel::SetMute(guid, set)] are defined in Channel.h, which is not
    among the sources.  The toggle puts the role bit of the member in the
    requested state and, when the bit flips, emits a role-change notice
    carrying the old and new flag bytes; a guid that is not a member is left
    alone. *)
Definition SetModerator (guid : ObjectGuid) (set : bool) : Cmd := fun c =>
  match PlayerList.find guid (m_players c) with
  | None => (c, [])
  | Some i =>
      if eqb (PlayerInfo.IsModerator i) set then (c, [])
      else
        let c' := set_players
                    (PlayerList.modify guid (PlayerInfo.SetModerator set) (m_players c)) c in
        SendToAll (MakeModeChange (m_name c) guid (PlayerInfo.flags i) (GetPlayerFlags c' guid)) c'
  end.

Definition SetMute (guid : ObjectGuid) (set : bool) : Cmd := fun c =>
  match PlayerList.find guid (m_players c) with
  | None => (c, [])
  | Some i =>
      if eqb (PlayerInfo.IsMuted i) set then (c, [])
      else
        let c' := set_players
                    (PlayerList.modify guid (PlayerInfo.SetMuted set) (m_players c)) c in
        SendToAll (MakeModeChange (m_name c) guid (PlayerInfo.flags i) (GetPlayerFlags c' guid)) c'
  end.

(** The loop of [SelectNewOwner]: the [player] field of the first entry
    whose role includes moderator. *)
Fixpoint first_moderator (m : PlayerList.t) : option ObjectGuid :=
  match m with
  | [] => None
  | (_, i) :: r => if PlayerInfo.IsModerator i then Some (PlayerInfo.player i)
                   else first_moderator r
  end.

Definition SelectNewOwner (c : Channel) : ObjectGuid :=
  match first_moderator (m_players c) with
  | Some g => g
  | None =>
      match m_players c with
      | [] => EmptyGuid
      | (_, i) :: _ => PlayerInfo.player i
      end
  end.

Definition SetOwner (guid : ObjectGuid) (exclaim : bool) : Cmd :=
  (fun c =>
     if guid_bool (m_ownerGuid c) then
       match PlayerList.find (m_ownerGuid c) (m_players c) with
       | Some _ =>
           let c1 := set_players
                       (PlayerList.modify (m_ownerGuid c)
                          (PlayerInfo.SetModerator (guid_bool guid)) (m_players c)) c in
           let oldFlag := GetPlayerFlags c1 (m_ownerGuid c) in
           let c2 := set_players
                       (PlayerList.modify (m_ownerGuid c)
                          (PlayerInfo.SetOwner false) (m_players c1)) c1 in
           SendToAll (MakeModeChange (m_name c) guid oldFlag (GetPlayerFlags c2 guid)) c2
       | None => (c, [])
       end
     else (c, []))
  >> update (set_ownerGuid guid)
  >> (fun c =>
        if guid_bool (m_ownerGuid c) then
          let c1 := set_players
                      (PlayerList.modify (m_ownerGuid c) (PlayerInfo.SetModerator true)
                         (PlayerList.subscript (m_ownerGuid c) (m_players c))) c in
          let oldFlag := GetPlayerFlags c1 (m_ownerGuid c) in
          let c2 := set_players
                      (PlayerList.modify (m_ownerGuid c) (PlayerInfo.SetOwner true)
                         (PlayerList.subscript (m_ownerGuid c) (m_players c1))) c1 in
          SendToAll (MakeModeChange (m_name c) guid oldFlag (GetPlayerFlags c2 guid)) c2
        else (c, []))
  >> (fun c => if exclaim then SendToAll (MakeOwnerChanged (m_name c) guid) c else (c, [])).

(** *** Static conversion *)

(** The moderator-stripping loop of [SetStatic], over the keys of the table
    (the calls inside change role bits only, never the set of keys). *)
Fixpoint strip_moderators (ks : list ObjectGuid) : Cmd :=
  match ks with
  | [] => skip
  | k :: r =>
      (fun c =>
         match PlayerList.find k (m_players c) with
         | Some i => if PlayerInfo.IsModerator i
                     then SetModerator (PlayerInfo.player i) false c else (c, [])
         | None => (c, [])
         end)
      >> strip_moderators r
  end.

(** The one-argument call of [SetOwner] takes the default [exclaim] that
    Channel.h declares. *)
Definition SetStatic (state command : bool) (c : Channel)
  : bool * (Channel * list Event) :=
  if IsConstant c || negb (HasFlag c CHANNEL_FLAG_CUSTOM) || eqb (m_static c) state
  then (false, (c, []))
  else if state && negb (String.length (m_password c) =? 0)%nat
  then (false, (c, []))
  else
    let treshold := CONFIG_UINT32_CHANNEL_STATIC_AUTO_TRESHOLD w in
    if negb command && ((treshold =? 0) || negb (eqb state (treshold <=? GetNumPlayers c)))
    then (false, (c, []))
    else
      (true,
       ((fun c => if state then strip_moderators (PlayerList.keys (m_players c)) c
                  else (c, []))
        >> (fun c =>
              if eqb state (guid_bool (m_ownerGuid c))
              then SetOwner (if state then EmptyGuid else SelectNewOwner c)
                     (SetOwner_exclaim_default w) c
              else (c, []))
        >> (fun c =>
              if state && m_moderate c
              then (update (set_moderate false)
                    >> SendToAll (MakeModerationOff (m_name c) EmptyGuid)) c
              else (c, []))
        >> (fun c =>
              if state && m_announce c
              then (update (set_announce false)
                    >> SendToAll (MakeAnnouncementsOff (m_name c) EmptyGuid)) c
              else (c, []))
        >> update (set_static state)) c).

(** *** Membership *)

Definition Join (player : Player) (password : string) : Cmd := fun c =>
  let guid := GetObjectGuid player in
  if IsOn c guid then
    if negb (IsConstant c)
    then SendToOne (MakePlayerAlreadyMember (m_name c) guid) guid c
    else (c, [])
  else if IsBanned c guid then SendToOne (MakeBanned (m_name c)) guid c
  else if (0 <? String.length (m_password c))%nat
          && negb (String.eqb password (m_password c))
  then SendToOne (MakeWrongPassword (m_name c)) guid c
  else if negb (GetGuildId player =? 0) && (GetFlags c =? 0x38) then (c, [])
  else
    ((fun c =>
        if m_announce c
           && (sec_lt (GetSecurity player) SEC_GAMEMASTER
               || negb (CONFIG_BOOL_CHANNEL_GM_JOIN_SILENTLY w))
        then SendToAll (MakeJoined (m_name c) guid) c
        else (c, []))
     >> update (fun c =>
          set_players
            (PlayerList.modify guid (fun _ => PlayerInfo.mk guid MEMBER_FLAG_NONE)
               (PlayerList.subscript guid (m_players c))) c)
     >> (fun c => SendToOne (MakeYouJoined (m_name c) (GetFlags c) (GetChannelId c)) guid c)
     >> (fun c =>
           if negb (IsPublic c) && negb (guid_bool (m_ownerGuid c))
           then SetOwner guid (1 <? PlayerList.size (m_players c)) c
           else (c, []))
     >> (fun c => snd (SetStatic true false c))) c.

Definition Leave (player : Player) (send : bool) : Cmd := fun c =>
  let guid := GetObjectGuid player in
  if negb (IsOn c guid) then
    if send then SendToOne (MakeNotMember (m_name c)) guid c else (c, [])
  else
    ((fun c => if send then SendToOne (MakeYouLeft (m_name c)) guid c else (c, []))
     >> (fun c =>
           let changeowner := PlayerInfo.IsOwner (member c guid) in
           (update (fun c => set_players (PlayerList.erase guid (m_players c)) c)
            >> (fun c =>
                  if m_announce c
                     && (sec_lt (GetSecurity player) SEC_GAMEMASTER
                         || negb (CONFIG_BOOL_CHANNEL_GM_JOIN_SILENTLY w))
                  then SendToAll (MakeLeft (m_name c) guid) c
                  else (c, []))
            >> (fun c =>
                  if changeowner && negb (IsPublic c)
                  then SetOwner (SelectNewOwner c) (1 <? PlayerList.size (m_players c)) c
                  else (c, []))) c)) c.

Definition KickOrBan (player : Player) (targetName : string) (ban : bool) : Cmd := fun c =>
  let guid := GetObjectGuid player in
  if negb (IsOn c guid) then SendToOne (MakeNotMember (m_name c)) guid c
  else if negb (PlayerInfo.IsModerator (member c guid))
          && sec_lt (GetSecurity player) SEC_GAMEMASTER
  then SendToOne (MakeNotModerator (m_name c)) guid c
  else
    match GetPlayerByName w targetName with
    | None => SendToOne (MakePlayerNotFound (m_name c) targetName) guid c
    | Some target =>
        let targetGuid := GetObjectGuid target in
        if negb (IsOn c targetGuid)
        then SendToOne (MakePlayerNotFound (m_name c) targetName) guid c
        else
          let changeowner := m_ownerGuid c =? targetGuid in
          if sec_lt (GetSecurity player) SEC_GAMEMASTER && changeowner
             && negb (guid =? m_ownerGuid c)
          then SendToOne (MakeNotOwner (m_name c)) guid c
          else
            ((fun c =>
                if ban && negb (IsBanned c targetGuid)
                then (update (fun c => set_banned ({[targetGuid]} ∪ m_banned c) c)
                      >> SendToAll (MakePlayerBanned (m_name c) targetGuid guid)) c
                else SendToAll (MakePlayerKicked (m_name c) targetGuid guid) c)
             >> update (fun c => set_players (PlayerList.erase targetGuid (m_players c)) c)
             >> (fun c =>
                   if changeowner && negb (IsPublic c)
                   then SetOwner (SelectNewOwner c) (1 <? PlayerList.size (m_players c)) c
                   else (c, []))) c
    end.

Definition UnBan (player : Player) (targetName : string) : Cmd := fun c =>
  let guid := GetObjectGuid player in
  if negb (IsOn c guid) then SendToOne (MakeNotMember (m_name c)) guid c
  else if negb (PlayerInfo.IsModerator (member c guid))
          && sec_lt (GetSecurity player) SEC_GAMEMASTER
  then SendToOne (MakeNotModerator (m_name c)) guid c
  else
    match GetPlayerByName w targetName with
    | None => SendToOne (MakePlayerNotFound (m_name c) targetName) guid c
    | Some target =>
        let targetGuid := GetObjectGuid target in
        if negb (IsBanned c targetGuid)
        then SendToOne (MakePlayerNotBanned (m_name c) targetName) guid c
        else
          (update (fun c => set_banned (m_banned c ∖ {[targetGuid]}) c)
           >> (fun c => SendToAll (MakePlayerUnbanned (m_name c) targetGuid guid) c)) c
    end.

Definition Password (player : Player) (password : string) : Cmd := fun c =>
  let guid := GetObjectGuid player in
  if negb (IsOn c guid) then SendToOne (MakeNotMember (m_name c)) guid c
  else if negb (PlayerInfo.IsModerator (member c guid))
          && sec_lt (GetSecurity player) SEC_GAMEMASTER
  then SendToOne (MakeNotModerator (m_name c)) guid c
  else
    (update (set_password password)
     >> (fun c => SendToAll (MakePasswordChanged (m_name c) guid) c)) c.

Definition SetMode (player : Player) (targetName : string) (moderator set : bool) : Cmd :=
  fun c =>
  let guid := GetObjectGuid player in
  if negb (IsOn c guid) then SendToOne (MakeNotMember (m_name c)) guid c
  else if negb (PlayerInfo.IsModerator (member c guid))
          && sec_lt (GetSecurity player) SEC_GAMEMASTER
  then SendToOne (MakeNotModerator (m_name c)) guid c
  else
    match GetPlayerByName w targetName with
    | None => SendToOne (MakePlayerNotFound (m_name c) targetName) guid c
    | Some target =>
        let targetGuid := GetObjectGuid target in
        if moderator && (guid =? m_ownerGuid c) && (targetGuid =? m_ownerGuid c)
        then (c, [])
        else if negb (IsOn c targetGuid)
        then SendToOne (MakePlayerNotFound (m_name c) targetName) guid c
        else if (sec_lt (GetSecurity player) SEC_GAMEMASTER
                 || sec_lt (GetSecurity target) SEC_GAMEMASTER)
                && negb (GetTeam player =? GetTeam target)
                && negb (CONFIG_BOOL_ALLOW_TWO_SIDE_INTERACTION_CHANNEL w)
        then SendToOne (MakePlayerNotFound (m_name c) targetName) guid c
        else if (m_ownerGuid c =? targetGuid) && negb (m_ownerGuid c =? guid)
        then SendToOne (MakeNotOwner (m_name c)) guid c
        else if moderator then SetModerator targetGuid set c
        else SetMute targetGuid set c
    end.

(** The overload of [SetOwner] taking the acting player and a target name. *)
Definition SetOwner_cmd (player : Player) (targetName : string) : Cmd := fun c =>
  let guid := GetObjectGuid player in
  if negb (IsOn c guid) then SendToOne (MakeNotMember (m_name c)) guid c
  else if sec_lt (GetSecurity player) SEC_GAMEMASTER && negb (guid =? m_ownerGuid c)
  then SendToOne (MakeNotOwner (m_name c)) guid c
  else
    match GetPlayerByName w targetName with
    | None => SendToOne (MakePlayerNotFound (m_name c) targetName) guid c
    | Some target =>
        let targetGuid := GetObjectGuid target in
        if negb (IsOn c targetGuid)
        then SendToOne (MakePlayerNotFound (m_name c) targetName) guid c
        else if negb (GetTeam target =? GetTeam player)
                && negb (CONFIG_BOOL_ALLOW_TWO_SIDE_INTERACTION_CHANNEL w)
        then SendToOne (MakePlayerNotFound (m_name c) targetName) guid c
        else SetOwner targetGuid (1 <? PlayerList.size (m_players c)) c
    end.

Definition Announce (player : Player) : Cmd := fun c =>
  let guid := GetObjectGuid player in
  if negb (IsOn c guid) then SendToOne (MakeNotMember (m_name c)) guid c
  else if negb (PlayerInfo.IsModerator (member c guid))
          && sec_lt (GetSecurity player) SEC_GAMEMASTER
  then SendToOne (MakeNotModerator (m_name c)) guid c
  else
    (update (fun c => set_announce (negb (m_announce c)) c)
     >> (fun c =>
           if m_announce c then SendToAll (MakeAnnouncementsOn (m_name c) guid) c
           else SendToAll (MakeAnnouncementsOff (m_name c) guid) c)) c.

Definition Moderate (player : Player) : Cmd := fun c =>
  let guid := GetObjectGuid player in
  if negb (IsOn c guid) then SendToOne (MakeNotMember (m_name c)) guid c
  else if negb (PlayerInfo.IsModerator (member c guid))
          && sec_lt (GetSecurity player) SEC_GAMEMASTER
  then SendToOne (MakeNotModerator (m_name c)) guid c
  else
    (update (fun c => set_moderate (negb (m_moderate c)) c)
     >> (fun c =>
           if m_moderate c then SendToAll (MakeModerationOn (m_name c) guid) c
           else SendToAll (MakeModerationOff (m_name c) guid) c)) c.

(** *** Speech *)

(** The [restricted] local of [Say], for a non-zero restriction mode. *)
Definition restricted (restriction : N) (c : Channel) : bool :=
  match restriction with
  | 1 => IsConstant c
  | 2 => IsPublic c && m_realmzone c
  | 3 => true
  | _ => false
  end.

(** [text] is [None] for a null pointer. *)
Definition Say (player : Player) (text : option string) (lang : N) : Cmd := fun c =>
  match text with
  | None => (c, [])
  | Some text =>
      let guid := GetObjectGuid player in
      if negb (IsOn c guid) then SendToOne (MakeNotMember (m_name c)) guid c
      else if PlayerInfo.IsMuted (member c guid)
              || ((GetChannelId c =? CHANNEL_ID_LOCAL_DEFENSE w)
                  && (visualRank player <? SPEAK_IN_LOCALDEFENSE_RANK w)%Z)
              || ((GetChannelId c =? CHANNEL_ID_WORLD_DEFENSE w)
                  && (visualRank player <? SPEAK_IN_WORLDDEFENSE_RANK w)%Z)
      then SendToOne (MakeMuted (m_name c)) guid c
      else
        let moderator := PlayerInfo.IsModerator (member c guid) in
        if m_moderate c && negb moderator && sec_lt (GetSecurity player) SEC_GAMEMASTER
        then SendToOne (MakeNotModerator (m_name c)) guid c
        else
          let restriction := CONFIG_UINT32_CHANNEL_RESTRICTED_LANGUAGE_MODE w in
          if negb (restriction =? 0) && restricted restriction c
             && negb (CheckPublicMessageLanguage w text)
          then SendToOne (MakeMuted (m_name c)) guid c
          else
            let lang := if CONFIG_BOOL_ALLOW_TWO_SIDE_INTERACTION_CHANNEL w
                        then LANG_UNIVERSAL else lang in
            SendMessage (BuildChatPacket text lang player (m_name c))
              (if moderator then EmptyGuid else guid) c
  end.

Definition Invite (player : Player) (targetName : string) : Cmd := fun c =>
  let guid := GetObjectGuid player in
  if negb (IsOn c guid) then SendToOne (MakeNotMember (m_name c)) guid c
  else
    match GetPlayerByName w targetName with
    | None => SendToOne (MakePlayerNotFound (m_name c) targetName) guid c
    | Some target =>
        let targetGuid := GetObjectGuid target in
        if IsOn c targetGuid
        then SendToOne (MakePlayerAlreadyMember (m_name c) targetGuid) guid c
        else if IsBanned c targetGuid
        then SendToOne (MakePlayerInviteBanned (m_name c) targetName) guid c
        else if negb (GetTeam target =? GetTeam player)
                && negb (CONFIG_BOOL_ALLOW_TWO_SIDE_INTERACTION_CHANNEL w)
        then SendToOne (MakeInviteWrongFaction (m_name c)) guid c
        else
          ((fun c => if negb (HasIgnore target guid)
                     then SendToOne (MakeInvite (m_name c) guid) targetGuid c
                     else (c, []))
           >> (fun c => SendToOne (MakePlayerInvited (m_name c) targetName) guid c)) c
    end.

(** *** Sequences of operations *)

Inductive Op :=
| OpJoin (player : Player) (password : string)
| OpLeave (player : Player) (send : bool)
| OpKickOrBan (player : Player) (targetName : string) (ban : bool)
| OpUnBan (player : Player) (targetName : string)
| OpPassword (player : Player) (password : string)
| OpSetMode (player : Player) (targetName : string) (moderator set : bool)
| OpSetOwner (player : Player) (targetName : string)
| OpSetStatic (state command : bool)
| OpAnnounce (player : Player)
| OpModerate (player : Player)
| OpSay (player : Player) (text : option string) (lang : N)
| OpInvite (player : Player) (targetName : string).

Definition exec (o : Op) : Cmd :=
  match o with
  | OpJoin p pw => Join p pw
  | OpLeave p send => Leave p send
  | OpKickOrBan p t ban => KickOrBan p t ban
  | OpUnBan p t => UnBan p t
  | OpPassword p pw => Password p pw
  | OpSetMode p t moderator set => SetMode p t moderator set
  | OpSetOwner p t => SetOwner_cmd p t
  | OpSetStatic state command => fun c => snd (SetStatic state command c)
  | OpAnnounce p => Announce p
  | OpModerate p => Moderate p
  | OpSay p text lang => Say p text lang
  | OpInvite p t => Invite p t
  end.

Fixpoint run (ops : list Op) (c : Channel) : Channel :=
  match ops with
  | [] => c
  | o :: r => run r (fst (exec o c))
  end.

(** An ownership transfer carried out by a game master while the channel is
    public (built-in or static): the [SetOwner] command of an actor not below
    game master that passes its gates (the actor a member, the name resolved
    to a member of an admissible faction). *)
Definition gm_grant_on_public (o : Op) (c : Channel) : bool :=
  match o with
  | OpSetOwner p t =>
      IsPublic c
      && negb (sec_lt (GetSecurity p) SEC_GAMEMASTER)
      && IsOn c (GetObjectGuid p)
      && match GetPlayerByName w t with
         | Some target =>
             IsOn c (GetObjectGuid target)
             && negb (negb (GetTeam target =? GetTeam p)
                      && negb (CONFIG_BOOL_ALLOW_TWO_SIDE_INTERACTION_CHANNEL w))
         | None => false
         end
  | _ => false
  end.

(** No operation of the sequence is such a transfer, each one looked at in
    the state it is executed in. *)
Fixpoint owner_governed (ops : list Op) (c : Channel) : bool :=
  match ops with
  | [] => true
  | o :: r => negb (gm_grant_on_public o c) && owner_governed r (fst (exec o c))
  end.

End Commands.


(** ** Queries: [SendWhoOwner] and [List] *)

(** What the two queries take from other files besides [World]: the
    who-list visibility level of the configuration,
    [Player::IsVisibleGloballyFor] (first the player looked at, then the
    observer) and [sObjectMgr.GetPlayerNameByGUID], [None] when it returns
    false. *)
Record Directory := mkDirectory {
  CONFIG_UINT32_GM_LEVEL_IN_WHO_LIST : N;
  IsVisibleGloballyFor : Player -> Player -> bool;
  GetPlayerNameByGUID : ObjectGuid -> option string
}.

Definition MakeChannelOwner (d : Directory) (channel : string) (guid : ObjectGuid)
  : WorldPacket :=
  let name :=
    if negb (guid_bool guid) then "Nobody"
    else
      match GetPlayerNameByGUID d guid with
      | Some n => if (String.length n =? 0)%nat then "PLAYER_NOT_FOUND" else n
      | None => "PLAYER_NOT_FOUND"
      end in
  MakeNotifyPacket channel CHAT_CHANNEL_OWNER_NOTICE <<< FString name.

(** The member is hidden from a reader of player security: its security is
    above the who-list level or it is not globally visible for the reader. *)
Definition hidden_from (d : Directory) (member reader : Player) : bool :=
  (CONFIG_UINT32_GM_LEVEL_IN_WHO_LIST d <? AccountTypes_level (GetSecurity member))
  || negb (IsVisibleGloballyFor d member reader).

(** [SendWhoOwner]: the local [ownerGuid] is computed as in the source; the
    packet is made from [guid]. *)
Definition SendWhoOwner (w : World) (d : Directory) (player : Player) : Cmd := fun c =>
  let guid := GetObjectGuid player in
  if negb (IsOn c guid) then SendToOne w (MakeNotMember (m_name c)) guid c
  else
    let ownerGuid := m_ownerGuid c in
    let ownerGuid :=
      if AccountTypes_level (GetSecurity player) =? AccountTypes_level SEC_PLAYER then
        match GetPlayer w ownerGuid with
        | Some owner => if hidden_from d owner player then EmptyGuid else ownerGuid
        | None => ownerGuid
        end
      else ownerGuid in
    SendToOne w (MakeChannelOwner d (m_name c) guid) guid c.

(** The [SMSG_CHANNEL_LIST] packet: channel name, flag byte, the 32-bit count
    written over its placeholder, and the listed (guid, flag byte) pairs. *)
Record ChannelListPacket := mkChannelList {
  list_channel : string;
  list_flags : N;
  list_count : N;
  list_entries : list (ObjectGuid * N)
}.

(** One turn of the loop of [List] on the entries written so far and the
    32-bit counter. *)
Definition List_step (w : World) (d : Directory) (player : Player)
    (acc : list (ObjectGuid * N) * N) (kv : ObjectGuid * PlayerInfo.t)
  : list (ObjectGuid * N) * N :=
  let visibilityCheck :=
    AccountTypes_level (GetSecurity player) =? AccountTypes_level SEC_PLAYER in
  match GetPlayer w (fst kv) with
  | Some member =>
      if visibilityCheck && hidden_from d member player then acc
      else (fst acc ++ [(fst kv, PlayerInfo.flags (snd kv) mod 256)],
            (snd acc + 1) mod 2 ^ 32)
  | None => acc
  end.

(** [List]: either the NotMember notice, or the list packet handed to
    [SendToOne] for the actor. *)
Definition List (w : World) (d : Directory) (player : Player) (c : Channel)
  : list Event + list (ObjectGuid * ChannelListPacket) :=
  let guid := GetObjectGuid player in
  if negb (IsOn c guid) then inl (snd (SendToOne w (MakeNotMember (m_name c)) guid c))
  else
    let '(entries, count) := fold_left (List_step w d player) (m_players c) ([], 0) in
    let data := mkChannelList (m_name c) (GetFlags c mod 256) count entries in
    inr (match GetPlayer w guid with
         | Some _ => [(guid, data)]
         | None => []
         end).

(** * Vocabulary of the statements *)

(** Every entry records its own key in its [player] field. *)
Definition own_keys (m : PlayerList.t) : Prop :=
  Forall (fun kv => PlayerInfo.player (snd kv) = fst kv) m.

(** The keys come in strictly ascending order, as in a [std::map]: no key
    twice, iteration from the smallest guid on. *)
Definition ascending (m : PlayerList.t) : Prop :=
  StronglySorted N.lt (PlayerList.keys m).

(** A table as [Join], [Leave], [KickOrBan] and [SetOwner] build them. *)
Definition wf_players (m : PlayerList.t) : Prop := own_keys m /\ ascending m.

(** The table [SetOwner] leaves, from the table and owner it starts with. *)
Definition SetOwner_players (guid owner : ObjectGuid) (m : PlayerList.t) : PlayerList.t :=
  let m1 :=
    if guid_bool owner then
      match PlayerList.find owner m with
      | Some _ =>
          PlayerList.modify owner (PlayerInfo.SetOwner false)
            (PlayerList.modify owner (PlayerInfo.SetModerator (guid_bool guid)) m)
      | None => m
      end
    else m in
  if guid_bool guid then
    PlayerList.modify guid (PlayerInfo.SetOwner true)
      (PlayerList.subscript guid
         (PlayerList.modify guid (PlayerInfo.SetModerator true)
            (PlayerList.subscript guid m1)))
  else m1.

(** What [SetOwner] does to the entry under key [k]. *)
Definition SetOwner_entry (guid owner k : ObjectGuid) (x : option PlayerInfo.t)
  : option PlayerInfo.t :=
  let x1 :=
    if guid_bool owner && (owner =? k)
    then option_map (fun i => PlayerInfo.SetOwner false
                                (PlayerInfo.SetModerator (guid_bool guid) i)) x
    else x in
  if guid_bool guid && (guid =? k)
  then Some (PlayerInfo.SetOwner true
               (PlayerInfo.SetModerator true
                  (match x1 with Some i => i | None => PlayerInfo.default end)))
  else x1.

(** Two tables with the same keys in the same order, whose entries agree on
    the [player] field: what a change of role bits leaves. *)
Definition same_keys (m m' : PlayerList.t) : Prop :=
  Forall2 (fun a b => fst a = fst b /\ PlayerInfo.player (snd a) = PlayerInfo.player (snd b))
    m m'.

(** [c'] is [c] with role bits changed and nothing else. *)
Definition roles_only (c c' : Channel) : Prop :=
  exists m', c' = set_players m' c /\ same_keys (m_players c) m'.

(** The moderator bit of every entry of [m'] is the one in [m] or cleared. *)
Definition moderators_within (m m' : PlayerList.t) : Prop :=
  forall k i', PlayerList.find k m' = Some i' ->
    exists i, PlayerList.find k m = Some i
              /\ (PlayerInfo.IsModerator i = false -> PlayerInfo.IsModerator i' = false).

(** The conditions under which [SetStatic] refuses, in the order the code
    tests them. *)
Definition SetStatic_blocked (w : World) (state command : bool) (c : Channel) : bool :=
  IsConstant c
  || negb (HasFlag c CHANNEL_FLAG_CUSTOM)
  || eqb (m_static c) state
  || (state && negb (String.length (m_password c) =? 0)%nat)
  || (negb command
      && ((CONFIG_UINT32_CHANNEL_STATIC_AUTO_TRESHOLD w =? 0)
          || negb (eqb state (CONFIG_UINT32_CHANNEL_STATIC_AUTO_TRESHOLD w <=? GetNumPlayers c)))).

(** The channel a successful [SetStatic] leaves. *)
Definition SetStatic_state (w : World) (state : bool) (c : Channel) : Channel :=
  if state then
    let c1 := fst (strip_moderators w (PlayerList.keys (m_players c)) c) in
    let c2 := if guid_bool (m_ownerGuid c1)
              then fst (SetOwner w EmptyGuid (SetOwner_exclaim_default w) c1) else c1 in
    set_static true (set_announce false (set_moderate false c2))
  else
    let c2 := if guid_bool (m_ownerGuid c) then c
              else fst (SetOwner w (SelectNewOwner c) (SetOwner_exclaim_default w) c) in
    set_static false c2.

(** Nobody banned is a member. *)
Definition banned_disjoint (c : Channel) : Prop :=
  forall g, g ∈ m_banned c -> IsOn c g = false.

(** The owner, when there is one, is a member whose role includes moderator. *)
Definition owner_invariant (c : Channel) : Prop :=
  guid_bool (m_ownerGuid c) = true ->
  exists i, PlayerList.find (m_ownerGuid c) (m_players c) = Some i
            /\ PlayerInfo.IsModerator i = true.

(** The same, with the owner bit of the entry. *)
Definition owner_entry (c : Channel) : Prop :=
  guid_bool (m_ownerGuid c) = true ->
  exists i, PlayerList.find (m_ownerGuid c) (m_players c) = Some i
            /\ PlayerInfo.IsModerator i = true /\ PlayerInfo.IsOwner i = true.

(** A public channel has no owner. *)
Definition public_ownerless (c : Channel) : Prop :=
  IsPublic c = true -> m_ownerGuid c = EmptyGuid.

Definition consistent (c : Channel) : Prop :=
  wf_players (m_players c) /\ banned_disjoint c.

Definition governed (c : Channel) : Prop :=
  owner_entry c /\ public_ownerless c.

(** The actor passes the moderator gate of the moderation commands. *)
Definition authorized (c : Channel) (p : Player) : bool :=
  PlayerInfo.IsModerator (member c (GetObjectGuid p))
  || negb (sec_lt (GetSecurity p) SEC_GAMEMASTER).

(** The announce and security gate of the "joined" and "left" notices. *)
Definition announces (w : World) (p : Player) (c : Channel) : bool :=
  m_announce c
  && (sec_lt (GetSecurity p) SEC_GAMEMASTER || negb (CONFIG_BOOL_CHANNEL_GM_JOIN_SILENTLY w)).

(** The ownership protection of [KickOrBan]. *)
Definition owner_protected (c : Channel) (p target : Player) : bool :=
  sec_lt (GetSecurity p) SEC_GAMEMASTER
  && (m_ownerGuid c =? GetObjectGuid target)
  && negb (GetObjectGuid p =? m_ownerGuid c).

(** The operation takes the member the owner guid names out of a public
    channel: the owner's own [Leave], or a [KickOrBan] on the owner that
    passes its gates. *)
Definition removes_owner_on_public (w : World) (o : Op) (c : Channel) : bool :=
  IsPublic c && guid_bool (m_ownerGuid c)
  && match o with
     | OpLeave p _ =>
         IsOn c (GetObjectGuid p) && (GetObjectGuid p =? m_ownerGuid c)
     | OpKickOrBan p t _ =>
         IsOn c (GetObjectGuid p) && authorized c p
         && match GetPlayerByName w t with
            | Some target =>
                IsOn c (GetObjectGuid target)
                && (m_ownerGuid c =? GetObjectGuid target)
                && negb (owner_protected c p target)
            | None => false
            end
     | _ => false
     end.

(** No operation of the sequence does so, each one looked at in the state
    it is executed in. *)
Fixpoint owner_kept (w : World) (ops : list Op) (c : Channel) : bool :=
  match ops with
  | [] => true
  | o :: r => negb (removes_owner_on_public w o c) && owner_kept w r (fst (exec w o c))
  end.

(** The gates of [Say], in the order the code tests them. *)
Definition Say_muted (w : World) (p : Player) (c : Channel) : bool :=
  PlayerInfo.IsMuted (member c (GetObjectGuid p))
  || ((GetChannelId c =? CHANNEL_ID_LOCAL_DEFENSE w)
      && (visualRank p <? SPEAK_IN_LOCALDEFENSE_RANK w)%Z)
  || ((GetChannelId c =? CHANNEL_ID_WORLD_DEFENSE w)
      && (visualRank p <? SPEAK_IN_WORLDDEFENSE_RANK w)%Z).

Definition Say_unmoderated (p : Player) (c : Channel) : bool :=
  m_moderate c && negb (PlayerInfo.IsModerator (member c (GetObjectGuid p)))
  && sec_lt (GetSecurity p) SEC_GAMEMASTER.

Definition Say_language_refused (w : World) (text : string) (c : Channel) : bool :=
  negb (CONFIG_UINT32_CHANNEL_RESTRICTED_LANGUAGE_MODE w =? 0)
  && restricted (CONFIG_UINT32_CHANNEL_RESTRICTED_LANGUAGE_MODE w) c
  && negb (CheckPublicMessageLanguage w text).

Definition Say_accepted (w : World) (p : Player) (text : string) (c : Channel) : bool :=
  IsOn c (GetObjectGuid p)
  && negb (Say_muted w p c)
  && negb (Say_unmoderated p c)
  && negb (Say_language_refused w text c).

(** The chat payload [Say] builds. *)
Definition Say_payload (w : World) (p : Player) (text : string) (lang : N) (c : Channel)
  : WorldPacket :=
  BuildChatPacket text
    (if CONFIG_BOOL_ALLOW_TWO_SIDE_INTERACTION_CHANNEL w then LANG_UNIVERSAL else lang)
    p (m_name c).

(** The channel [KickOrBan] and [Leave] hand to the succession: the member
    gone and, for a ban, the target recorded. *)
Definition removed (ban : bool) (g : ObjectGuid) (c : Channel) : Channel :=
  let c1 := if ban && negb (IsBanned c g) then set_banned ({[g]} ∪ m_banned c) c else c in
  set_players (PlayerList.erase g (m_players c1)) c1.

(** A table filled by joins in the given order. *)
Definition joined (k : ObjectGuid) (flags : N) (m : PlayerList.t) : PlayerList.t :=
  PlayerList.modify k (fun _ => PlayerInfo.mk k flags) (PlayerList.subscript k m).

Definition ann : Player := mkPlayer 1 "Ann" SEC_PLAYER 469 0 0%Z 0 0 [].
Definition bob : Player := mkPlayer 2 "Bob" SEC_PLAYER 469 0 0%Z 0 0 [1].
Definition cid : Player := mkPlayer 3 "Cid" SEC_PLAYER 469 0 0%Z 0 0 [].
Definition gm : Player := mkPlayer 5 "Gm" SEC_GAMEMASTER 469 0 0%Z 0 0 [].

Definition online : list Player := [ann; bob; cid; gm].

(** Everybody is online, "General" is the one built-in channel, the language
    filter refuses the text "@", and [mode] is the restricted-language mode. *)
Definition world_with (mode treshold : N) : World :=
  mkWorld (fun g => List.find (fun p => GetObjectGuid p =? g) online)
          (fun n => List.find (fun p => String.eqb (GetName p) n) online)
          (fun t => negb (String.eqb t "@"))
          (fun n => if String.eqb n "General" then Some (mkEntry 1 0) else None)
          false false mode treshold 22 23 0%Z 11%Z true.

Definition demo_world : World := world_with 0 0.

(** [Join] lets the player in: not yet a member, not banned, the password
    gate and the guild rule passed. *)
Definition Join_admitted (p : Player) (password : string) (c : Channel) : bool :=
  negb (IsOn c (GetObjectGuid p))
  && negb (IsBanned c (GetObjectGuid p))
  && negb ((0 <? String.length (m_password c))%nat
           && negb (String.eqb password (m_password c)))
  && negb (negb (GetGuildId p =? 0) && (GetFlags c =? 0x38)).

(** The faction gate of [SetMode]. *)
Definition SetMode_wrong_faction (w : World) (p target : Player) : bool :=
  (sec_lt (GetSecurity p) SEC_GAMEMASTER || sec_lt (GetSecurity target) SEC_GAMEMASTER)
  && negb (GetTeam p =? GetTeam target)
  && negb (CONFIG_BOOL_ALLOW_TWO_SIDE_INTERACTION_CHANNEL w).

(** The faction gate of the [SetOwner] command and of [Invite]. *)
Definition wrong_faction (w : World) (p target : Player) : bool :=
  negb (GetTeam target =? GetTeam p)
  && negb (CONFIG_BOOL_ALLOW_TWO_SIDE_INTERACTION_CHANNEL w).

(** The classification of a channel: what no command changes, and the static
    flag of a built-in channel. *)
Definition same_class (c c' : Channel) : Prop :=
  m_name c' = m_name c
  /\ m_flags c' = m_flags c
  /\ m_channelId c' = m_channelId c
  /\ m_realmzone c' = m_realmzone c
  /\ (IsConstant c = true -> m_static c' = m_static c).

(** Every packet of the list goes to a player the object manager finds. *)
Definition to_online (w : World) (events : list Event) : Prop :=
  Forall (fun e => GetPlayer w (fst e) <> None) events.

(** The channel a packet names. *)
Definition packet_channel (data : WorldPacket) : string :=
  match data with
  | SMSG_CHANNEL_NOTIFY _ channel _ => channel
  | SMSG_MESSAGECHAT _ _ _ _ _ channel _ => channel
  end.

(** Every packet of the list names the channel and goes to a player the
    object manager finds. *)
Definition well_sent (w : World) (name : string) (events : list Event) : Prop :=
  to_online w events /\ Forall (fun e => packet_channel (snd e) = name) events.

(** The result of a command run from [c]: the name is kept and the packets
    are well sent. *)
Definition addressed (w : World) (c : Channel) (r : Channel * list Event) : Prop :=
  m_name (fst r) = m_name c /\ well_sent w (m_name c) (snd r).

(** A command that does so from every channel. *)
Definition keeps_address (w : World) (a : Cmd) : Prop := forall c, addressed w c (a c).

(** The player in whose name an operation is carried out, for the operations
    that answer a non-member with NotMember. *)
Definition actor (o : Op) : option Player :=
  match o with
  | OpLeave p true => Some p
  | OpKickOrBan p _ _ | OpUnBan p _ | OpPassword p _ | OpSetMode p _ _ _
  | OpSetOwner p _ | OpAnnounce p | OpModerate p | OpSay p (Some _) _
  | OpInvite p _ => Some p
  | _ => None
  end.

(** The operations behind the moderator gate. *)
Definition moderation (o : Op) : option Player :=
  match o with
  | OpKickOrBan p _ _ | OpUnBan p _ | OpPassword p _ | OpSetMode p _ _ _
  | OpAnnounce p | OpModerate p => Some p
  | _ => None
  end.

(** The owner bit is carried by no entry but the one of the owner guid, which
    is then not empty. *)
Definition sole_owner (c : Channel) : Prop :=
  forall k i, PlayerList.find k (m_players c) = Some i -> PlayerInfo.IsOwner i = true ->
    k = m_ownerGuid c /\ guid_bool k = true.

(** The settings of a channel, as opposed to its members and owner: the
    banned set, the password and the three switches. *)
Definition settings_kept (c c' : Channel) : Prop :=
  m_banned c' = m_banned c
  /\ m_password c' = m_password c
  /\ m_announce c' = m_announce c
  /\ m_moderate c' = m_moderate c
  /\ m_static c' = m_static c.

(** A directory in which everybody is visible and known by name. *)
Definition demo_directory : Directory :=
  mkDirectory 0 (fun _ _ => true)
    (fun g => option_map GetName (List.find (fun p => GetObjectGuid p =? g) online)).

(** * Properties *)

(** ** Role bits *)

Ltac bits_of n :=
  destruct n as [|[[[[?|?|]|[?|?|]|]|[[?|?|]|[?|?|]|]|]|[[[?|?|]|[?|?|]|]|[[?|?|]|[?|?|]|]|]|]];
  try reflexivity.

Lemma ApplyFlag_player flag b i :
  PlayerInfo.player (PlayerInfo.ApplyFlag flag b i) = PlayerInfo.player i.
Proof. unfold PlayerInfo.ApplyFlag. by destruct b. Qed.

Lemma IsModerator_SetModerator b i :
  PlayerInfo.IsModerator (PlayerInfo.SetModerator b i) = b.
Proof.
  destruct i as [p f]. unfold PlayerInfo.IsModerator, PlayerInfo.SetModerator,
    PlayerInfo.HasFlag, PlayerInfo.ApplyFlag, MEMBER_FLAG_MODERATOR.
  destruct b; simpl; bits_of f.
Qed.

Lemma IsOwner_SetOwner b i : PlayerInfo.IsOwner (PlayerInfo.SetOwner b i) = b.
Proof.
  destruct i as [p f]. unfold PlayerInfo.IsOwner, PlayerInfo.SetOwner,
    PlayerInfo.HasFlag, PlayerInfo.ApplyFlag, MEMBER_FLAG_OWNER.
  destruct b; simpl; bits_of f.
Qed.

Lemma IsModerator_SetOwner b i :
  PlayerInfo.IsModerator (PlayerInfo.SetOwner b i) = PlayerInfo.IsModerator i.
Proof.
  destruct i as [p f]. unfold PlayerInfo.IsModerator, PlayerInfo.SetOwner,
    PlayerInfo.HasFlag, PlayerInfo.ApplyFlag, MEMBER_FLAG_OWNER, MEMBER_FLAG_MODERATOR.
  destruct b; simpl; bits_of f.
Qed.

Lemma IsOwner_SetModerator b i :
  PlayerInfo.IsOwner (PlayerInfo.SetModerator b i) = PlayerInfo.IsOwner i.
Proof.
  destruct i as [p f]. unfold PlayerInfo.IsOwner, PlayerInfo.SetModerator,
    PlayerInfo.HasFlag, PlayerInfo.ApplyFlag, MEMBER_FLAG_OWNER, MEMBER_FLAG_MODERATOR.
  destruct b; simpl; bits_of f.
Qed.

Lemma IsModerator_SetMuted b i :
  PlayerInfo.IsModerator (PlayerInfo.SetMuted b i) = PlayerInfo.IsModerator i.
Proof.
  destruct i as [p f]. unfold PlayerInfo.IsModerator, PlayerInfo.SetMuted,
    PlayerInfo.HasFlag, PlayerInfo.ApplyFlag, MEMBER_FLAG_MUTED, MEMBER_FLAG_MODERATOR.
  destruct b; simpl; bits_of f.
Qed.

Lemma IsOwner_SetMuted b i :
  PlayerInfo.IsOwner (PlayerInfo.SetMuted b i) = PlayerInfo.IsOwner i.
Proof.
  destruct i as [p f]. unfold PlayerInfo.IsOwner, PlayerInfo.SetMuted,
    PlayerInfo.HasFlag, PlayerInfo.ApplyFlag, MEMBER_FLAG_MUTED, MEMBER_FLAG_OWNER.
  destruct b; simpl; bits_of f.
Qed.

Ltac flag_player :=
  intros; unfold PlayerInfo.SetOwner, PlayerInfo.SetModerator, PlayerInfo.SetMuted;
  rewrite ?ApplyFlag_player; auto.

(** ** The members table *)

Lemma find_modify_eq k f m :
  PlayerList.find k (PlayerList.modify k f m) = option_map f (PlayerList.find k m).
Proof.
  induction m as [|[k' i] r IH]; simpl; [done|].
  destruct (N.eqb_spec k' k) as [->|Hne]; simpl.
  - by rewrite N.eqb_refl.
  - destruct (N.eqb_spec k' k); [done|]. apply IH.
Qed.

Lemma find_modify_ne k k' f m :
  k ≠ k' -> PlayerList.find k' (PlayerList.modify k f m) = PlayerList.find k' m.
Proof.
  intros Hne. induction m as [|[k1 i] r IH]; simpl; [done|].
  destruct (N.eqb_spec k1 k) as [->|H1]; simpl.
  - destruct (N.eqb_spec k k'); [done|]. apply IH.
  - destruct (N.eqb_spec k1 k'); [done|]. apply IH.
Qed.

Lemma find_erase_eq k m : PlayerList.find k (PlayerList.erase k m) = None.
Proof.
  induction m as [|[k' i] r IH]; simpl; [done|].
  destruct (N.eqb_spec k' k) as [->|Hne]; simpl; [done|].
  destruct (N.eqb_spec k' k); [done|]. apply IH.
Qed.

Lemma find_erase_ne k k' m :
  k ≠ k' -> PlayerList.find k' (PlayerList.erase k m) = PlayerList.find k' m.
Proof.
  intros Hne. induction m as [|[k1 i] r IH]; simpl; [done|].
  destruct (N.eqb_spec k1 k) as [->|H1]; simpl.
  - destruct (N.eqb_spec k k'); [done|]. apply IH.
  - destruct (N.eqb_spec k1 k'); [done|]. apply IH.
Qed.

Lemma find_insert_eq k i m : PlayerList.find k (PlayerList.insert k i m) = Some i.
Proof.
  induction m as [|[k' i'] r IH]; simpl.
  - by rewrite N.eqb_refl.
  - destruct (N.ltb_spec k k'); simpl.
    + by rewrite N.eqb_refl.
    + destruct (N.eqb_spec k' k) as [->|Hne]; simpl.
      * by rewrite N.eqb_refl.
      * destruct (N.eqb_spec k' k); [done|]. apply IH.
Qed.

Lemma find_insert_ne k k' i m :
  k ≠ k' -> PlayerList.find k' (PlayerList.insert k i m) = PlayerList.find k' m.
Proof.
  intros Hne. induction m as [|[k1 i1] r IH]; simpl.
  - by destruct (N.eqb_spec k k').
  - destruct (N.ltb_spec k k1); simpl.
    + by destruct (N.eqb_spec k k').
    + destruct (N.eqb_spec k1 k) as [->|H1]; simpl.
      * by destruct (N.eqb_spec k k').
      * destruct (N.eqb_spec k1 k'); [done|]. apply IH.
Qed.

Lemma subscript_found k i m :
  PlayerList.find k m = Some i -> PlayerList.subscript k m = m.
Proof. unfold PlayerList.subscript. by intros ->. Qed.

Lemma find_subscript_eq k m :
  PlayerList.find k (PlayerList.subscript k m)
  = Some (match PlayerList.find k m with Some i => i | None => PlayerInfo.default end).
Proof.
  unfold PlayerList.subscript. destruct (PlayerList.find k m) eqn:E; [done|].
  apply find_insert_eq.
Qed.

Lemma find_subscript_ne k k' m :
  k ≠ k' -> PlayerList.find k' (PlayerList.subscript k m) = PlayerList.find k' m.
Proof.
  intros Hne. unfold PlayerList.subscript.
  destruct (PlayerList.find k m); [done|]. by apply find_insert_ne.
Qed.

Lemma keys_modify k f m : PlayerList.keys (PlayerList.modify k f m) = PlayerList.keys m.
Proof.
  induction m as [|[k' i] r IH]; simpl; [done|].
  destruct (k' =? k); simpl; by rewrite IH.
Qed.

Lemma size_modify k f m : PlayerList.size (PlayerList.modify k f m) = PlayerList.size m.
Proof.
  unfold PlayerList.size. f_equal.
  change (List.length (PlayerList.modify k f m)) with (length (PlayerList.modify k f m)).
  rewrite <- (length_map fst (PlayerList.modify k f m)).
  fold (PlayerList.keys (PlayerList.modify k f m)). rewrite keys_modify.
  unfold PlayerList.keys. by rewrite length_map.
Qed.

Lemma find_In k i m : PlayerList.find k m = Some i -> In (k, i) m.
Proof.
  induction m as [|[k' i'] r IH]; simpl; [done|].
  destruct (N.eqb_spec k' k) as [->|Hne]; intros H.
  - left. congruence.
  - right. by apply IH.
Qed.

Lemma In_find k i m : In (k, i) m -> exists i', PlayerList.find k m = Some i'.
Proof.
  induction m as [|[k' i'] r IH]; simpl; [done|].
  intros [H|H].
  - inversion H; subst. rewrite N.eqb_refl. eauto.
  - destruct (k' =? k); eauto.
Qed.

Lemma find_keys k i m : PlayerList.find k m = Some i -> In k (PlayerList.keys m).
Proof. intros H. apply find_In in H. apply (in_map fst) in H. exact H. Qed.

Lemma In_keys_erase x k m :
  In x (PlayerList.keys (PlayerList.erase k m)) -> In x (PlayerList.keys m).
Proof.
  induction m as [|[k' i] r IH]; simpl; [done|].
  destruct (k' =? k); simpl; intros H; [right; auto|].
  destruct H as [H|H]; [by left|right; auto].
Qed.

Lemma In_keys_insert x k i m :
  In x (PlayerList.keys (PlayerList.insert k i m)) -> x = k \/ In x (PlayerList.keys m).
Proof.
  induction m as [|[k' i'] r IH]; simpl.
  - intros [H|[]]; by left.
  - destruct (k <? k'); simpl.
    + intros [H|[H|H]]; auto.
    + destruct (k' =? k); simpl.
      * intros [H|H]; auto.
      * intros [H|H]; [auto|]. destruct (IH H); auto.
Qed.

Lemma ascending_erase k m : ascending m -> ascending (PlayerList.erase k m).
Proof.
  unfold ascending. induction m as [|[k' i] r IH]; simpl; [done|].
  intros H. apply StronglySorted_inv in H as [Hr Hk].
  destruct (k' =? k); [by apply IH|]. simpl. constructor; [by apply IH|].
  rewrite List.Forall_forall in *. intros x Hx. apply Hk. by eapply In_keys_erase.
Qed.

Lemma ascending_insert k i m : ascending m -> ascending (PlayerList.insert k i m).
Proof.
  unfold ascending. induction m as [|[k' i'] r IH]; simpl.
  - intros _. repeat constructor.
  - intros H. pose proof H as H0. apply StronglySorted_inv in H as [Hr Hk].
    destruct (N.ltb_spec k k') as [Hlt|Hge]; simpl.
    + constructor; [done|]. constructor; [done|].
      rewrite List.Forall_forall in *. intros x Hx. specialize (Hk x Hx). lia.
    + destruct (N.eqb_spec k' k) as [->|Hne]; simpl; [done|].
      constructor; [by apply IH|].
      rewrite List.Forall_forall in *. intros x Hx.
      destruct (In_keys_insert _ _ _ _ Hx) as [->|Hin]; [lia|by apply Hk].
Qed.

Lemma wf_modify k f m :
  (forall i, PlayerInfo.player i = k -> PlayerInfo.player (f i) = k) ->
  wf_players m -> wf_players (PlayerList.modify k f m).
Proof.
  intros Hf [Ho Ha]. split; [|unfold ascending; by rewrite keys_modify].
  clear Ha. induction Ho as [|[k' i] r Hki Hr IH]; simpl; [constructor|].
  destruct (N.eqb_spec k' k) as [->|Hne]; constructor; simpl in *; auto.
Qed.

Lemma wf_erase k m : wf_players m -> wf_players (PlayerList.erase k m).
Proof.
  intros [Ho Ha]. split; [|by apply ascending_erase].
  clear Ha. induction Ho as [|[k' i] r Hki Hr IH]; simpl; [constructor|].
  destruct (k' =? k); [done|]. by constructor.
Qed.

Lemma wf_insert k i m :
  PlayerInfo.player i = k -> wf_players m -> wf_players (PlayerList.insert k i m).
Proof.
  intros Hi [Ho Ha]. split; [|by apply ascending_insert].
  clear Ha. induction Ho as [|[k' i'] r Hki Hr IH]; simpl.
  - by repeat constructor.
  - destruct (k <? k'); [by repeat constructor|].
    destruct (N.eqb_spec k' k) as [->|Hne]; by constructor.
Qed.

Lemma wf_find k i m : wf_players m -> PlayerList.find k m = Some i -> PlayerInfo.player i = k.
Proof.
  intros [Hwf _] Hf. apply find_In in Hf.
  unfold own_keys in Hwf. rewrite Forall_forall in Hwf. apply (Hwf (k, i)).
  by apply list_elem_of_In.
Qed.

Lemma first_moderator_found m g :
  wf_players m -> first_moderator m = Some g ->
  exists i, PlayerList.find g m = Some i.
Proof.
  intros [Ho _]. induction Ho as [|[k i] r Hki Hr IH]; simpl; [done|].
  destruct (PlayerInfo.IsModerator i).
  - intros [= <-]. simpl in Hki. rewrite Hki, N.eqb_refl. eauto.
  - intros H. destruct (k =? g); eauto.
Qed.

Lemma SelectNewOwner_found c :
  wf_players (m_players c) ->
  guid_bool (SelectNewOwner c) = true -> IsOn c (SelectNewOwner c) = true.
Proof.
  intros Hwf. unfold SelectNewOwner, IsOn.
  destruct (first_moderator (m_players c)) as [g|] eqn:E.
  - destruct (first_moderator_found _ _ Hwf E) as [i ->]. done.
  - destruct (m_players c) as [|[k i] r]; [done|]. destruct Hwf as [Hwf _].
    inversion Hwf as [|? ? Hki]; subst. simpl in Hki. simpl.
    intros _. by rewrite Hki, N.eqb_refl.
Qed.

(** ** Commands: state and packets *)

Lemma fst_seq (a b : Cmd) c : fst ((a >> b) c) = fst (b (fst (a c))).
Proof. unfold seq. destruct (a c) as [c1 e1]. simpl. by destruct (b c1). Qed.


Lemma guid_bool_true g : guid_bool g = true <-> g ≠ 0.
Proof. unfold guid_bool. destruct (N.eqb_spec g 0); simpl; split; congruence. Qed.

Lemma guid_bool_Npos p : guid_bool (Npos p) = true.
Proof. done. Qed.

Lemma fst_SetOwner w guid exclaim c :
  fst (SetOwner w guid exclaim c)
  = set_players (SetOwner_players guid (m_ownerGuid c) (m_players c)) (set_ownerGuid guid c).
Proof.
  unfold SetOwner. rewrite !fst_seq. unfold SetOwner_players, update.
  destruct c as [an mo na fl ci ow st rz pw pl bn]; simpl.
  destruct (guid_bool ow); simpl;
    [destruct (PlayerList.find ow pl); simpl|];
    destruct (guid_bool guid); simpl; destruct exclaim; reflexivity.
Qed.

Lemma find_SetOwner_players guid owner m k :
  PlayerList.find k (SetOwner_players guid owner m)
  = SetOwner_entry guid owner k (PlayerList.find k m).
Proof.
  unfold SetOwner_players, SetOwner_entry.
  set (m1 := if guid_bool owner then _ else m).
  assert (H1 : PlayerList.find k m1
               = if guid_bool owner && (owner =? k)
                 then option_map (fun i => PlayerInfo.SetOwner false
                        (PlayerInfo.SetModerator (guid_bool guid) i)) (PlayerList.find k m)
                 else PlayerList.find k m).
  { subst m1. destruct (guid_bool owner); simpl; [|done].
    destruct (N.eqb_spec owner k) as [->|Hne].
    - destruct (PlayerList.find k m) eqn:E; simpl; [|done].
      rewrite !find_modify_eq, E. done.
    - destruct (PlayerList.find owner m); [|done].
      by rewrite !find_modify_ne. }
  destruct (guid_bool guid); simpl; [|exact H1].
  destruct (N.eqb_spec guid k) as [->|Hne].
  - rewrite find_modify_eq, find_subscript_eq, find_modify_eq, find_subscript_eq, H1.
    simpl. done.
  - rewrite find_modify_ne, find_subscript_ne, find_modify_ne, find_subscript_ne by done.
    exact H1.
Qed.

Lemma same_keys_refl m : same_keys m m.
Proof. induction m; constructor; auto. Qed.

Lemma same_keys_trans m1 m2 m3 : same_keys m1 m2 -> same_keys m2 m3 -> same_keys m1 m3.
Proof.
  intros H. revert m3. induction H as [|a b r1 r2 [Hk Hp] Hr IH]; intros m3 H3.
  - inversion H3. constructor.
  - inversion H3 as [|? c ? r3 [Hk' Hp'] Hr']; subst. constructor.
    + split; congruence.
    + by apply IH.
Qed.

Lemma same_keys_modify k f m :
  (forall i, PlayerInfo.player (f i) = PlayerInfo.player i) ->
  same_keys m (PlayerList.modify k f m).
Proof.
  intros Hf. induction m as [|[k' i] r IH]; simpl; [constructor|].
  destruct (k' =? k); constructor; simpl; auto.
Qed.

Lemma same_keys_keys m m' : same_keys m m' -> PlayerList.keys m' = PlayerList.keys m.
Proof.
  induction 1 as [|a b r1 r2 [Hk Hp] Hr IH]; [done|].
  simpl. by rewrite IH, Hk.
Qed.

Lemma same_keys_wf m m' : same_keys m m' -> wf_players m -> wf_players m'.
Proof.
  intros Hs [Ho Ha]. split; [|unfold ascending; by rewrite (same_keys_keys _ _ Hs)].
  clear Ha. induction Hs as [|a b r1 r2 [Hk Hp] Hr IH]; [done|].
  inversion Ho as [|? ? Ha Hr']; subst. constructor.
  - simpl in *. congruence.
  - by apply IH.
Qed.

Lemma same_keys_size m m' : same_keys m m' -> PlayerList.size m' = PlayerList.size m.
Proof.
  intros H. unfold PlayerList.size. f_equal.
  apply same_keys_keys in H. unfold PlayerList.keys in H.
  apply (f_equal (@List.length _)) in H. by rewrite !length_map in H.
Qed.

Lemma same_keys_find_None m m' k :
  same_keys m m' -> PlayerList.find k m' = None <-> PlayerList.find k m = None.
Proof.
  induction 1 as [|[k1 i1] [k2 i2] r1 r2 [Hk Hp] Hr IH]; [done|].
  simpl in *. subst k2. destruct (k1 =? k); [done|exact IH].
Qed.

Lemma same_keys_SetOwner_players guid owner m :
  (guid_bool guid = true -> exists i, PlayerList.find guid m = Some i) ->
  same_keys m (SetOwner_players guid owner m).
Proof.
  intros Hon. unfold SetOwner_players.
  set (m1 := if guid_bool owner then _ else m).
  assert (Hk1 : same_keys m m1).
  { subst m1. destruct (guid_bool owner); [|apply same_keys_refl].
    destruct (PlayerList.find owner m); [|apply same_keys_refl].
    eapply same_keys_trans; apply same_keys_modify; flag_player. }
  assert (Hf1 : guid_bool guid = true -> exists i, PlayerList.find guid m1 = Some i).
  { intros Hg. destruct (Hon Hg) as [i Hi].
    destruct (PlayerList.find guid m1) eqn:E; [eauto|].
    apply (same_keys_find_None _ _ _ Hk1) in E. congruence. }
  destruct (guid_bool guid) eqn:Hg; [|done].
  destruct (Hf1 eq_refl) as [i Hi].
  rewrite (subscript_found _ _ _ Hi).
  erewrite subscript_found by (rewrite find_modify_eq, Hi; reflexivity).
  eapply same_keys_trans; [exact Hk1|].
  eapply same_keys_trans; apply same_keys_modify; flag_player.
Qed.

Lemma fst_SetModerator w g set c :
  fst (SetModerator w g set c)
  = match PlayerList.find g (m_players c) with
    | Some i =>
        if eqb (PlayerInfo.IsModerator i) set then c
        else set_players (PlayerList.modify g (PlayerInfo.SetModerator set) (m_players c)) c
    | None => c
    end.
Proof.
  unfold SetModerator. destruct (PlayerList.find g (m_players c)); [|done].
  by destruct (eqb _ _).
Qed.

Lemma fst_SetMute w g set c :
  fst (SetMute w g set c)
  = match PlayerList.find g (m_players c) with
    | Some i =>
        if eqb (PlayerInfo.IsMuted i) set then c
        else set_players (PlayerList.modify g (PlayerInfo.SetMuted set) (m_players c)) c
    | None => c
    end.
Proof.
  unfold SetMute. destruct (PlayerList.find g (m_players c)); [|done].
  by destruct (eqb _ _).
Qed.

Lemma set_players_id c : set_players (m_players c) c = c.
Proof. by destruct c. Qed.

Lemma roles_only_refl c : roles_only c c.
Proof. exists (m_players c). split; [by rewrite set_players_id|apply same_keys_refl]. Qed.

Lemma roles_only_trans c1 c2 c3 : roles_only c1 c2 -> roles_only c2 c3 -> roles_only c1 c3.
Proof.
  intros (m2 & -> & H2) (m3 & -> & H3). exists m3. split; [by destruct c1|].
  simpl in H3. by eapply same_keys_trans.
Qed.

Lemma roles_only_modify k f c :
  (forall i, PlayerInfo.player (f i) = PlayerInfo.player i) ->
  roles_only c (set_players (PlayerList.modify k f (m_players c)) c).
Proof. intros Hf. eexists. split; [done|]. by apply same_keys_modify. Qed.

Lemma roles_only_SetModerator w g set c : roles_only c (fst (SetModerator w g set c)).
Proof.
  rewrite fst_SetModerator. destruct (PlayerList.find g (m_players c)); [|apply roles_only_refl].
  destruct (eqb _ _); [apply roles_only_refl|]. apply roles_only_modify. flag_player.
Qed.

Lemma roles_only_SetMute w g set c : roles_only c (fst (SetMute w g set c)).
Proof.
  rewrite fst_SetMute. destruct (PlayerList.find g (m_players c)); [|apply roles_only_refl].
  destruct (eqb _ _); [apply roles_only_refl|]. apply roles_only_modify. flag_player.
Qed.

Lemma moderators_within_refl m : moderators_within m m.
Proof. intros k i H. eauto. Qed.

Lemma moderators_within_trans m1 m2 m3 :
  moderators_within m1 m2 -> moderators_within m2 m3 -> moderators_within m1 m3.
Proof.
  intros H12 H23 k i3 H3. destruct (H23 _ _ H3) as (i2 & H2 & Hb2).
  destruct (H12 _ _ H2) as (i1 & H1 & Hb1). eauto.
Qed.

Lemma moderators_within_clear k m :
  moderators_within m (PlayerList.modify k (PlayerInfo.SetModerator false) m).
Proof.
  intros k' i' H. destruct (N.eq_dec k k') as [->|Hne].
  - rewrite find_modify_eq in H. destruct (PlayerList.find k' m) as [i|]; [|done].
    cbn [option_map] in H. injection H as <-. exists i. split; [done|].
    intros _. exact (IsModerator_SetModerator false i).
  - rewrite find_modify_ne in H by done. eauto.
Qed.

Lemma strip_moderators_spec w ks : forall c,
  wf_players (m_players c) ->
  let c' := fst (strip_moderators w ks c) in
  roles_only c c'
  /\ moderators_within (m_players c) (m_players c')
  /\ (forall k i', In k ks -> PlayerList.find k (m_players c') = Some i' ->
        PlayerInfo.IsModerator i' = false).
Proof.
  induction ks as [|k r IH]; intros c Hwf; simpl.
  - split; [apply roles_only_refl|]. split; [apply moderators_within_refl|]. tauto.
  - rewrite fst_seq.
    set (c1 := fst (match PlayerList.find k (m_players c) with
                    | Some i => _ | None => _ end)).
    assert (H1 : roles_only c c1
                 /\ moderators_within (m_players c) (m_players c1)
                 /\ (forall i', PlayerList.find k (m_players c1) = Some i' ->
                       PlayerInfo.IsModerator i' = false)).
    { subst c1. destruct (PlayerList.find k (m_players c)) as [i|] eqn:E; simpl.
      - destruct (PlayerInfo.IsModerator i) eqn:Em; simpl.
        + rewrite (wf_find _ _ _ Hwf E), fst_SetModerator, E, Em. simpl.
          split; [apply roles_only_modify; flag_player|].
          split; [apply moderators_within_clear|].
          intros i'. cbn [m_players set_players]. rewrite find_modify_eq, E.
          cbn [option_map]. intros [= <-].
          exact (IsModerator_SetModerator false i).
        + split; [apply roles_only_refl|]. split; [apply moderators_within_refl|].
          intros i'. rewrite E. by intros [= <-].
      - split; [apply roles_only_refl|]. split; [apply moderators_within_refl|].
        intros i'. by rewrite E. }
    destruct H1 as (Hr1 & Hm1 & Hk1).
    assert (Hwf1 : wf_players (m_players c1)).
    { destruct Hr1 as (m1 & -> & Hs). simpl. by eapply same_keys_wf. }
    destruct (IH c1 Hwf1) as (Hr2 & Hm2 & Hk2).
    split; [by eapply roles_only_trans|].
    split; [by eapply moderators_within_trans|].
    intros k' i' [<-|Hin] Hf.
    + destruct (Hm2 _ _ Hf) as (i1 & Hf1 & Hb). apply Hb. by apply Hk1.
    + by eapply Hk2.
Qed.

(** ** Static conversion *)

Lemma SetStatic_refused w state command c :
  SetStatic_blocked w state command c = true ->
  SetStatic w state command c = (false, (c, [])).
Proof.
  unfold SetStatic_blocked, SetStatic. intros H.
  destruct (IsConstant c || negb (HasFlag c CHANNEL_FLAG_CUSTOM) || eqb (m_static c) state);
    [done|].
  destruct (state && negb (String.length (m_password c) =? 0)%nat); [done|].
  simpl in H. by rewrite H.
Qed.

Lemma SetStatic_performed w state command c :
  SetStatic_blocked w state command c = false ->
  fst (SetStatic w state command c) = true
  /\ fst (snd (SetStatic w state command c)) = SetStatic_state w state c.
Proof.
  unfold SetStatic_blocked, SetStatic. intros H.
  destruct (IsConstant c || negb (HasFlag c CHANNEL_FLAG_CUSTOM) || eqb (m_static c) state);
    [done|].
  destruct (state && negb (String.length (m_password c) =? 0)%nat); [done|].
  simpl in H. rewrite H. split; [done|].
  cbn [snd]. rewrite !fst_seq. unfold SetStatic_state, update.
  destruct state; cbn [fst eqb andb].
  - set (c1 := fst (strip_moderators w _ c)).
    destruct (guid_bool (m_ownerGuid c1)); cbn [fst].
    + set (c2 := fst (SetOwner w _ _ c1)).
      destruct c2 as [an mo na fl ci ow st rz pw pl bn]; simpl.
      destruct mo, an; reflexivity.
    + destruct c1 as [an mo na fl ci ow st rz pw pl bn]; simpl.
      destruct mo, an; reflexivity.
  - destruct (guid_bool (m_ownerGuid c)); cbn [fst]; reflexivity.
Qed.

(** ** Invariants of the reachable channels *)

Lemma IsOn_false c g : IsOn c g = false <-> PlayerList.find g (m_players c) = None.
Proof. unfold IsOn. destruct (PlayerList.find g (m_players c)); split; congruence. Qed.

Lemma IsOn_true c g : IsOn c g = true <-> exists i, PlayerList.find g (m_players c) = Some i.
Proof.
  unfold IsOn. destruct (PlayerList.find g (m_players c)); split; eauto; try congruence.
  by intros [? ?].
Qed.

Lemma member_found c g i : PlayerList.find g (m_players c) = Some i -> member c g = i.
Proof. unfold member. by intros ->. Qed.

Lemma roles_only_IsOn c c' g : roles_only c c' -> IsOn c' g = IsOn c g.
Proof.
  intros (m' & -> & Hs). pose proof (same_keys_find_None _ _ g Hs) as H.
  unfold IsOn. simpl.
  destruct H as [H1 H2].
  destruct (PlayerList.find g m'), (PlayerList.find g (m_players c)); try done.
  - discriminate (H2 eq_refl).
  - discriminate (H1 eq_refl).
Qed.

Lemma consistent_roles_only c c' : roles_only c c' -> consistent c -> consistent c'.
Proof.
  intros Hr [Hwf Hb]. split.
  - destruct Hr as (m' & -> & Hs). simpl. by eapply same_keys_wf.
  - intros g Hg. rewrite (roles_only_IsOn _ _ _ Hr). apply Hb.
    destruct Hr as (m' & -> & Hs). exact Hg.
Qed.

Lemma SetOwner_roles_only w guid exclaim c :
  (guid_bool guid = true -> IsOn c guid = true) ->
  roles_only (set_ownerGuid guid c) (fst (SetOwner w guid exclaim c)).
Proof.
  intros Hon. rewrite fst_SetOwner. eexists. split; [done|].
  simpl. apply same_keys_SetOwner_players. intros Hg. by apply IsOn_true, Hon.
Qed.

Lemma consistent_SetOwner w guid exclaim c :
  (guid_bool guid = true -> IsOn c guid = true) ->
  consistent c -> consistent (fst (SetOwner w guid exclaim c)).
Proof.
  intros Hon Hc. eapply consistent_roles_only; [by apply SetOwner_roles_only|].
  destruct Hc as [Hwf Hb]. split; [done|]. exact Hb.
Qed.

Lemma owner_entry_SetOwner w guid exclaim c :
  owner_entry (fst (SetOwner w guid exclaim c)).
Proof.
  rewrite fst_SetOwner. intros Hg.
  cbn [m_players m_ownerGuid set_players set_ownerGuid] in *.
  rewrite find_SetOwner_players. unfold SetOwner_entry.
  rewrite Hg, N.eqb_refl. cbn [andb]. eexists. split; [reflexivity|].
  by rewrite IsModerator_SetOwner, IsModerator_SetModerator, IsOwner_SetOwner.
Qed.

Lemma SetOwner_ownerGuid w guid exclaim c :
  m_ownerGuid (fst (SetOwner w guid exclaim c)) = guid.
Proof. by rewrite fst_SetOwner. Qed.

Lemma consistent_SetStatic_state w state c :
  consistent c -> consistent (SetStatic_state w state c).
Proof.
  intros Hc. unfold SetStatic_state. destruct state.
  - destruct (strip_moderators_spec w (PlayerList.keys (m_players c)) c (proj1 Hc))
      as (Hr & _ & _).
    set (c1 := fst (strip_moderators w _ c)) in *.
    assert (H1 : consistent c1) by (by eapply consistent_roles_only).
    assert (H2 : consistent (if guid_bool (m_ownerGuid c1)
                             then fst (SetOwner w EmptyGuid (SetOwner_exclaim_default w) c1)
                             else c1)).
    { destruct (guid_bool (m_ownerGuid c1)); [|done].
      apply consistent_SetOwner; [done|done]. }
    exact H2.
  - destruct (guid_bool (m_ownerGuid c)); [exact Hc|].
    assert (H2 : consistent (fst (SetOwner w (SelectNewOwner c) (SetOwner_exclaim_default w) c))).
    { apply consistent_SetOwner; [|done]. apply SelectNewOwner_found, Hc. }
    exact H2.
Qed.

Lemma modify_insert k i d m :
  PlayerList.find k m = None ->
  PlayerList.modify k (fun _ => i) (PlayerList.insert k d m) = PlayerList.insert k i m.
Proof.
  induction m as [|[k' i'] r IH]; simpl.
  - by rewrite N.eqb_refl.
  - destruct (N.eqb_spec k' k) as [->|Hne]; [done|]. intros Hf.
    destruct (N.ltb_spec k k'); simpl.
    + rewrite N.eqb_refl. destruct (N.eqb_spec k' k); [done|].
      f_equal. f_equal. clear IH. induction r as [|[k2 i2] r2 IH2]; simpl in *; [done|].
      destruct (N.eqb_spec k2 k); [done|]. f_equal. by apply IH2.
    + destruct (N.eqb_spec k' k); [done|]. simpl.
      destruct (N.eqb_spec k' k); [done|]. f_equal. by apply IH.
Qed.

Lemma wf_assign k i m :
  PlayerInfo.player i = k -> wf_players m ->
  wf_players (PlayerList.modify k (fun _ => i) (PlayerList.subscript k m)).
Proof.
  intros Hi Hwf. unfold PlayerList.subscript.
  destruct (PlayerList.find k m) eqn:E.
  - by apply wf_modify.
  - rewrite modify_insert by done. by apply wf_insert.
Qed.

Lemma find_assign k i m k' :
  PlayerList.find k' (PlayerList.modify k (fun _ => i) (PlayerList.subscript k m))
  = if k =? k' then Some i else PlayerList.find k' m.
Proof.
  destruct (N.eqb_spec k k') as [->|Hne].
  - by rewrite find_modify_eq, find_subscript_eq.
  - by rewrite find_modify_ne, find_subscript_ne.
Qed.

Lemma consistent_SetStatic w state command c :
  consistent c -> consistent (fst (snd (SetStatic w state command c))).
Proof.
  intros Hc. destruct (SetStatic_blocked w state command c) eqn:E.
  - by rewrite SetStatic_refused.
  - rewrite (proj2 (SetStatic_performed _ _ _ _ E)). by apply consistent_SetStatic_state.
Qed.

Lemma consistent_erase g c :
  consistent c -> consistent (set_players (PlayerList.erase g (m_players c)) c).
Proof.
  intros [Hwf Hb]. split; [by apply wf_erase|].
  intros k Hk. apply IsOn_false. cbn [m_players set_players].
  destruct (N.eq_dec g k) as [->|Hne]; [apply find_erase_eq|].
  rewrite find_erase_ne by done. apply IsOn_false, Hb. exact Hk.
Qed.

Ltac split_if :=
  match goal with
  | |- context [if ?b then _ else _] => destruct b eqn:?
  end.

Lemma consistent_Join w p pw c : consistent c -> consistent (fst (Join w p pw c)).
Proof.
  intros Hc. unfold Join. cbv zeta.
  destruct (IsOn c (GetObjectGuid p)) eqn:Hon; [by destruct (negb (IsConstant c))|].
  destruct (IsBanned c (GetObjectGuid p)) eqn:Hban; [done|].
  split_if; [done|]. split_if; [done|].
  rewrite !fst_seq. apply consistent_SetStatic.
  set (c2 := fst (update _ _)).
  assert (H2 : consistent c2).
  { subst c2. split_if; cbn [fst update SendToAll]; (split; [apply wf_assign; [done|apply Hc]|]);
      intros g Hg; apply IsOn_false; cbn [m_players set_players] in *;
      rewrite find_assign;
      (destruct (N.eqb_spec (GetObjectGuid p) g) as [<-|Hne];
       [unfold IsBanned in Hban; by apply bool_decide_eq_false in Hban
       |by apply IsOn_false, Hc]). }
  assert (Hon2 : IsOn c2 (GetObjectGuid p) = true).
  { apply IsOn_true. subst c2. split_if; cbn [fst update SendToAll m_players set_players];
      rewrite find_assign, N.eqb_refl; eauto. }
  cbn [SendToOne fst]. split_if; [|done]. by apply consistent_SetOwner.
Qed.

Lemma consistent_Leave w p send c : consistent c -> consistent (fst (Leave w p send c)).
Proof.
  intros Hc. unfold Leave. cbv zeta.
  destruct (negb (IsOn c (GetObjectGuid p))); [by destruct send|].
  rewrite !fst_seq. unfold update. cbn [fst].
  set (c1 := fst (if send then _ else _)).
  assert (c1 = c) as -> by (subst c1; by destruct send).
  set (c2 := set_players _ c).
  assert (H2 : consistent c2) by (by apply consistent_erase).
  set (c3 := fst (if m_announce c2 && _ then _ else _)).
  assert (c3 = c2) as -> by (subst c3; by split_if).
  split_if; [|done]. apply consistent_SetOwner; [|done]. apply SelectNewOwner_found, H2.
Qed.

Lemma consistent_KickOrBan w p t ban c :
  consistent c -> consistent (fst (KickOrBan w p t ban c)).
Proof.
  intros Hc. unfold KickOrBan. cbv zeta.
  destruct (negb (IsOn c (GetObjectGuid p))); [done|].
  split_if; [done|].
  destruct (GetPlayerByName w t) as [target|]; [|done].
  destruct (negb (IsOn c (GetObjectGuid target))); [done|].
  split_if; [done|].
  rewrite !fst_seq. unfold update. cbn [fst].
  set (c1 := fst (if ban && _ then _ else _)).
  set (c2 := set_players _ c1).
  assert (H2 : consistent c2).
  { subst c2 c1. destruct Hc as [Hwf Hb].
    split_if; cbn [seq update SendToAll fst m_players set_players set_banned];
      (split; [by apply wf_erase|]); intros g Hg; apply IsOn_false;
      cbn [m_players m_banned set_players set_banned] in *;
      (destruct (N.eq_dec (GetObjectGuid target) g) as [<-|Hne];
       [apply find_erase_eq|rewrite find_erase_ne by done; apply IsOn_false, Hb]).
    - apply elem_of_union in Hg as [Hg|Hg]; [|done].
      by apply elem_of_singleton in Hg.
    - done. }
  split_if; [|done]. apply consistent_SetOwner; [|done]. apply SelectNewOwner_found, H2.
Qed.

Lemma consistent_UnBan w p t c : consistent c -> consistent (fst (UnBan w p t c)).
Proof.
  intros Hc. unfold UnBan. cbv zeta.
  destruct (negb (IsOn c (GetObjectGuid p))); [done|].
  split_if; [done|].
  destruct (GetPlayerByName w t) as [target|]; [|done].
  split_if; [done|].
  rewrite !fst_seq. unfold update. cbn [fst SendToAll].
  destruct Hc as [Hwf Hb]. split; [done|].
  intros g Hg. apply Hb. cbn [m_banned set_banned] in Hg.
  by apply elem_of_difference in Hg as [Hg _].
Qed.

Lemma consistent_Password w p pw c : consistent c -> consistent (fst (Password w p pw c)).
Proof.
  intros Hc. unfold Password. cbv zeta.
  destruct (negb (IsOn c (GetObjectGuid p))); [done|].
  split_if; [done|]. rewrite !fst_seq. exact Hc.
Qed.

Lemma consistent_SetMode w p t moderator set c :
  consistent c -> consistent (fst (SetMode w p t moderator set c)).
Proof.
  intros Hc. unfold SetMode. cbv zeta.
  destruct (negb (IsOn c (GetObjectGuid p))); [done|].
  split_if; [done|].
  destruct (GetPlayerByName w t) as [target|]; [|done].
  split_if; [done|]. split_if; [done|]. split_if; [done|]. split_if; [done|].
  destruct moderator; eapply consistent_roles_only; eauto using
    roles_only_SetModerator, roles_only_SetMute.
Qed.

Lemma consistent_SetOwner_cmd w p t c :
  consistent c -> consistent (fst (SetOwner_cmd w p t c)).
Proof.
  intros Hc. unfold SetOwner_cmd. cbv zeta.
  destruct (negb (IsOn c (GetObjectGuid p))); [done|].
  split_if; [done|].
  destruct (GetPlayerByName w t) as [target|]; [|done].
  destruct (IsOn c (GetObjectGuid target)) eqn:Hon; [|done]. cbn [negb].
  split_if; [done|]. by apply consistent_SetOwner.
Qed.

Lemma consistent_Announce w p c : consistent c -> consistent (fst (Announce w p c)).
Proof.
  intros Hc. unfold Announce. cbv zeta.
  destruct (negb (IsOn c (GetObjectGuid p))); [done|].
  split_if; [done|]. rewrite !fst_seq. unfold update. cbn [fst].
  by split_if.
Qed.

Lemma consistent_Moderate w p c : consistent c -> consistent (fst (Moderate w p c)).
Proof.
  intros Hc. unfold Moderate. cbv zeta.
  destruct (negb (IsOn c (GetObjectGuid p))); [done|].
  split_if; [done|]. rewrite !fst_seq. unfold update. cbn [fst].
  by split_if.
Qed.

Lemma fst_Say w p text lang c : fst (Say w p text lang c) = c.
Proof.
  unfold Say. destruct text as [text|]; [|done]. cbv zeta.
  repeat (split_if; [done|]). done.
Qed.

Lemma fst_Invite w p t c : fst (Invite w p t c) = c.
Proof.
  unfold Invite. cbv zeta. split_if; [done|].
  destruct (GetPlayerByName w t) as [target|]; [|done].
  repeat (split_if; [done|]). done.
Qed.

Lemma consistent_exec w o c : consistent c -> consistent (fst (exec w o c)).
Proof.
  destruct o; cbn [exec]; intros Hc.
  - by apply consistent_Join.
  - by apply consistent_Leave.
  - by apply consistent_KickOrBan.
  - by apply consistent_UnBan.
  - by apply consistent_Password.
  - by apply consistent_SetMode.
  - by apply consistent_SetOwner_cmd.
  - by apply consistent_SetStatic.
  - by apply consistent_Announce.
  - by apply consistent_Moderate.
  - by rewrite fst_Say.
  - by rewrite fst_Invite.
Qed.

Lemma consistent_new w name : consistent (Channel_new w name).
Proof.
  unfold Channel_new. destruct (GetChannelEntryFor w name);
    (split; [split; constructor|]);
    intros g Hg; cbn [m_banned] in Hg; set_solver.
Qed.

Lemma consistent_run w ops : forall c, consistent c -> consistent (run w ops c).
Proof.
  induction ops as [|o r IH]; intros c Hc; simpl; [done|].
  apply IH. by apply consistent_exec.
Qed.

(** *** Ownership *)

Lemma governed_SetOwner w guid exclaim c :
  (IsPublic c = true -> guid = EmptyGuid) ->
  governed (fst (SetOwner w guid exclaim c)).
Proof.
  intros Hpub. split; [apply owner_entry_SetOwner|].
  rewrite fst_SetOwner. intros H. apply Hpub. exact H.
Qed.

(** A step that keeps the owner, the classification and the owner's entry. *)
Lemma governed_same_owner c c' :
  m_ownerGuid c' = m_ownerGuid c -> IsPublic c' = IsPublic c ->
  (guid_bool (m_ownerGuid c) = true ->
   forall i, PlayerList.find (m_ownerGuid c) (m_players c) = Some i ->
   exists i', PlayerList.find (m_ownerGuid c) (m_players c') = Some i'
              /\ PlayerInfo.IsModerator i' = PlayerInfo.IsModerator i
              /\ PlayerInfo.IsOwner i' = PlayerInfo.IsOwner i) ->
  governed c -> governed c'.
Proof.
  intros Ho Hp He [Hoe Hpo]. split.
  - intros Hg. rewrite Ho in *. destruct (Hoe Hg) as (i & Hi & Hm & Hw).
    destruct (He Hg i Hi) as (i' & Hi' & Hm' & Hw'). exists i'. split; [done|].
    split; congruence.
  - intros H. rewrite Ho. apply Hpo. by rewrite <- Hp.
Qed.

Lemma SetStatic_state_on_owner w c :
  wf_players (m_players c) -> m_ownerGuid (SetStatic_state w true c) = EmptyGuid.
Proof.
  intros Hwf. unfold SetStatic_state.
  destruct (strip_moderators_spec w (PlayerList.keys (m_players c)) c Hwf)
    as ((m1 & Hc1 & _) & _ & _).
  set (c1 := fst (strip_moderators w _ c)) in *.
  cbn [m_ownerGuid set_static set_announce set_moderate].
  destruct (guid_bool (m_ownerGuid c1)) eqn:E.
  - apply SetOwner_ownerGuid.
  - unfold guid_bool in E. by destruct (N.eqb_spec (m_ownerGuid c1) 0).
Qed.

Lemma IsPublic_set_static_false c : IsPublic (set_static false c) = IsConstant c.
Proof. unfold IsPublic, IsStatic, IsConstant. cbn. apply orb_false_r. Qed.

Lemma governed_SetStatic w state command c :
  consistent c -> governed c -> governed (fst (snd (SetStatic w state command c))).
Proof.
  intros Hc Hg. destruct (SetStatic_blocked w state command c) eqn:E.
  - by rewrite SetStatic_refused.
  - rewrite (proj2 (SetStatic_performed _ _ _ _ E)). destruct state.
    + pose proof (SetStatic_state_on_owner w c (proj1 Hc)) as Ho. split.
      * intros H. by rewrite Ho in H.
      * intros _. exact Ho.
    + unfold SetStatic_blocked in E.
      assert (Hk : IsConstant c = false) by (by destruct (IsConstant c)).
      unfold SetStatic_state. destruct (guid_bool (m_ownerGuid c)) eqn:Eo.
      * split; [apply Hg|]. intros H. rewrite IsPublic_set_static_false in H. congruence.
      * split; [exact (owner_entry_SetOwner _ _ _ _)|].
        intros H. rewrite IsPublic_set_static_false, fst_SetOwner in H.
        unfold IsConstant in *. cbn [m_channelId set_players set_ownerGuid] in H.
        congruence.
Qed.

Lemma governed_Join w p pw c :
  consistent c -> governed c -> governed (fst (Join w p pw c)).
Proof.
  intros Hc Hg. unfold Join. cbv zeta.
  destruct (IsOn c (GetObjectGuid p)) eqn:Hon; [by destruct (negb (IsConstant c))|].
  destruct (IsBanned c (GetObjectGuid p)) eqn:Hban; [done|].
  split_if; [done|]. split_if; [done|].
  rewrite !fst_seq.
  set (c2 := fst (update _ _)).
  assert (H2 : consistent c2 /\ governed c2).
  { assert (Hc2 : c2 = set_players
                         (PlayerList.modify (GetObjectGuid p)
                            (fun _ => PlayerInfo.mk (GetObjectGuid p) MEMBER_FLAG_NONE)
                            (PlayerList.subscript (GetObjectGuid p) (m_players c))) c)
      by (subst c2; by split_if).
    rewrite Hc2. split.
    - split; [apply wf_assign; [done|apply Hc]|].
      intros g Hg'. apply IsOn_false. cbn [m_players m_banned set_players] in *.
      rewrite find_assign. destruct (N.eqb_spec (GetObjectGuid p) g) as [<-|Hne].
      + unfold IsBanned in Hban. by apply bool_decide_eq_false in Hban.
      + by apply IsOn_false, Hc.
    - apply (governed_same_owner c); [done|done| |exact Hg].
      intros Ho i Hi. exists i. cbn [m_players set_players]. rewrite find_assign.
      destruct (N.eqb_spec (GetObjectGuid p) (m_ownerGuid c)) as [He|Hne]; [|done].
      apply IsOn_false in Hon. congruence. }
  destruct H2 as [Hc2 Hg2].
  cbn [SendToOne fst].
  match goal with |- governed (fst (snd (SetStatic _ _ _ ?x))) => set (c4 := x) end.
  assert (H4 : consistent c4 /\ governed c4).
  { subst c4. destruct (negb (IsPublic c2)) eqn:Hp; cbn [andb]; [|done].
    split_if; [|done]. split.
    - apply consistent_SetOwner; [|done]. intros _. apply IsOn_true.
      assert (Hf : PlayerList.find (GetObjectGuid p) (m_players c2)
                   = Some (PlayerInfo.mk (GetObjectGuid p) MEMBER_FLAG_NONE)).
      { subst c2. split_if; cbn [fst update SendToAll m_players set_players];
          by rewrite find_assign, N.eqb_refl. }
      eauto.
    - apply governed_SetOwner. intros H. by rewrite H in Hp. }
  destruct H4 as [Hc4 Hg4]. by apply governed_SetStatic.
Qed.

Lemma governed_erase g c :
  (guid_bool (m_ownerGuid c) = true -> m_ownerGuid c ≠ g) ->
  governed c -> governed (set_players (PlayerList.erase g (m_players c)) c).
Proof.
  intros Hne. apply governed_same_owner; [done|done|].
  intros Ho i Hi. exists i. cbn [m_players set_players].
  rewrite find_erase_ne; [done|]. intros ->. by apply Hne.
Qed.

Lemma governed_Leave w p send c :
  consistent c -> governed c -> governed (fst (Leave w p send c)).
Proof.
  intros Hc Hg. unfold Leave. cbv zeta.
  destruct (IsOn c (GetObjectGuid p)) eqn:Hon; cbn [negb]; [|by destruct send].
  rewrite !fst_seq. unfold update. cbn [fst].
  set (c1 := fst (if send then _ else _)).
  assert (c1 = c) as -> by (subst c1; by destruct send).
  set (c2 := set_players _ c).
  set (c3 := fst (if m_announce c2 && _ then _ else _)).
  assert (c3 = c2) as -> by (subst c3; by split_if).
  destruct (PlayerInfo.IsOwner (member c (GetObjectGuid p))) eqn:Hch; cbn [andb].
  - destruct (IsPublic c2) eqn:Hp; cbn [negb].
    + apply governed_erase; [|done]. intros Ho.
      destruct Hg as [_ Hpo]. rewrite (Hpo Hp) in Ho. done.
    + apply governed_SetOwner. congruence.
  - apply governed_erase; [|done]. intros Ho Heq.
    destruct Hg as [Hoe _]. destruct (Hoe Ho) as (i & Hi & _ & Hw).
    rewrite Heq in Hi. rewrite (member_found _ _ _ Hi) in Hch. congruence.
Qed.

Lemma governed_KickOrBan w p t ban c :
  consistent c -> governed c -> governed (fst (KickOrBan w p t ban c)).
Proof.
  intros Hc Hg. unfold KickOrBan. cbv zeta.
  destruct (negb (IsOn c (GetObjectGuid p))); [done|].
  split_if; [done|].
  destruct (GetPlayerByName w t) as [target|]; [|done].
  destruct (negb (IsOn c (GetObjectGuid target))); [done|].
  split_if; [done|].
  rewrite !fst_seq. unfold update. cbn [fst].
  set (c1 := fst (if ban && _ then _ else _)).
  assert (H1 : governed c1 /\ m_ownerGuid c1 = m_ownerGuid c).
  { subst c1. split_if; cbn [seq update SendToAll fst]; [|done]. split; [|done].
    revert Hg. by apply governed_same_owner; eauto. }
  destruct H1 as [Hg1 Ho1].
  destruct (N.eqb_spec (m_ownerGuid c) (GetObjectGuid target)) as [Heq|Hne]; cbn [andb].
  - destruct (IsPublic (set_players (PlayerList.erase (GetObjectGuid target) (m_players c1)) c1))
      eqn:Hp; cbn [negb].
    + apply governed_erase; [|done]. intros Ho.
      destruct Hg1 as [_ Hpo]. rewrite (Hpo Hp) in Ho. done.
    + apply governed_SetOwner. congruence.
  - apply governed_erase; [|done]. intros _. congruence.
Qed.

Lemma governed_UnBan w p t c : governed c -> governed (fst (UnBan w p t c)).
Proof.
  intros Hg. unfold UnBan. cbv zeta.
  destruct (negb (IsOn c (GetObjectGuid p))); [done|].
  split_if; [done|].
  destruct (GetPlayerByName w t) as [target|]; [|done].
  split_if; [done|].
  rewrite !fst_seq. unfold update. cbn [fst SendToAll].
  revert Hg. by apply governed_same_owner; eauto.
Qed.

Lemma governed_Password w p pw c : governed c -> governed (fst (Password w p pw c)).
Proof.
  intros Hg. unfold Password. cbv zeta.
  destruct (negb (IsOn c (GetObjectGuid p))); [done|].
  split_if; [done|]. rewrite !fst_seq. unfold update. cbn [fst SendToAll].
  revert Hg. by apply governed_same_owner; eauto.
Qed.

Lemma governed_Announce w p c : governed c -> governed (fst (Announce w p c)).
Proof.
  intros Hg. unfold Announce. cbv zeta.
  destruct (negb (IsOn c (GetObjectGuid p))); [done|].
  split_if; [done|]. rewrite !fst_seq. unfold update. cbn [fst].
  assert (H : governed (set_announce (negb (m_announce c)) c))
    by (revert Hg; by apply governed_same_owner; eauto).
  by split_if.
Qed.

Lemma governed_Moderate w p c : governed c -> governed (fst (Moderate w p c)).
Proof.
  intros Hg. unfold Moderate. cbv zeta.
  destruct (negb (IsOn c (GetObjectGuid p))); [done|].
  split_if; [done|]. rewrite !fst_seq. unfold update. cbn [fst].
  assert (H : governed (set_moderate (negb (m_moderate c)) c))
    by (revert Hg; by apply governed_same_owner; eauto).
  by split_if.
Qed.

Lemma governed_SetMode w p t moderator set c :
  governed c -> governed (fst (SetMode w p t moderator set c)).
Proof.
  intros Hg. unfold SetMode. cbv zeta.
  destruct (negb (IsOn c (GetObjectGuid p))); [done|].
  split_if; [done|].
  destruct (GetPlayerByName w t) as [target|]; [|done].
  destruct (moderator && (GetObjectGuid p =? m_ownerGuid c)
            && (GetObjectGuid target =? m_ownerGuid c)) eqn:Hself; [done|].
  split_if; [done|]. split_if; [done|].
  destruct ((m_ownerGuid c =? GetObjectGuid target)
            && negb (m_ownerGuid c =? GetObjectGuid p)) eqn:Hown; [done|].
  destruct moderator.
  - (* the target of a moderator toggle is not the owner *)
    assert (Hne : m_ownerGuid c ≠ GetObjectGuid target).
    { intros Heq. rewrite Heq in Hself, Hown. rewrite N.eqb_refl in Hself, Hown.
      cbn [andb] in Hown. apply negb_false_iff, N.eqb_eq in Hown.
      rewrite Hown, N.eqb_refl in Hself. done. }
    rewrite fst_SetModerator.
    destruct (PlayerList.find (GetObjectGuid target) (m_players c)); [|done].
    split_if; [done|]. revert Hg. apply governed_same_owner; [done|done|].
    intros Ho i Hi. exists i. cbn [m_players set_players].
    rewrite find_modify_ne by done. done.
  - rewrite fst_SetMute.
    destruct (PlayerList.find (GetObjectGuid target) (m_players c)); [|done].
    split_if; [done|]. revert Hg. apply governed_same_owner; [done|done|].
    intros Ho i Hi. cbn [m_players set_players].
    destruct (N.eq_dec (GetObjectGuid target) (m_ownerGuid c)) as [->|Hne].
    + rewrite find_modify_eq, Hi. cbn [option_map]. eexists. split; [done|].
      by rewrite IsModerator_SetMuted, IsOwner_SetMuted.
    + rewrite find_modify_ne by done. eauto.
Qed.

Lemma governed_SetOwner_cmd w p t c :
  gm_grant_on_public w (OpSetOwner p t) c = false ->
  governed c -> governed (fst (SetOwner_cmd w p t c)).
Proof.
  intros Hadm Hg. unfold SetOwner_cmd. cbv zeta.
  destruct (IsOn c (GetObjectGuid p)) eqn:Hon; [|done]. cbn [negb].
  destruct (sec_lt (GetSecurity p) SEC_GAMEMASTER
            && negb (GetObjectGuid p =? m_ownerGuid c)) eqn:Hsec; [done|].
  destruct (GetPlayerByName w t) as [target|] eqn:Ht; [|done].
  destruct (IsOn c (GetObjectGuid target)) eqn:Htg; [|done]. cbn [negb].
  destruct (negb (GetTeam target =? GetTeam p)
            && negb (CONFIG_BOOL_ALLOW_TWO_SIDE_INTERACTION_CHANNEL w)) eqn:Hfac; [done|].
  apply governed_SetOwner. intros Hp. exfalso.
  cbn [gm_grant_on_public] in Hadm. rewrite Hp, Hon, Ht, Htg, Hfac in Hadm. cbn [andb negb] in Hadm.
  rewrite ?andb_true_r in Hadm.
  apply negb_false_iff in Hadm. rewrite Hadm in Hsec. cbn [andb] in Hsec.
  apply negb_false_iff, N.eqb_eq in Hsec.
  destruct Hg as [_ Hpo]. rewrite (Hpo Hp) in Hsec. done.
Qed.

Lemma governed_exec w o c :
  gm_grant_on_public w o c = false ->
  consistent c -> governed c -> governed (fst (exec w o c)).
Proof.
  destruct o; cbn [exec]; intros Hadm Hc Hg.
  - by apply governed_Join.
  - by apply governed_Leave.
  - by apply governed_KickOrBan.
  - by apply governed_UnBan.
  - by apply governed_Password.
  - by apply governed_SetMode.
  - by apply governed_SetOwner_cmd.
  - by apply governed_SetStatic.
  - by apply governed_Announce.
  - by apply governed_Moderate.
  - by rewrite fst_Say.
  - by rewrite fst_Invite.
Qed.

Lemma governed_new w name : governed (Channel_new w name).
Proof.
  unfold Channel_new. destruct (GetChannelEntryFor w name); by split.
Qed.

Lemma governed_run w ops : forall c,
  owner_governed w ops c = true -> consistent c -> governed c -> governed (run w ops c).
Proof.
  induction ops as [|o r IH]; intros c Hadm Hc Hg; simpl in *; [done|].
  apply andb_true_iff in Hadm as [Ho Hr]. apply negb_true_iff in Ho.
  apply IH; [done|by apply consistent_exec|by apply governed_exec].
Qed.

(** ** Dispatch *)

Lemma owner_governed_app w ops1 ops2 c :
  owner_governed w (ops1 ++ ops2) c
  = owner_governed w ops1 c && owner_governed w ops2 (run w ops1 c).
Proof.
  revert c. induction ops1 as [|o r IH]; intros c; simpl; [done|].
  by rewrite IH, andb_assoc.
Qed.

Lemma In_SendToAll w data c g d :
  In (g, d) (snd (SendToAll w data c))
  <-> d = data /\ IsOn c g = true /\ GetPlayer w g <> None.
Proof.
  unfold SendToAll, SendToOne. cbn [snd]. rewrite in_flat_map. split.
  - intros ([k i] & Hin & H). cbn [fst] in H.
    destruct (GetPlayer w k) eqn:E; [|done].
    destruct H as [[= <- <-]|[]]. split; [done|]. split; [|congruence].
    apply IsOn_true. by eapply In_find.
  - intros (-> & Hon & Hp). apply IsOn_true in Hon as [i Hi].
    exists (g, i). split; [by apply find_In|]. cbn [fst].
    destruct (GetPlayer w g); [by left|done].
Qed.

Lemma In_SendMessage w data sender c g d :
  In (g, d) (snd (SendMessage w data sender c))
  <-> d = data /\ IsOn c g = true
      /\ exists plr, GetPlayer w g = Some plr
                     /\ (guid_bool sender = false \/ HasIgnore plr sender = false).
Proof.
  unfold SendMessage. cbn [snd]. rewrite in_flat_map. split.
  - intros ([k i] & Hin & H). cbn [fst] in H.
    destruct (GetPlayer w k) as [plr|] eqn:E; [|done].
    destruct (negb (guid_bool sender) || negb (HasIgnore plr sender)) eqn:Hc; [|done].
    destruct H as [[= <- <-]|[]]. split; [done|]. split.
    + apply IsOn_true. by eapply In_find.
    + exists plr. split; [done|]. apply orb_true_iff in Hc as [Hc|Hc];
        apply negb_true_iff in Hc; auto.
  - intros (-> & Hon & plr & Hp & Hc). apply IsOn_true in Hon as [i Hi].
    exists (g, i). split; [by apply find_In|]. cbn [fst]. rewrite Hp.
    assert (negb (guid_bool sender) || negb (HasIgnore plr sender) = true) as ->.
    { destruct Hc as [-> | ->]; [done|]. apply orb_true_r. }
    by left.
Qed.

(** * The properties of the specification *)

Lemma authorized_true c p :
  authorized c p = true ->
  negb (PlayerInfo.IsModerator (member c (GetObjectGuid p)))
  && sec_lt (GetSecurity p) SEC_GAMEMASTER = false.
Proof.
  unfold authorized. destruct (PlayerInfo.IsModerator _); [done|].
  cbn. by intros ->%negb_true_iff.
Qed.

Lemma authorized_false c p :
  authorized c p = false ->
  negb (PlayerInfo.IsModerator (member c (GetObjectGuid p)))
  && sec_lt (GetSecurity p) SEC_GAMEMASTER = true.
Proof.
  unfold authorized. destruct (PlayerInfo.IsModerator _); [done|].
  cbn. by intros ->%negb_false_iff.
Qed.

Lemma first_moderator_split pre k i post :
  Forall (fun kv => PlayerInfo.IsModerator (snd kv) = false) pre ->
  PlayerInfo.IsModerator i = true ->
  first_moderator (pre ++ (k, i) :: post) = Some (PlayerInfo.player i).
Proof.
  intros Hpre Hi. induction Hpre as [|[k' i'] r Hk Hr IH]; simpl.
  - by rewrite Hi.
  - simpl in Hk. by rewrite Hk.
Qed.

Lemma first_moderator_none m :
  Forall (fun kv => PlayerInfo.IsModerator (snd kv) = false) m ->
  first_moderator m = None.
Proof.
  induction 1 as [|[k i] r Hk Hr IH]; simpl; [done|]. simpl in Hk. by rewrite Hk.
Qed.

(** C5. Succession is deterministic: [SelectNewOwner] yields the first entry,
    in the iteration order of the table, whose role includes moderator; when
    no entry is a moderator, the first entry of the table; when the table is
    empty, the empty guid.  With A (no moderator), B (moderator) and C (no
    moderator) joined in that order, it yields B. *)
Theorem SelectNewOwner_deterministic (c : Channel) :
  (forall pre k i post,
     m_players c = pre ++ (k, i) :: post ->
     Forall (fun kv => PlayerInfo.IsModerator (snd kv) = false) pre ->
     PlayerInfo.IsModerator i = true ->
     SelectNewOwner c = PlayerInfo.player i
     /\ (wf_players (m_players c) -> SelectNewOwner c = k))
  /\ (forall k i rest,
        m_players c = (k, i) :: rest ->
        Forall (fun kv => PlayerInfo.IsModerator (snd kv) = false) (m_players c) ->
        SelectNewOwner c = PlayerInfo.player i
        /\ (wf_players (m_players c) -> SelectNewOwner c = k))
  /\ (m_players c = [] -> SelectNewOwner c = EmptyGuid)
  /\ (forall a b d fa fb fd,
        a <> b -> a <> d -> b <> d ->
        PlayerInfo.IsModerator (PlayerInfo.mk a fa) = false ->
        PlayerInfo.IsModerator (PlayerInfo.mk b fb) = true ->
        PlayerInfo.IsModerator (PlayerInfo.mk d fd) = false ->
        m_players c = joined d fd (joined b fb (joined a fa [])) ->
        SelectNewOwner c = b).
Proof.
  repeat split.
  - unfold SelectNewOwner. rewrite H. by rewrite first_moderator_split.
  - intros Hwf. unfold SelectNewOwner. rewrite H, first_moderator_split by done.
    destruct Hwf as [Hwf _]. rewrite H in Hwf. apply Forall_app in Hwf as [_ Hwf].
    inversion Hwf as [|? ? Hk _]; subst. exact Hk.
  - unfold SelectNewOwner. rewrite first_moderator_none by done. by rewrite H.
  - intros Hwf. unfold SelectNewOwner. rewrite first_moderator_none by done.
    destruct Hwf as [Hwf _]. rewrite H in *.
    inversion Hwf as [|? ? Hk _]; subst. exact Hk.
  - intros H. unfold SelectNewOwner. by rewrite H.
  - intros a b d fa fb fd Hab Had Hbd Ha Hb Hd H.
    unfold SelectNewOwner. rewrite H. clear H.
    unfold joined, PlayerList.subscript. cbn.
    repeat (match goal with
            | |- context [?x =? ?y] => destruct (N.eqb_spec x y); try lia
            | |- context [?x <? ?y] => destruct (N.ltb_spec x y); try lia
            end; cbn);
      rewrite ?Ha, ?Hb, ?Hd; cbn; rewrite ?Ha, ?Hb, ?Hd; done.
Qed.

(** Ann without role, Bob moderator, Cid without role, joined in that order. *)
Lemma SelectNewOwner_deterministic_witness :
  SelectNewOwner
    (mkChannel true false "test" 1 0 0 false true ""
       (joined 3 MEMBER_FLAG_NONE (joined 2 MEMBER_FLAG_MODERATOR (joined 1 MEMBER_FLAG_NONE [])))
       ∅) = 2.
Proof.
  refine (proj2 (proj2 (proj2 (SelectNewOwner_deterministic _))) 1 2 3
            MEMBER_FLAG_NONE MEMBER_FLAG_MODERATOR MEMBER_FLAG_NONE _ _ _ _ _ _ _);
    first [reflexivity | lia].
Defined.

(** C9. When an authorised member who is the current owner toggles the
    moderator role on a name that resolves to the owner as well, [SetMode]
    returns at once: the channel is unchanged and no packet is sent, whether
    the request grants or removes the role. *)
Theorem SetMode_owner_on_self_is_silent w p t target set c :
  IsOn c (GetObjectGuid p) = true ->
  authorized c p = true ->
  GetPlayerByName w t = Some target ->
  GetObjectGuid p = m_ownerGuid c ->
  GetObjectGuid target = m_ownerGuid c ->
  SetMode w p t true set c = (c, []).
Proof.
  intros Hon Hauth Ht Hp Htg. unfold SetMode. cbv zeta.
  rewrite Hon, (authorized_true _ _ Hauth), Ht, Hp, Htg, N.eqb_refl. done.
Qed.

(** Ann owns "test" and removes the moderator role from "Ann". *)
Lemma SetMode_owner_on_self_is_silent_witness :
  let c := run demo_world [OpJoin ann ""; OpJoin bob ""] (Channel_new demo_world "test") in
  SetMode demo_world ann "Ann" true false c = (c, []).
Proof.
  intros c. apply (SetMode_owner_on_self_is_silent demo_world ann "Ann" ann false c);
    reflexivity.
Defined.




Lemma IsOn_erase_eq g c : IsOn (set_players (PlayerList.erase g (m_players c)) c) g = false.
Proof. apply IsOn_false. cbn [m_players set_players]. apply find_erase_eq. Qed.

Lemma IsOn_SetOwner w guid exclaim c g :
  (guid_bool guid = true -> IsOn c guid = true) ->
  IsOn (fst (SetOwner w guid exclaim c)) g = IsOn c g.
Proof.
  intros Hon. rewrite (roles_only_IsOn _ _ g (SetOwner_roles_only w guid exclaim c Hon)).
  done.
Qed.

Lemma SetOwner_packets w guid exclaim c e :
  In e (snd (SetOwner w guid exclaim c)) ->
  (exists a b, snd e = MakeModeChange (m_name c) guid a b)
  \/ snd e = MakeOwnerChanged (m_name c) guid.
Proof.
  destruct e as [g d]. unfold SetOwner, seq, update.
  destruct (guid_bool (m_ownerGuid c));
    [destruct (PlayerList.find (m_ownerGuid c) (m_players c))|];
    cbn [SendToAll fst snd m_ownerGuid set_ownerGuid set_players app];
    destruct (guid_bool guid); destruct exclaim;
    cbn [SendToAll fst snd m_name set_ownerGuid set_players app];
    rewrite ?app_nil_r; intros H;
    repeat match type of H with
           | In _ (_ ++ _) => apply in_app_or in H as [H|H]
           end;
    try done;
    match type of H with
    | In _ (flat_map _ ?m) =>
        change (In (g, d) (snd (SendToAll w ltac:(match type of H with
          | In _ (flat_map (fun kv => snd (SendToOne _ ?data _ _)) _) => exact data end)
          (set_players m c)))) in H
    end;
    apply In_SendToAll in H as (-> & _); cbn [snd]; eauto.
Qed.







Lemma fst_KickOrBan_performed w p t target ban c :
  IsOn c (GetObjectGuid p) = true ->
  authorized c p = true ->
  GetPlayerByName w t = Some target ->
  IsOn c (GetObjectGuid target) = true ->
  owner_protected c p target = false ->
  fst (KickOrBan w p t ban c)
  = let c2 := removed ban (GetObjectGuid target) c in
    if (m_ownerGuid c =? GetObjectGuid target) && negb (IsPublic c)
    then fst (SetOwner w (SelectNewOwner c2) (1 <? PlayerList.size (m_players c2)) c2)
    else c2.
Proof.
  intros Hon Hauth Ht Htg Hprot. unfold KickOrBan. cbv zeta.
  unfold owner_protected in Hprot.
  rewrite Hon, (authorized_true _ _ Hauth), Ht, Htg, Hprot. cbn [negb].
  rewrite !fst_seq. unfold update. cbn [fst].
  set (c1 := fst (if ban && _ then _ else _)).
  assert (H1 : set_players (PlayerList.erase (GetObjectGuid target) (m_players c1)) c1
               = removed ban (GetObjectGuid target) c).
  { subst c1. unfold removed. by destruct (ban && negb (IsBanned c (GetObjectGuid target))). }
  rewrite H1.
  assert (Hpub : IsPublic (removed ban (GetObjectGuid target) c) = IsPublic c).
  { unfold removed. by destruct (ban && _). }
  rewrite Hpub. by destruct ((m_ownerGuid c =? GetObjectGuid target) && negb (IsPublic c)).
Qed.

Lemma wf_removed ban g c : wf_players (m_players c) -> wf_players (m_players (removed ban g c)).
Proof. intros Hwf. unfold removed. destruct (ban && _); by apply wf_erase. Qed.

Lemma IsOn_removed ban g c : IsOn (removed ban g c) g = false.
Proof. unfold removed. destruct (ban && _); apply IsOn_erase_eq. Qed.



Lemma SendToOne_online w data g c :
  GetPlayer w g <> None -> SendToOne w data g c = (c, [(g, data)]).
Proof. intros H. unfold SendToOne. by destruct (GetPlayer w g). Qed.

(** C7, as stated, fails: on a moderated channel under restricted-language
    mode 3, a member who is neither moderator nor game master and whose text
    fails the language check is answered NotModerator, not Muted. *)
Lemma Say_language_check_after_moderation :
  ~ (forall w p text lang c,
       GetPlayer w (GetObjectGuid p) <> None ->
       IsOn c (GetObjectGuid p) = true ->
       Say_language_refused w text c = true ->
       Say w p (Some text) lang c = (c, [(GetObjectGuid p, MakeMuted (m_name c))])).
Proof.
  intros H.
  specialize (H (world_with 3 0) bob "@" 0
                (run (world_with 3 0) [OpJoin ann ""; OpJoin bob ""; OpModerate ann]
                   (Channel_new (world_with 3 0) "test"))).
  apply (f_equal snd) in H; [|done|reflexivity|reflexivity].
  vm_compute in H. discriminate H.
Qed.

(** C7, amended. [Say] with a null text does nothing.  Otherwise the gates
    are tested in this order: a non-member gets NotMember; a member who is
    muted, or below the honor rank of the local or world defense channel, gets
    Muted; then, on a moderated channel, a member who is neither moderator nor
    game master gets NotModerator; then, when the restricted-language mode
    applies to the channel and the text fails the language check, Muted.
    Every refusal is exactly one notice to the actor, with no broadcast and
    the channel unchanged. *)
Theorem Say_refusals w p lang c :
  GetPlayer w (GetObjectGuid p) <> None ->
  let guid := GetObjectGuid p in
  Say w p None lang c = (c, [])
  /\ forall text,
       (IsOn c guid = false ->
        Say w p (Some text) lang c = (c, [(guid, MakeNotMember (m_name c))]))
       /\ (IsOn c guid = true -> Say_muted w p c = true ->
           Say w p (Some text) lang c = (c, [(guid, MakeMuted (m_name c))]))
       /\ (IsOn c guid = true -> Say_muted w p c = false -> Say_unmoderated p c = true ->
           Say w p (Some text) lang c = (c, [(guid, MakeNotModerator (m_name c))]))
       /\ (IsOn c guid = true -> Say_muted w p c = false -> Say_unmoderated p c = false ->
           Say_language_refused w text c = true ->
           Say w p (Some text) lang c = (c, [(guid, MakeMuted (m_name c))]))
       /\ (Say_accepted w p text c = false ->
           exists notice,
             (notice = CHAT_NOT_MEMBER_NOTICE \/ notice = CHAT_MUTED_NOTICE
              \/ notice = CHAT_NOT_MODERATOR_NOTICE)
             /\ Say w p (Some text) lang c
                = (c, [(guid, MakeNotifyPacket (m_name c) notice)])).
Proof.
  intros Hp guid. subst guid. split; [done|]. intros text.
  assert (H1 : IsOn c (GetObjectGuid p) = false ->
               Say w p (Some text) lang c
               = (c, [(GetObjectGuid p, MakeNotMember (m_name c))])).
  { intros Hon. unfold Say. cbv zeta. rewrite Hon. by apply SendToOne_online. }
  assert (H2 : IsOn c (GetObjectGuid p) = true -> Say_muted w p c = true ->
               Say w p (Some text) lang c
               = (c, [(GetObjectGuid p, MakeMuted (m_name c))])).
  { intros Hon Hm. unfold Say. cbv zeta. unfold Say_muted in Hm.
    rewrite Hon, Hm. by apply SendToOne_online. }
  assert (H3 : IsOn c (GetObjectGuid p) = true -> Say_muted w p c = false ->
               Say_unmoderated p c = true ->
               Say w p (Some text) lang c
               = (c, [(GetObjectGuid p, MakeNotModerator (m_name c))])).
  { intros Hon Hm Hu. unfold Say. cbv zeta. unfold Say_muted, Say_unmoderated in *.
    rewrite Hon, Hm, Hu. by apply SendToOne_online. }
  assert (H4 : IsOn c (GetObjectGuid p) = true -> Say_muted w p c = false ->
               Say_unmoderated p c = false -> Say_language_refused w text c = true ->
               Say w p (Some text) lang c
               = (c, [(GetObjectGuid p, MakeMuted (m_name c))])).
  { intros Hon Hm Hu Hl. unfold Say. cbv zeta.
    unfold Say_muted, Say_unmoderated, Say_language_refused in *.
    rewrite Hon, Hm, Hu, Hl. by apply SendToOne_online. }
  repeat split; try assumption.
  unfold Say_accepted. intros Hacc.
  destruct (IsOn c (GetObjectGuid p)) eqn:Hon; [|eexists; split; [|by apply H1]; auto].
  destruct (Say_muted w p c) eqn:Hm; [eexists; split; [|by apply H2]; auto|].
  destruct (Say_unmoderated p c) eqn:Hu; [eexists; split; [|by apply H3]; auto|].
  destruct (Say_language_refused w text c) eqn:Hl; [|done].
  eexists; split; [|by apply H4]; auto.
Qed.

(** Bob speaks on the moderated channel of Ann. *)
Lemma Say_refusals_witness :
  let c := run demo_world [OpJoin ann ""; OpJoin bob ""; OpModerate ann]
             (Channel_new demo_world "test") in
  Say demo_world bob (Some "hi") 0 c = (c, [(GetObjectGuid bob, MakeNotModerator "test")]).
Proof.
  intros c.
  refine (proj1 (proj2 (proj2 (proj2 (Say_refusals demo_world bob 0 c _) "hi"))) _ _ _);
    [discriminate|reflexivity|reflexivity|reflexivity].
Defined.

(** C3, as stated, fails: a moderator who speaks receives the payload. *)
Lemma Say_moderator_receives_own_speech :
  ~ (forall w p text lang c,
       Say_accepted w p text c = true ->
       PlayerInfo.IsModerator (member c (GetObjectGuid p)) = true ->
       ~ In (GetObjectGuid p, Say_payload w p text lang c)
            (snd (Say w p (Some text) lang c))).
Proof.
  intros H.
  apply (H demo_world ann "hi" 0
           (run demo_world [OpJoin ann ""; OpJoin bob ""] (Channel_new demo_world "test")));
    [reflexivity|reflexivity|].
  vm_compute. by left.
Qed.

(** C3, amended. An accepted [Say] leaves the channel unchanged and sends the
    chat payload, and nothing else, to the members that are online: to every
    one of them, the sender included and whatever their ignore lists, when the
    sender is a moderator; to those who do not ignore the sender when the
    sender is not a moderator. *)
Theorem Say_delivery w p text lang c :
  Say_accepted w p text c = true ->
  let guid := GetObjectGuid p in
  fst (Say w p (Some text) lang c) = c
  /\ forall g d,
       In (g, d) (snd (Say w p (Some text) lang c))
       <-> d = Say_payload w p text lang c
           /\ IsOn c g = true
           /\ exists plr, GetPlayer w g = Some plr
                /\ (PlayerInfo.IsModerator (member c guid) = true
                    \/ HasIgnore plr guid = false).
Proof.
  intros Hacc guid. subst guid. split; [apply fst_Say|]. intros g d.
  unfold Say_accepted in Hacc.
  apply andb_true_iff in Hacc as [Hacc Hl]. apply andb_true_iff in Hacc as [Hacc Hu].
  apply andb_true_iff in Hacc as [Hon Hm].
  apply negb_true_iff in Hl, Hu, Hm.
  unfold Say. cbv zeta. unfold Say_muted, Say_unmoderated, Say_language_refused in *.
  rewrite Hon, Hm, Hu, Hl. cbn [negb]. fold (Say_payload w p text lang c).
  rewrite In_SendMessage.
  destruct (PlayerInfo.IsModerator (member c (GetObjectGuid p))).
  - split; intros (-> & Hg & plr & Hplr & _); eauto 6.
  - split; intros (-> & Hg & plr & Hplr & [H|H]); try done; eauto 6.
Qed.

(** Ann, owner and moderator, speaks; Bob, who ignores her, receives it. *)
Lemma Say_delivery_witness :
  let c := run demo_world [OpJoin ann ""; OpJoin bob ""] (Channel_new demo_world "test") in
  In (GetObjectGuid bob, Say_payload demo_world ann "hi" 0 c)
     (snd (Say demo_world ann (Some "hi") 0 c)).
Proof.
  intros c.
  apply (proj2 (Say_delivery demo_world ann "hi" 0 c eq_refl)).
  split; [reflexivity|]. split; [reflexivity|].
  exists bob. split; [reflexivity|]. left. reflexivity.
Defined.

Lemma snd_SendToAll_keys w data c c' :
  PlayerList.keys (m_players c') = PlayerList.keys (m_players c) ->
  snd (SendToAll w data c') = snd (SendToAll w data c).
Proof.
  unfold SendToAll, SendToOne, PlayerList.keys. cbn [snd].
  generalize (m_players c). induction (m_players c') as [|[k i] r IH]; intros [|[k2 i2] r2] H;
    try done.
  simpl in H. injection H as -> Hr. simpl. f_equal. by apply IH.
Qed.

(** What [SetStatic] keeps of the channel when it converts to static. *)
Lemma SetStatic_state_on_kept w c :
  wf_players (m_players c) ->
  let c' := SetStatic_state w true c in
  same_keys (m_players c) (m_players c')
  /\ moderators_within
       (m_players (fst (strip_moderators w (PlayerList.keys (m_players c)) c)))
       (m_players c')
  /\ m_name c' = m_name c.
Proof.
  intros Hwf. unfold SetStatic_state.
  destruct (strip_moderators_spec w (PlayerList.keys (m_players c)) c Hwf)
    as ((m1 & Hc1 & Hs1) & _ & _).
  set (c1 := fst (strip_moderators w _ c)) in *. rewrite Hc1.
  cbn [m_ownerGuid set_players]. destruct (guid_bool (m_ownerGuid c)).
  - rewrite fst_SetOwner. cbn [m_players m_name m_ownerGuid set_players set_static
      set_announce set_moderate set_ownerGuid].
    split; [|split; [|done]].
    + eapply same_keys_trans; [exact Hs1|]. by apply same_keys_SetOwner_players.
    + intros k i'. rewrite find_SetOwner_players. unfold SetOwner_entry.
      change (guid_bool EmptyGuid) with false. cbn [andb].
      destruct (guid_bool (m_ownerGuid c) && (m_ownerGuid c =? k)); [|eauto].
      destruct (PlayerList.find k m1) as [i|]; [|done]. cbn [option_map].
      intros [= <-]. exists i. split; [done|]. intros _.
      exact (eq_trans (IsModerator_SetOwner false _) (IsModerator_SetModerator false i)).
  - cbn [m_players m_name set_players set_static set_announce set_moderate].
    split; [done|]. split; [apply moderators_within_refl|done].
Qed.




(** C2. In every channel reached from a fresh one nobody banned is a member.
    There, a [KickOrBan] with [ban] that passes its gates leaves the target
    banned and not a member, and a [Join] by somebody banned is answered with
    Banned and leaves the channel as it is. *)
Theorem banned_never_member w name ops :
  let c := run w ops (Channel_new w name) in
  banned_disjoint c
  /\ (forall p t target,
        IsOn c (GetObjectGuid p) = true ->
        authorized c p = true ->
        GetPlayerByName w t = Some target ->
        IsOn c (GetObjectGuid target) = true ->
        owner_protected c p target = false ->
        let c' := fst (KickOrBan w p t true c) in
        GetObjectGuid target ∈ m_banned c' /\ IsOn c' (GetObjectGuid target) = false)
  /\ (forall p password,
        IsBanned c (GetObjectGuid p) = true ->
        Join w p password c = SendToOne w (MakeBanned (m_name c)) (GetObjectGuid p) c
        /\ fst (Join w p password c) = c
        /\ IsOn (fst (Join w p password c)) (GetObjectGuid p) = false).
Proof.
  intros c. assert (Hc : consistent c) by apply consistent_run, consistent_new.
  split; [apply Hc|]. split.
  - intros p t target Hon Hauth Ht Htg Hprot c'. subst c'.
    rewrite (fst_KickOrBan_performed _ _ _ _ _ _ Hon Hauth Ht Htg Hprot). cbv zeta.
    assert (Hb : GetObjectGuid target ∈ m_banned (removed true (GetObjectGuid target) c)).
    { unfold removed. cbn [andb]. destruct (IsBanned c (GetObjectGuid target)) eqn:E;
        cbn [negb m_banned set_players set_banned].
      - unfold IsBanned in E. by apply bool_decide_eq_true in E.
      - apply elem_of_union_l. by apply elem_of_singleton. }
    destruct ((m_ownerGuid c =? GetObjectGuid target) && negb (IsPublic c)).
    + split; [by rewrite fst_SetOwner|].
      rewrite IsOn_SetOwner; [apply IsOn_removed|].
      apply SelectNewOwner_found, wf_removed, Hc.
    + split; [done|apply IsOn_removed].
  - intros p password Hban.
    assert (Hoff : IsOn c (GetObjectGuid p) = false).
    { apply Hc. unfold IsBanned in Hban. by apply bool_decide_eq_true in Hban. }
    assert (Hj : Join w p password c
                 = SendToOne w (MakeBanned (m_name c)) (GetObjectGuid p) c).
    { unfold Join. cbv zeta. by rewrite Hoff, Hban. }
    rewrite Hj. by repeat split.
Qed.

(** Ann bans Bob from "test"; Bob is banned, gone, and cannot come back. *)
Lemma banned_never_member_witness :
  let c := run demo_world [OpJoin ann ""; OpJoin bob ""] (Channel_new demo_world "test") in
  let c' := fst (KickOrBan demo_world ann "Bob" true c) in
  (GetObjectGuid bob ∈ m_banned c' /\ IsOn c' (GetObjectGuid bob) = false)
  /\ Join demo_world bob "" c' = (c', [(GetObjectGuid bob, MakeBanned "test")]).
Proof.
  intros c c'. split.
  - apply (proj1 (proj2 (banned_never_member demo_world "test"
                           [OpJoin ann ""; OpJoin bob ""])) ann "Bob" bob);
      reflexivity.
  - apply (proj2 (proj2 (banned_never_member demo_world "test"
                           [OpJoin ann ""; OpJoin bob ""; OpKickOrBan ann "Bob" true]))
             bob "").
    reflexivity.
Defined.

(** A step that keeps the owner guid and the owner's entry. *)
Lemma owner_entry_same_owner c c' :
  m_ownerGuid c' = m_ownerGuid c ->
  (guid_bool (m_ownerGuid c) = true ->
   forall i, PlayerList.find (m_ownerGuid c) (m_players c) = Some i ->
   exists i', PlayerList.find (m_ownerGuid c) (m_players c') = Some i'
              /\ PlayerInfo.IsModerator i' = PlayerInfo.IsModerator i
              /\ PlayerInfo.IsOwner i' = PlayerInfo.IsOwner i) ->
  owner_entry c -> owner_entry c'.
Proof.
  intros Ho He Hoe Hg. rewrite Ho in *. destruct (Hoe Hg) as (i & Hi & Hm & Hw).
  destruct (He Hg i Hi) as (i' & Hi' & Hm' & Hw'). exists i'. split; [done|].
  split; congruence.
Qed.

Lemma owner_entry_fields c c' :
  m_ownerGuid c' = m_ownerGuid c -> m_players c' = m_players c ->
  owner_entry c -> owner_entry c'.
Proof. unfold owner_entry. by intros -> ->. Qed.

Lemma owner_entry_erase g c :
  (guid_bool (m_ownerGuid c) = true -> m_ownerGuid c <> g) ->
  owner_entry c -> owner_entry (set_players (PlayerList.erase g (m_players c)) c).
Proof.
  intros Hne. apply owner_entry_same_owner; [done|].
  intros Ho i Hi. exists i. cbn [m_players set_players].
  rewrite find_erase_ne; [done|]. intros ->. by apply Hne.
Qed.

Lemma owner_entry_SetStatic w state command c :
  consistent c -> owner_entry c -> owner_entry (fst (snd (SetStatic w state command c))).
Proof.
  intros Hc Hg. destruct (SetStatic_blocked w state command c) eqn:E.
  - by rewrite SetStatic_refused.
  - rewrite (proj2 (SetStatic_performed _ _ _ _ E)). destruct state.
    + pose proof (SetStatic_state_on_owner w c (proj1 Hc)) as Ho.
      intros H. by rewrite Ho in H.
    + unfold SetStatic_state. destruct (guid_bool (m_ownerGuid c)) eqn:Eo.
      * exact Hg.
      * exact (owner_entry_SetOwner _ _ _ _).
Qed.

Lemma owner_entry_Join w p pw c :
  consistent c -> owner_entry c -> owner_entry (fst (Join w p pw c)).
Proof.
  intros Hc Hg. unfold Join. cbv zeta.
  destruct (IsOn c (GetObjectGuid p)) eqn:Hon; [by destruct (negb (IsConstant c))|].
  destruct (IsBanned c (GetObjectGuid p)) eqn:Hban; [done|].
  split_if; [done|]. split_if; [done|].
  rewrite !fst_seq.
  set (c2 := fst (update _ _)).
  assert (H2 : consistent c2 /\ owner_entry c2).
  { assert (Hc2 : c2 = set_players
                         (PlayerList.modify (GetObjectGuid p)
                            (fun _ => PlayerInfo.mk (GetObjectGuid p) MEMBER_FLAG_NONE)
                            (PlayerList.subscript (GetObjectGuid p) (m_players c))) c)
      by (subst c2; by split_if).
    rewrite Hc2. split.
    - split; [apply wf_assign; [done|apply Hc]|].
      intros g Hg'. apply IsOn_false. cbn [m_players m_banned set_players] in *.
      rewrite find_assign. destruct (N.eqb_spec (GetObjectGuid p) g) as [<-|Hne].
      + unfold IsBanned in Hban. by apply bool_decide_eq_false in Hban.
      + by apply IsOn_false, Hc.
    - apply (owner_entry_same_owner c); [done| |exact Hg].
      intros Ho i Hi. exists i. cbn [m_players set_players]. rewrite find_assign.
      destruct (N.eqb_spec (GetObjectGuid p) (m_ownerGuid c)) as [He|Hne]; [|done].
      apply IsOn_false in Hon. congruence. }
  destruct H2 as [Hc2 Hg2].
  cbn [SendToOne fst].
  match goal with |- owner_entry (fst (snd (SetStatic _ _ _ ?x))) => set (c4 := x) end.
  assert (H4 : consistent c4 /\ owner_entry c4).
  { subst c4. destruct (negb (IsPublic c2)) eqn:Hp; cbn [andb]; [|done].
    split_if; [|done]. split.
    - apply consistent_SetOwner; [|done]. intros _. apply IsOn_true.
      assert (Hf : PlayerList.find (GetObjectGuid p) (m_players c2)
                   = Some (PlayerInfo.mk (GetObjectGuid p) MEMBER_FLAG_NONE)).
      { subst c2. split_if; cbn [fst update SendToAll m_players set_players];
          by rewrite find_assign, N.eqb_refl. }
      eauto.
    - apply owner_entry_SetOwner. }
  destruct H4 as [Hc4 Hg4]. by apply owner_entry_SetStatic.
Qed.

Lemma owner_entry_Leave w p send c :
  removes_owner_on_public w (OpLeave p send) c = false ->
  owner_entry c -> owner_entry (fst (Leave w p send c)).
Proof.
  intros Hk Hg. unfold Leave. cbv zeta.
  destruct (IsOn c (GetObjectGuid p)) eqn:Hon; cbn [negb]; [|by destruct send].
  rewrite !fst_seq. unfold update. cbn [fst].
  set (c1 := fst (if send then _ else _)).
  assert (c1 = c) as -> by (subst c1; by destruct send).
  set (c2 := set_players _ c).
  set (c3 := fst (if m_announce c2 && _ then _ else _)).
  assert (c3 = c2) as -> by (subst c3; by split_if).
  unfold removes_owner_on_public in Hk. rewrite Hon in Hk. cbn [andb] in Hk.
  destruct (PlayerInfo.IsOwner (member c (GetObjectGuid p))) eqn:Hch; cbn [andb].
  - destruct (IsPublic c2) eqn:Hp; cbn [negb].
    + apply owner_entry_erase; [|done]. intros Ho Heq.
      change (IsPublic c2) with (IsPublic c) in Hp.
      rewrite Hp, Ho, Heq, N.eqb_refl in Hk. done.
    + apply owner_entry_SetOwner.
  - apply owner_entry_erase; [|done]. intros Ho Heq.
    destruct (Hg Ho) as (i & Hi & _ & Hw).
    rewrite Heq in Hi. rewrite (member_found _ _ _ Hi) in Hch. congruence.
Qed.

Lemma authorized_gate c p :
  negb (PlayerInfo.IsModerator (member c (GetObjectGuid p)))
  && sec_lt (GetSecurity p) SEC_GAMEMASTER = negb (authorized c p).
Proof.
  unfold authorized. destruct (PlayerInfo.IsModerator _); [done|]. cbn.
  by rewrite negb_involutive.
Qed.

Lemma owner_entry_KickOrBan w p t ban c :
  removes_owner_on_public w (OpKickOrBan p t ban) c = false ->
  owner_entry c -> owner_entry (fst (KickOrBan w p t ban c)).
Proof.
  intros Hk Hg. unfold KickOrBan. cbv zeta. rewrite authorized_gate.
  destruct (IsOn c (GetObjectGuid p)) eqn:Hon; [|done]. cbn [negb].
  destruct (authorized c p) eqn:Hauth; [|done]. cbn [negb].
  destruct (GetPlayerByName w t) as [target|] eqn:Ht; [|done].
  destruct (IsOn c (GetObjectGuid target)) eqn:Htg; [|done]. cbn [negb].
  destruct (sec_lt (GetSecurity p) SEC_GAMEMASTER
            && (m_ownerGuid c =? GetObjectGuid target)
            && negb (GetObjectGuid p =? m_ownerGuid c)) eqn:Hprot; [done|].
  unfold removes_owner_on_public in Hk. rewrite Hon, Hauth, Ht, Htg in Hk.
  unfold owner_protected in Hk. rewrite Hprot in Hk. cbn [andb negb] in Hk.
  rewrite !fst_seq. unfold update. cbn [fst].
  set (c1 := fst (if ban && _ then _ else _)).
  assert (H1 : owner_entry c1 /\ m_ownerGuid c1 = m_ownerGuid c /\ IsPublic c1 = IsPublic c).
  { subst c1. split_if; cbn [seq update SendToAll fst]; [|done]. split; [|done].
    revert Hg. by apply owner_entry_fields. }
  destruct H1 as (Hg1 & Ho1 & Hp1).
  destruct (N.eqb_spec (m_ownerGuid c) (GetObjectGuid target)) as [Heq|Hne]; cbn [andb].
  - destruct (IsPublic (set_players (PlayerList.erase (GetObjectGuid target) (m_players c1)) c1))
      eqn:Hp; cbn [negb].
    + exfalso. change (IsPublic c1 = true) in Hp. rewrite Hp1 in Hp.
      rewrite Hp, Heq in Hk. cbn [andb] in Hk. rewrite ?N.eqb_refl, ?andb_true_r in Hk.
      by rewrite (guid_bool_Npos (GetGUIDLow target) : guid_bool (GetObjectGuid target) = true) in Hk.
    + apply owner_entry_SetOwner.
  - apply owner_entry_erase; [|done]. intros _. congruence.
Qed.

Lemma owner_entry_roles_only c c' :
  roles_only c c' ->
  (forall i i', PlayerList.find (m_ownerGuid c) (m_players c) = Some i ->
     PlayerList.find (m_ownerGuid c) (m_players c') = Some i' ->
     PlayerInfo.IsModerator i' = PlayerInfo.IsModerator i
     /\ PlayerInfo.IsOwner i' = PlayerInfo.IsOwner i) ->
  owner_entry c -> owner_entry c'.
Proof.
  intros Hr He. assert (Ho : m_ownerGuid c' = m_ownerGuid c) by (by destruct Hr as (m' & -> & _)).
  apply owner_entry_same_owner; [done|]. intros Hg i Hi.
  destruct (PlayerList.find (m_ownerGuid c) (m_players c')) as [i'|] eqn:E.
  - exists i'. split; [done|]. by apply He.
  - destruct Hr as (m' & -> & Hs). cbn [m_players set_players] in E.
    apply (same_keys_find_None _ _ _ Hs) in E. congruence.
Qed.

Lemma owner_entry_SetMode w p t moderator set c :
  owner_entry c -> owner_entry (fst (SetMode w p t moderator set c)).
Proof.
  intros Hg. unfold SetMode. cbv zeta.
  destruct (negb (IsOn c (GetObjectGuid p))); [done|].
  split_if; [done|].
  destruct (GetPlayerByName w t) as [target|]; [|done].
  destruct (moderator && (GetObjectGuid p =? m_ownerGuid c)
            && (GetObjectGuid target =? m_ownerGuid c)) eqn:Hself; [done|].
  split_if; [done|]. split_if; [done|].
  destruct ((m_ownerGuid c =? GetObjectGuid target)
            && negb (m_ownerGuid c =? GetObjectGuid p)) eqn:Hown; [done|].
  destruct moderator.
  - assert (Hne : m_ownerGuid c ≠ GetObjectGuid target).
    { intros Heq. rewrite Heq in Hself, Hown. rewrite N.eqb_refl in Hself, Hown.
      cbn [andb] in Hown. apply negb_false_iff, N.eqb_eq in Hown.
      rewrite Hown, N.eqb_refl in Hself. done. }
    rewrite fst_SetModerator.
    destruct (PlayerList.find (GetObjectGuid target) (m_players c)); [|done].
    split_if; [done|]. revert Hg. apply owner_entry_same_owner; [done|].
    intros Ho i Hi. exists i. cbn [m_players set_players].
    rewrite find_modify_ne by done. done.
  - rewrite fst_SetMute.
    destruct (PlayerList.find (GetObjectGuid target) (m_players c)); [|done].
    split_if; [done|]. revert Hg. apply owner_entry_same_owner; [done|].
    intros Ho i Hi. cbn [m_players set_players].
    destruct (N.eq_dec (GetObjectGuid target) (m_ownerGuid c)) as [->|Hne].
    + rewrite find_modify_eq, Hi. cbn [option_map]. eexists. split; [done|].
      by rewrite IsModerator_SetMuted, IsOwner_SetMuted.
    + rewrite find_modify_ne by done. eauto.
Qed.

Lemma owner_entry_SetOwner_cmd w p t c :
  owner_entry c -> owner_entry (fst (SetOwner_cmd w p t c)).
Proof.
  intros Hg. unfold SetOwner_cmd. cbv zeta.
  destruct (negb (IsOn c (GetObjectGuid p))); [done|].
  split_if; [done|].
  destruct (GetPlayerByName w t) as [target|]; [|done].
  split_if; [done|]. split_if; [done|]. apply owner_entry_SetOwner.
Qed.

Lemma owner_entry_exec w o c :
  removes_owner_on_public w o c = false ->
  consistent c -> owner_entry c -> owner_entry (fst (exec w o c)).
Proof.
  destruct o; cbn [exec]; intros Hk Hc Hg.
  - by apply owner_entry_Join.
  - by apply owner_entry_Leave.
  - by apply owner_entry_KickOrBan.
  - unfold UnBan. cbv zeta. repeat (split_if; [done|]).
    destruct (GetPlayerByName w targetName); [|done]. split_if; done.
  - unfold Password. cbv zeta. repeat (split_if; [done|]). done.
  - by apply owner_entry_SetMode.
  - by apply owner_entry_SetOwner_cmd.
  - by apply owner_entry_SetStatic.
  - unfold Announce. cbv zeta. repeat (split_if; [done|]). rewrite fst_seq.
    cbn [fst update]. by split_if.
  - unfold Moderate. cbv zeta. repeat (split_if; [done|]). rewrite fst_seq.
    cbn [fst update]. by split_if.
  - by rewrite fst_Say.
  - by rewrite fst_Invite.
Qed.

Lemma owner_kept_app w ops1 ops2 c :
  owner_kept w (ops1 ++ ops2) c = owner_kept w ops1 c && owner_kept w ops2 (run w ops1 c).
Proof.
  revert c. induction ops1 as [|o r IH]; intros c; simpl; [done|].
  by rewrite IH, andb_assoc.
Qed.

Lemma owner_entry_run w ops : forall c,
  owner_kept w ops c = true -> consistent c -> owner_entry c -> owner_entry (run w ops c).
Proof.
  induction ops as [|o r IH]; intros c Hk Hc Hg; simpl in *; [done|].
  apply andb_true_iff in Hk as [Ho Hr]. apply negb_true_iff in Ho.
  apply IH; [done|by apply consistent_exec|by apply owner_entry_exec].
Qed.

Lemma fst_Leave_public w p send c :
  IsOn c (GetObjectGuid p) = true -> IsPublic c = true ->
  fst (Leave w p send c) = set_players (PlayerList.erase (GetObjectGuid p) (m_players c)) c.
Proof.
  intros Hon Hp. unfold Leave. cbv zeta. rewrite Hon. cbn [negb].
  rewrite !fst_seq. unfold update. cbn [fst].
  set (c1 := fst (if send then _ else _)).
  assert (c1 = c) as -> by (subst c1; by destruct send).
  set (c2 := set_players _ c).
  set (c3 := fst (if m_announce c2 && _ then _ else _)).
  assert (c3 = c2) as -> by (subst c3; by split_if).
  change (IsPublic c2) with (IsPublic c). rewrite Hp. cbn [negb]. by rewrite andb_false_r.
Qed.

(** Taking the owner out of a public channel leaves its guid behind. *)
Lemma removes_owner_breaks w o c :
  removes_owner_on_public w o c = true -> ~ owner_invariant (fst (exec w o c)).
Proof.
  unfold removes_owner_on_public. intros H.
  apply andb_true_iff in H as [H Ho]. apply andb_true_iff in H as [Hp Hg].
  assert (Hgone : forall c', m_ownerGuid c' = m_ownerGuid c ->
                    IsOn c' (m_ownerGuid c) = false -> ~ owner_invariant c').
  { intros c' Ho' Hoff Hinv. rewrite <- Ho' in Hoff. apply IsOn_false in Hoff.
    destruct Hinv as (i & Hi & _); [by rewrite Ho'|]. congruence. }
  destruct o; try discriminate Ho; cbn [exec].
  - apply andb_true_iff in Ho as [Hon Heq]. apply N.eqb_eq in Heq.
    rewrite (fst_Leave_public w player send c Hon Hp).
    apply Hgone; [done|]. rewrite <- Heq. apply IsOn_erase_eq.
  - apply andb_true_iff in Ho as [Ho Ht]. apply andb_true_iff in Ho as [Hon Hauth].
    destruct (GetPlayerByName w targetName) as [target|] eqn:Etg; [|done].
    apply andb_true_iff in Ht as [Ht Hprot]. apply andb_true_iff in Ht as [Htg Heq].
    apply negb_true_iff in Hprot. apply N.eqb_eq in Heq.
    rewrite (fst_KickOrBan_performed _ _ _ _ _ _ Hon Hauth Etg Htg Hprot). cbv zeta.
    rewrite Hp. cbn [negb]. rewrite andb_false_r.
    apply Hgone; [unfold removed; by destruct (ban && _)|].
    rewrite Heq. apply IsOn_removed.
Qed.

Lemma owner_kept_false w ops : forall c,
  owner_kept w ops c = false ->
  exists before o rest,
    ops = before ++ o :: rest
    /\ owner_kept w before c = true
    /\ removes_owner_on_public w o (run w before c) = true.
Proof.
  induction ops as [|o r IH]; intros c H; simpl in H; [done|].
  destruct (removes_owner_on_public w o c) eqn:E.
  - exists [], o, r. by repeat split.
  - cbn [negb andb] in H. destruct (IH _ H) as (b & o' & rest & -> & Hb & Hr).
    exists (o :: b), o', rest. simpl. rewrite E. by repeat split.
Qed.

Lemma governed_keeps_owner w ops : forall c,
  consistent c -> governed c ->
  owner_governed w ops c = true -> owner_kept w ops c = true.
Proof.
  induction ops as [|o r IH]; intros c Hc Hg H; simpl in *; [done|].
  apply andb_true_iff in H as [Ho Hr]. apply negb_true_iff in Ho.
  apply andb_true_iff. split.
  - apply negb_true_iff. unfold removes_owner_on_public.
    destruct (IsPublic c) eqn:Hp; [|done]. destruct Hg as [_ Hpo]. by rewrite (Hpo Hp).
  - apply IH; [by apply consistent_exec|by apply governed_exec|done].
Qed.

(** C1, as stated, fails: on the built-in channel "General" a game master
    takes the ownership and leaves; the owner guid stays, the member is gone. *)
Lemma owner_left_behind_on_public :
  ~ (forall w name ops, owner_invariant (run w ops (Channel_new w name))).
Proof.
  intros H.
  destruct (H demo_world "General" [OpJoin gm ""; OpSetOwner gm "Gm"; OpLeave gm true])
    as (i & Hi & _); [reflexivity|].
  vm_compute in Hi. discriminate Hi.
Qed.

(** C1, amended. For a sequence of operations on a fresh channel, an owner
    guid that is not empty is a member whose role includes moderator after
    every operation of the sequence exactly when no operation of the sequence
    takes the member the owner guid names out of the channel while it is
    public (built-in or static), by the owner's own [Leave] or by a
    [KickOrBan] on the owner that passes its gates: without such an operation
    the invariant holds after each one, with one there is an operation after
    which it fails.  No sequence has such an operation in which no ownership
    transfer is carried out by a game master while the channel is public,
    that is, in which no [SetOwner] command of an actor not below game master
    passes its gates then; a command that is refused does not count. *)
Theorem owner_invariant_governed w name ops :
  let c0 := Channel_new w name in
  (owner_kept w ops c0 = true ->
   forall before rest, ops = before ++ rest -> owner_invariant (run w before c0))
  /\ (owner_kept w ops c0 = false ->
      exists before rest, ops = before ++ rest /\ ~ owner_invariant (run w before c0))
  /\ (owner_governed w ops c0 = true -> owner_kept w ops c0 = true).
Proof.
  intros c0. split; [|split].
  - intros Hk before rest ->. rewrite owner_kept_app in Hk.
    apply andb_true_iff in Hk as [Hk _].
    assert (H : owner_entry (run w before c0)).
    { apply owner_entry_run; [done|apply consistent_new|apply governed_new]. }
    intros Ho. destruct (H Ho) as (i & Hi & Hm & _). eauto.
  - intros Hk. destruct (owner_kept_false w ops c0 Hk) as (b & o & rest & -> & _ & Hr).
    exists (b ++ [o]), rest. split; [by rewrite <- app_assoc|].
    replace (run w (b ++ [o]) c0) with (fst (exec w o (run w b c0))).
    + by apply removes_owner_breaks.
    + clear. generalize c0. induction b as [|o' b IH]; intros c; simpl; [done|]. apply IH.
  - apply governed_keeps_owner; [apply consistent_new|apply governed_new].
Qed.

(** On "General" the game master, who is not a member, asks for the
    ownership and is refused; Ann joins and leaves: the sequence is owner
    governed, and the invariant holds after it.  When the game master joins,
    takes the ownership and leaves, the owner is taken out of a public
    channel, and the invariant fails after some operation. *)
Lemma owner_invariant_governed_witness :
  (let ops := [OpJoin ann ""; OpSetOwner gm "Gm"; OpLeave ann true] in
   owner_governed demo_world ops (Channel_new demo_world "General") = true
   /\ owner_invariant (run demo_world ops (Channel_new demo_world "General")))
  /\ (let ops := [OpJoin gm ""; OpSetOwner gm "Gm"; OpLeave gm true] in
      owner_kept demo_world ops (Channel_new demo_world "General") = false
      /\ exists before rest,
           ops = before ++ rest
           /\ ~ owner_invariant (run demo_world before (Channel_new demo_world "General"))).
Proof.
  split; intros ops.
  - split; [reflexivity|].
    destruct (owner_invariant_governed demo_world "General" ops) as (H1 & _ & H3).
    apply (H1 (H3 eq_refl) ops []). symmetry. apply app_nil_r.
  - split; [reflexivity|].
    destruct (owner_invariant_governed demo_world "General" ops) as (_ & H2 & _).
    exact (H2 eq_refl).
Defined.

(** * Further properties of the code *)

(** ** The table of the reachable channels *)

Lemma ascending_NoDup m : ascending m -> NoDup (PlayerList.keys m).
Proof.
  unfold ascending. induction 1 as [|k r Hr IH Hk]; constructor; [|done].
  intros Hin%list_elem_of_In. rewrite List.Forall_forall in Hk.
  specialize (Hk _ Hin). lia.
Qed.

Lemma ascending_In_find k i m :
  ascending m -> In (k, i) m -> PlayerList.find k m = Some i.
Proof.
  unfold ascending. induction m as [|[k' i'] r IH]; simpl; [done|].
  intros Hs. apply StronglySorted_inv in Hs as [Hr Hk]. intros [[= -> ->]|Hin].
  - by rewrite N.eqb_refl.
  - destruct (N.eqb_spec k' k) as [->|Hne]; [|by apply IH].
    rewrite List.Forall_forall in Hk. specialize (Hk k (in_map fst _ _ Hin)). lia.
Qed.

(** X1. The members table of every channel reached from a fresh one is a
    map: its keys are strictly ascending, so no identity appears twice, and
    every entry is the one found under its key and records that key as its
    player. *)
Theorem reachable_table_is_a_map w name ops :
  let m := m_players (run w ops (Channel_new w name)) in
  StronglySorted N.lt (PlayerList.keys m)
  /\ NoDup (PlayerList.keys m)
  /\ forall k i, In (k, i) m -> PlayerInfo.player i = k /\ PlayerList.find k m = Some i.
Proof.
  intros m.
  assert (Hwf : wf_players m) by apply consistent_run, consistent_new.
  destruct Hwf as [Ho Ha]. split; [exact Ha|]. split; [by apply ascending_NoDup|].
  intros k i Hin. split; [|by apply ascending_In_find].
  unfold own_keys in Ho. rewrite List.Forall_forall in Ho. exact (Ho _ Hin).
Qed.

(** ** The classification never changes *)

Lemma same_class_refl c : same_class c c.
Proof. by repeat split. Qed.

Lemma same_class_trans c1 c2 c3 : same_class c1 c2 -> same_class c2 c3 -> same_class c1 c3.
Proof.
  intros (Hn & Hf & Hi & Hr & Hs) (Hn' & Hf' & Hi' & Hr' & Hs').
  repeat split; try congruence.
  intros Hk. rewrite Hs'; [by apply Hs|].
  unfold IsConstant in *. by rewrite Hi.
Qed.

Lemma same_class_roles_only c c' : roles_only c c' -> same_class c c'.
Proof. intros (m' & -> & _). by repeat split. Qed.

Lemma same_class_SetOwner w guid exclaim c : same_class c (fst (SetOwner w guid exclaim c)).
Proof. rewrite fst_SetOwner. by repeat split. Qed.

Lemma same_class_strip w ks c : same_class c (fst (strip_moderators w ks c)).
Proof.
  revert c. induction ks as [|k r IH]; intros c; simpl; [apply same_class_refl|].
  rewrite fst_seq. eapply same_class_trans; [|apply IH].
  destruct (PlayerList.find k (m_players c)) as [i|]; [|apply same_class_refl].
  destruct (PlayerInfo.IsModerator i); [|apply same_class_refl].
  apply same_class_roles_only, roles_only_SetModerator.
Qed.

Lemma same_class_SetStatic w state command c :
  same_class c (fst (snd (SetStatic w state command c))).
Proof.
  destruct (SetStatic_blocked w state command c) eqn:E.
  - rewrite SetStatic_refused by done. apply same_class_refl.
  - rewrite (proj2 (SetStatic_performed _ _ _ _ E)).
    assert (Hk : IsConstant c = false).
    { unfold SetStatic_blocked in E. by destruct (IsConstant c). }
    unfold SetStatic_state. destruct state.
    + set (c1 := fst (strip_moderators w _ c)).
      pose proof (same_class_strip w (PlayerList.keys (m_players c)) c) as H1. fold c1 in H1.
      assert (H2 : same_class c1 (if guid_bool (m_ownerGuid c1)
                                  then fst (SetOwner w EmptyGuid (SetOwner_exclaim_default w) c1)
                                  else c1)).
      { destruct (guid_bool (m_ownerGuid c1));
          [apply same_class_SetOwner|apply same_class_refl]. }
      destruct (same_class_trans _ _ _ H1 H2) as (Hn & Hf & Hi & Hr & _).
      repeat split; try done. congruence.
    + assert (H2 : same_class c (if guid_bool (m_ownerGuid c) then c
                                 else fst (SetOwner w (SelectNewOwner c)
                                             (SetOwner_exclaim_default w) c))).
      { destruct (guid_bool (m_ownerGuid c));
          [apply same_class_refl|apply same_class_SetOwner]. }
      destruct H2 as (Hn & Hf & Hi & Hr & _). repeat split; try done. congruence.
Qed.

Lemma same_class_fields c c' :
  m_name c' = m_name c -> m_flags c' = m_flags c -> m_channelId c' = m_channelId c ->
  m_realmzone c' = m_realmzone c -> m_static c' = m_static c -> same_class c c'.
Proof. intros. by repeat split. Qed.

Lemma same_class_Join w p pw c : same_class c (fst (Join w p pw c)).
Proof.
  unfold Join. cbv zeta.
  repeat (split_if; [first [apply same_class_refl | split_if; apply same_class_refl]|]).
  rewrite !fst_seq.
  eapply same_class_trans; [|apply same_class_SetStatic].
  cbn [SendToOne fst].
  match goal with |- same_class c (fst (if _ then _ else (?x, _))) => set (c2 := x) end.
  assert (H2 : same_class c c2).
  { subst c2. split_if; cbn [SendToAll update fst]; by apply same_class_fields. }
  split_if; cbn [fst]; [|done].
  eapply same_class_trans; [exact H2|apply same_class_SetOwner].
Qed.

Lemma same_class_Leave w p send c : same_class c (fst (Leave w p send c)).
Proof.
  unfold Leave. cbv zeta.
  destruct (negb (IsOn c (GetObjectGuid p))); [destruct send; apply same_class_refl|].
  rewrite !fst_seq. unfold update. cbn [fst].
  set (c1 := fst (if send then _ else _)).
  assert (c1 = c) as -> by (subst c1; by destruct send).
  set (c2 := set_players _ c).
  set (c3 := fst (if m_announce c2 && _ then _ else _)).
  assert (c3 = c2) as -> by (subst c3; by split_if).
  assert (H2 : same_class c c2) by (by apply same_class_fields).
  split_if; cbn [fst]; [|done].
  eapply same_class_trans; [exact H2|apply same_class_SetOwner].
Qed.

Lemma same_class_KickOrBan w p t ban c : same_class c (fst (KickOrBan w p t ban c)).
Proof.
  unfold KickOrBan. cbv zeta.
  destruct (negb (IsOn c (GetObjectGuid p))); [apply same_class_refl|].
  split_if; [apply same_class_refl|].
  destruct (GetPlayerByName w t) as [target|]; [|apply same_class_refl].
  destruct (negb (IsOn c (GetObjectGuid target))); [apply same_class_refl|].
  split_if; [apply same_class_refl|].
  rewrite !fst_seq. unfold update. cbn [fst].
  set (c1 := fst (if ban && _ then _ else _)).
  set (c2 := set_players _ c1).
  assert (H2 : same_class c c2).
  { subst c2 c1. split_if; cbn [seq update SendToAll fst]; by apply same_class_fields. }
  split_if; cbn [fst]; [|done].
  eapply same_class_trans; [exact H2|apply same_class_SetOwner].
Qed.

Lemma same_class_exec w o c : same_class c (fst (exec w o c)).
Proof.
  destruct o; cbn [exec].
  - apply same_class_Join.
  - apply same_class_Leave.
  - apply same_class_KickOrBan.
  - unfold UnBan. cbv zeta.
    destruct (negb (IsOn c (GetObjectGuid player))); [apply same_class_refl|].
    split_if; [apply same_class_refl|].
    destruct (GetPlayerByName w targetName); [|apply same_class_refl].
    split_if; [apply same_class_refl|]. rewrite fst_seq. by apply same_class_fields.
  - unfold Password. cbv zeta.
    destruct (negb (IsOn c (GetObjectGuid player))); [apply same_class_refl|].
    split_if; [apply same_class_refl|]. rewrite fst_seq. by apply same_class_fields.
  - unfold SetMode. cbv zeta.
    destruct (negb (IsOn c (GetObjectGuid player))); [apply same_class_refl|].
    split_if; [apply same_class_refl|].
    destruct (GetPlayerByName w targetName); [|apply same_class_refl].
    do 4 (split_if; [apply same_class_refl|]).
    destruct moderator; apply same_class_roles_only;
      [apply roles_only_SetModerator|apply roles_only_SetMute].
  - unfold SetOwner_cmd. cbv zeta.
    destruct (negb (IsOn c (GetObjectGuid player))); [apply same_class_refl|].
    split_if; [apply same_class_refl|].
    destruct (GetPlayerByName w targetName); [|apply same_class_refl].
    do 2 (split_if; [apply same_class_refl|]). apply same_class_SetOwner.
  - apply same_class_SetStatic.
  - unfold Announce. cbv zeta.
    destruct (negb (IsOn c (GetObjectGuid player))); [apply same_class_refl|].
    split_if; [apply same_class_refl|]. rewrite fst_seq. unfold update. cbn [fst].
    split_if; by apply same_class_fields.
  - unfold Moderate. cbv zeta.
    destruct (negb (IsOn c (GetObjectGuid player))); [apply same_class_refl|].
    split_if; [apply same_class_refl|]. rewrite fst_seq. unfold update. cbn [fst].
    split_if; by apply same_class_fields.
  - rewrite fst_Say. apply same_class_refl.
  - rewrite fst_Invite. apply same_class_refl.
Qed.

(** X2. No sequence of operations changes the name, the flag set, the
    channel id or the realm zone of a channel, and a built-in channel keeps
    its static flag, so that what is built-in or custom stays so; a built-in
    channel created by the constructor is public for ever and every
    [SetStatic] on it returns false. *)
Theorem classification_is_constant w ops c :
  same_class c (run w ops c)
  /\ (forall name ch state command,
        c = Channel_new w name ->
        GetChannelEntryFor w name = Some ch -> ChannelID ch <> 0 ->
        IsPublic (run w ops c) = true
        /\ m_static (run w ops c) = false
        /\ fst (SetStatic w state command (run w ops c)) = false).
Proof.
  assert (Hrun : forall ops c, same_class c (run w ops c)).
  { clear. induction ops as [|o r IH]; intros c; simpl; [apply same_class_refl|].
    eapply same_class_trans; [apply same_class_exec|apply IH]. }
  split; [apply Hrun|].
  intros name ch state command -> Hch Hid.
  destruct (Hrun ops (Channel_new w name)) as (_ & _ & Hi & _ & Hs).
  assert (Hk : IsConstant (Channel_new w name) = true).
  { unfold IsConstant, Channel_new. rewrite Hch. cbn [m_channelId].
    by destruct (N.eqb_spec (ChannelID ch) 0). }
  assert (Hk' : IsConstant (run w ops (Channel_new w name)) = true).
  { unfold IsConstant in *. by rewrite Hi. }
  split; [unfold IsPublic; by rewrite Hk'|].
  split.
  - rewrite (Hs Hk). unfold Channel_new. by rewrite Hch.
  - unfold SetStatic. by rewrite Hk'.
Qed.

(** "General" is built-in in the small world. *)
Lemma classification_is_constant_witness :
  let c := run demo_world [OpJoin gm ""; OpSetOwner gm "Gm"; OpJoin ann ""]
             (Channel_new demo_world "General") in
  IsPublic c = true /\ m_static c = false /\ fst (SetStatic demo_world true true c) = false.
Proof.
  intros c.
  apply (proj2 (classification_is_constant demo_world
                  [OpJoin gm ""; OpSetOwner gm "Gm"; OpJoin ann ""]
                  (Channel_new demo_world "General"))
           "General" (mkEntry 1 0) true true); [reflexivity|reflexivity|discriminate].
Defined.

(** ** Joining and leaving *)

Lemma Join_admitted_gates p pw c :
  Join_admitted p pw c = true ->
  IsOn c (GetObjectGuid p) = false
  /\ IsBanned c (GetObjectGuid p) = false
  /\ (0 <? String.length (m_password c))%nat && negb (String.eqb pw (m_password c)) = false
  /\ negb (GetGuildId p =? 0) && (GetFlags c =? 0x38) = false.
Proof.
  unfold Join_admitted. intros H.
  apply andb_true_iff in H as [H H4]. apply andb_true_iff in H as [H H3].
  apply andb_true_iff in H as [H1 H2].
  by rewrite <- !negb_true_iff.
Qed.

Lemma Join_admitted_run w p pw c :
  Join_admitted p pw c = true ->
  let guid := GetObjectGuid p in
  let c2 := set_players (joined guid MEMBER_FLAG_NONE (m_players c)) c in
  let owned :=
    if negb (IsPublic c2) && negb (guid_bool (m_ownerGuid c2))
    then SetOwner w guid (1 <? PlayerList.size (m_players c2)) c2
    else (c2, []) in
  Join w p pw c
  = (fst (snd (SetStatic w true false (fst owned))),
     (if announces w p c then snd (SendToAll w (MakeJoined (m_name c) guid) c) else [])
     ++ snd (SendToOne w (MakeYouJoined (m_name c) (GetFlags c) (GetChannelId c)) guid c)
     ++ snd owned
     ++ snd (snd (SetStatic w true false (fst owned)))).
Proof.
  intros H guid c2 owned. destruct (Join_admitted_gates _ _ _ H) as (H1 & H2 & H3 & H4).
  subst owned c2 guid. unfold Join, announces, joined. cbv zeta.
  rewrite H1, H2, H3, H4. unfold seq, update.
  destruct (m_announce c && _); cbn [SendToAll SendToOne fst snd];
    match goal with |- context [if ?b then SetOwner _ _ _ _ else _] => destruct b end;
    match goal with
    | |- context [SetOwner ?w ?g ?e ?x] => destruct (SetOwner w g e x) as [c4 e4]
    | _ => idtac
    end; cbn [fst snd];
    match goal with
    | |- context [SetStatic ?w ?a ?b ?x] => destruct (SetStatic w a b x) as [r [c5 e5]]
    end; cbn [fst snd app]; rewrite ?app_nil_r; reflexivity.
Qed.

Lemma size_insert_new k i m :
  PlayerList.find k m = None ->
  PlayerList.size (PlayerList.insert k i m) = PlayerList.size m + 1.
Proof.
  unfold PlayerList.size. intros H.
  assert (List.length (PlayerList.insert k i m) = S (List.length m)) as ->; [|lia].
  induction m as [|[k' i'] r IH]; simpl in *; [done|].
  destruct (N.eqb_spec k' k) as [->|Hne]; [done|].
  destruct (k <? k'); simpl; [done|]. by rewrite IH.
Qed.

Lemma size_joined_new k f m :
  PlayerList.find k m = None ->
  PlayerList.size (joined k f m) = PlayerList.size m + 1.
Proof.
  intros H. unfold joined. rewrite size_modify. unfold PlayerList.subscript. rewrite H.
  by apply size_insert_new.
Qed.

Lemma size_erase_found k i m :
  ascending m -> PlayerList.find k m = Some i ->
  PlayerList.size (PlayerList.erase k m) + 1 = PlayerList.size m.
Proof.
  unfold PlayerList.size, ascending. intros Hs Hf.
  assert (S (List.length (PlayerList.erase k m)) = List.length m); [|lia].
  induction m as [|[k' i'] r IH]; simpl in *; [done|].
  apply StronglySorted_inv in Hs as [Hr Hk].
  destruct (N.eqb_spec k' k) as [->|Hne].
  - f_equal. clear IH Hf. rewrite List.Forall_forall in Hk.
    induction r as [|[k2 i2] r2 IH2]; simpl in *; [done|].
    apply StronglySorted_inv in Hr as [Hr2 _].
    destruct (N.eqb_spec k2 k) as [->|Hne2].
    + specialize (Hk k (or_introl eq_refl)). lia.
    + simpl. f_equal. apply IH2; [done|]. intros x Hx. apply Hk. by right.
  - simpl. f_equal. by apply IH.
Qed.

Lemma same_keys_SetStatic w state command c :
  wf_players (m_players c) ->
  same_keys (m_players c) (m_players (fst (snd (SetStatic w state command c)))).
Proof.
  intros Hwf. destruct (SetStatic_blocked w state command c) eqn:E.
  - rewrite SetStatic_refused by done. apply same_keys_refl.
  - rewrite (proj2 (SetStatic_performed _ _ _ _ E)). destruct state.
    + apply SetStatic_state_on_kept, Hwf.
    + unfold SetStatic_state. destruct (guid_bool (m_ownerGuid c)); [apply same_keys_refl|].
      cbn [m_players set_static]. rewrite fst_SetOwner. cbn [m_players set_players].
      apply same_keys_SetOwner_players. intros Hg.
      by apply IsOn_true, SelectNewOwner_found.
Qed.

Lemma same_keys_IsOn c c' g :
  same_keys (m_players c) (m_players c') -> IsOn c' g = IsOn c g.
Proof.
  intros Hs. destruct (same_keys_find_None _ _ g Hs) as [H1 H2]. unfold IsOn.
  destruct (PlayerList.find g (m_players c')), (PlayerList.find g (m_players c)); try done.
  - discriminate (H2 eq_refl).
  - discriminate (H1 eq_refl).
Qed.

(** What an admitted [Join] does to the table: the joiner's entry is created
    and nothing but role bits changes besides. *)
Lemma Join_admitted_table w p pw c :
  wf_players (m_players c) ->
  Join_admitted p pw c = true ->
  same_keys (joined (GetObjectGuid p) MEMBER_FLAG_NONE (m_players c))
    (m_players (fst (Join w p pw c)))
  /\ m_banned (fst (Join w p pw c)) = m_banned c
  /\ m_password (fst (Join w p pw c)) = m_password c.
Proof.
  intros Hwf H. rewrite (Join_admitted_run w _ _ _ H). cbn [fst].
  set (c2 := set_players (joined (GetObjectGuid p) MEMBER_FLAG_NONE (m_players c)) c).
  assert (Hwf2 : wf_players (m_players c2)) by (by apply wf_assign).
  assert (Hon2 : IsOn c2 (GetObjectGuid p) = true).
  { apply IsOn_true. subst c2. cbn [m_players set_players]. unfold joined.
    rewrite find_assign, N.eqb_refl. eauto. }
  match goal with |- context [SetStatic w true false ?x] => set (c4 := x) end.
  assert (H4 : roles_only (set_ownerGuid (m_ownerGuid c4) c2) c4).
  { subst c4. split_if; cbn [fst].
    - rewrite SetOwner_ownerGuid. by apply SetOwner_roles_only.
    - replace (set_ownerGuid (m_ownerGuid c2) c2) with c2 by (by destruct c2).
      apply roles_only_refl. }
  destruct H4 as (m4 & Hc4 & Hs4). cbn [m_players set_ownerGuid] in Hs4.
  assert (Hwf4 : wf_players (m_players c4)).
  { rewrite Hc4. cbn [m_players set_players]. by eapply same_keys_wf. }
  pose proof (same_keys_SetStatic w true false c4 Hwf4) as Hs5.
  split; [|split].
  - eapply same_keys_trans; [|exact Hs5]. rewrite Hc4. exact Hs4.
  - destruct (SetStatic_blocked w true false c4) eqn:E.
    + rewrite SetStatic_refused by done. cbn [fst snd]. by rewrite Hc4.
    + rewrite (proj2 (SetStatic_performed _ _ _ _ E)). unfold SetStatic_state.
      destruct (strip_moderators_spec w (PlayerList.keys (m_players c4)) c4 Hwf4)
        as ((m1 & -> & _) & _ & _).
      cbn [m_ownerGuid set_players]. split_if; [rewrite fst_SetOwner|]; by rewrite Hc4.
  - destruct (SetStatic_blocked w true false c4) eqn:E.
    + rewrite SetStatic_refused by done. cbn [fst snd]. by rewrite Hc4.
    + rewrite (proj2 (SetStatic_performed _ _ _ _ E)). unfold SetStatic_state.
      destruct (strip_moderators_spec w (PlayerList.keys (m_players c4)) c4 Hwf4)
        as ((m1 & -> & _) & _ & _).
      cbn [m_ownerGuid set_players]. split_if; [rewrite fst_SetOwner|]; by rewrite Hc4.
Qed.

Lemma IsOn_joined k f c g :
  IsOn (set_players (joined k f (m_players c)) c) g = if k =? g then true else IsOn c g.
Proof.
  unfold IsOn, joined. cbn [m_players set_players]. rewrite find_assign.
  by destruct (k =? g).
Qed.

(** X3. A [Join] that passes its gates (not a member, not banned, password
    and guild rule passed), on a well-formed table: the joiner is a member
    afterwards, nobody else's membership changes, the member count grows by
    one, and the banned set and the password are untouched.  The packets
    start with the "joined" notice, sent under the announce and security gate
    to the members before the insertion, so not to the joiner, followed by
    "you joined" for the joiner. *)
Theorem Join_admits w p pw c :
  wf_players (m_players c) ->
  Join_admitted p pw c = true ->
  let guid := GetObjectGuid p in
  let c' := fst (Join w p pw c) in
  IsOn c' guid = true
  /\ (forall g, g <> guid -> IsOn c' g = IsOn c g)
  /\ GetNumPlayers c' = GetNumPlayers c + 1
  /\ m_banned c' = m_banned c
  /\ m_password c' = m_password c
  /\ (exists rest,
        snd (Join w p pw c)
        = (if announces w p c
           then snd (SendToAll w (MakeJoined (m_name c) guid) c) else [])
          ++ snd (SendToOne w (MakeYouJoined (m_name c) (GetFlags c) (GetChannelId c)) guid c)
          ++ rest)
  /\ ~ In (guid, MakeJoined (m_name c) guid)
          (snd (SendToAll w (MakeJoined (m_name c) guid) c)).
Proof.
  intros Hwf H guid c'. subst c' guid.
  destruct (Join_admitted_table w p pw c Hwf H) as (Hs & Hb & Hpw).
  destruct (Join_admitted_gates _ _ _ H) as (Hoff & _).
  set (c2 := set_players (joined (GetObjectGuid p) MEMBER_FLAG_NONE (m_players c)) c).
  assert (Hon : forall g, IsOn (fst (Join w p pw c)) g = IsOn c2 g).
  { intros g. by apply same_keys_IsOn. }
  split; [|split; [|split; [|split; [done|split; [done|split]]]]].
  - rewrite Hon. subst c2. by rewrite IsOn_joined, N.eqb_refl.
  - intros g Hg. rewrite Hon. subst c2. rewrite IsOn_joined.
    by destruct (N.eqb_spec (GetObjectGuid p) g).
  - unfold GetNumPlayers. rewrite (same_keys_size _ _ Hs).
    apply size_joined_new. by apply IsOn_false.
  - rewrite (Join_admitted_run w _ _ _ H). cbn [snd]. eexists. reflexivity.
  - intros Hin. apply In_SendToAll in Hin as (_ & Hin & _). congruence.
Qed.

(** Cid joins "test" after Ann and Bob. *)
Lemma Join_admits_witness :
  let c := run demo_world [OpJoin ann ""; OpJoin bob ""] (Channel_new demo_world "test") in
  IsOn (fst (Join demo_world cid "" c)) (GetObjectGuid cid) = true
  /\ GetNumPlayers (fst (Join demo_world cid "" c)) = 3.
Proof.
  intros c.
  assert (Hwf : wf_players (m_players c)) by (split; repeat constructor).
  destruct (Join_admits demo_world cid "" c Hwf eq_refl) as (H1 & _ & H3 & _).
  split; [exact H1|]. rewrite H3. reflexivity.
Defined.

Lemma Leave_member_run w p send c :
  IsOn c (GetObjectGuid p) = true ->
  let guid := GetObjectGuid p in
  let c2 := set_players (PlayerList.erase guid (m_players c)) c in
  let succession :=
    if PlayerInfo.IsOwner (member c guid) && negb (IsPublic c)
    then SetOwner w (SelectNewOwner c2) (1 <? PlayerList.size (m_players c2)) c2
    else (c2, []) in
  Leave w p send c
  = (fst succession,
     (if send then snd (SendToOne w (MakeYouLeft (m_name c)) guid c) else [])
     ++ (if announces w p c then snd (SendToAll w (MakeLeft (m_name c) guid) c2) else [])
     ++ snd succession).
Proof.
  intros Hon guid c2 succession. subst succession c2 guid.
  unfold Leave, announces. cbv zeta. rewrite Hon. cbn [negb]. unfold seq, update.
  assert (Hp2 : IsPublic (set_players (PlayerList.erase (GetObjectGuid p) (m_players c)) c)
                = IsPublic c) by done.
  destruct send; cbn [SendToOne fst snd];
    cbn [m_announce set_players m_name];
    destruct (m_announce c
              && (sec_lt (GetSecurity p) SEC_GAMEMASTER
                  || negb (CONFIG_BOOL_CHANNEL_GM_JOIN_SILENTLY w)));
    cbn [SendToAll fst snd]; rewrite Hp2;
    destruct (PlayerInfo.IsOwner (member c (GetObjectGuid p)) && negb (IsPublic c));
    try destruct (SetOwner w _ _ _); cbn [fst snd app]; rewrite ?app_nil_r; reflexivity.
Qed.

(** X4. [Leave] by somebody who is not a member changes nothing and sends
    NotMember only when asked to report.  [Leave] by a member of a
    well-formed table removes exactly that member: it is no member
    afterwards, nobody else's membership changes, the count drops by one and
    the banned set is untouched.  "You left" is sent exactly when [send] is
    set, to the leaver alone and, when the leaver is online, as the first
    packet; no packet that follows is a "you left". *)
Theorem Leave_removes w p send c :
  wf_players (m_players c) ->
  let guid := GetObjectGuid p in
  let c' := fst (Leave w p send c) in
  let packets := snd (Leave w p send c) in
  (IsOn c guid = false ->
   Leave w p send c
   = (c, if send then snd (SendToOne w (MakeNotMember (m_name c)) guid c) else []))
  /\ (IsOn c guid = true ->
      IsOn c' guid = false
      /\ (forall g, g <> guid -> IsOn c' g = IsOn c g)
      /\ GetNumPlayers c' + 1 = GetNumPlayers c
      /\ m_banned c' = m_banned c
      /\ (exists rest,
            packets
            = (if send then snd (SendToOne w (MakeYouLeft (m_name c)) guid c) else [])
              ++ rest
            /\ forall e, In e rest -> snd e <> MakeYouLeft (m_name c))
      /\ (forall g, In (g, MakeYouLeft (m_name c)) packets
                    <-> send = true /\ g = guid /\ GetPlayer w guid <> None)).
Proof.
  intros Hwf guid c' packets. subst c' packets guid. split.
  - intros Hoff. unfold Leave. cbv zeta. rewrite Hoff. by destruct send.
  - intros Hon. rewrite (Leave_member_run w p send c Hon). cbn [fst snd].
    set (c2 := set_players (PlayerList.erase (GetObjectGuid p) (m_players c)) c).
    assert (Hwf2 : wf_players (m_players c2)) by (by apply wf_erase).
    match goal with |- IsOn (fst ?x) _ = _ /\ _ => set (s := x) end.
    assert (Hs : same_keys (m_players c2) (m_players (fst s))
                 /\ m_banned (fst s) = m_banned c).
    { subst s. split_if; cbn [fst]; [|split; [apply same_keys_refl|done]].
      rewrite fst_SetOwner. cbn [m_players m_banned set_players set_ownerGuid].
      split; [|done]. apply same_keys_SetOwner_players. intros Hg.
      by apply IsOn_true, SelectNewOwner_found. }
    destruct Hs as [Hs Hb].
    assert (Hrest : forall e,
              In e ((if announces w p c
                     then snd (SendToAll w (MakeLeft (m_name c) (GetObjectGuid p)) c2)
                     else []) ++ snd s) ->
              snd e <> MakeYouLeft (m_name c)).
    { intros [g d] He. cbn [snd]. apply in_app_or in He as [He|He].
      - revert He. destruct (announces w p c); [|done]. intros He.
        apply In_SendToAll in He as (-> & _). discriminate.
      - revert He. subst s. split_if; [|done]. intros He.
        apply SetOwner_packets in He as [(a & b & He)|He]; cbn [snd] in He; rewrite He;
          discriminate. }
    split; [|split; [|split; [|split; [done|split]]]].
    + rewrite (same_keys_IsOn _ _ _ Hs). apply IsOn_erase_eq.
    + intros g Hg. rewrite (same_keys_IsOn _ _ _ Hs). unfold IsOn. subst c2.
      cbn [m_players set_players]. by rewrite find_erase_ne.
    + unfold GetNumPlayers. rewrite (same_keys_size _ _ Hs).
      apply IsOn_true in Hon as [i Hi].
      eapply size_erase_found; [apply Hwf|exact Hi].
    + eexists. split; [reflexivity|exact Hrest].
    + intros g. split.
      * intros H. apply in_app_or in H as [H|H].
        -- revert H. destruct send; [|done]. unfold SendToOne. cbn [snd].
           destruct (GetPlayer w (GetObjectGuid p)) eqn:E; [|done].
           intros [[= <-]|[]]. done.
        -- by apply Hrest in H.
      * intros (-> & -> & Hp). apply in_or_app. left. unfold SendToOne. cbn [snd].
        destruct (GetPlayer w (GetObjectGuid p)); [by left|done].
Qed.

(** Bob leaves "test" and is told so; asked not to report, he is told
    nothing. *)
Lemma Leave_removes_witness :
  let c := run demo_world [OpJoin ann ""; OpJoin bob ""] (Channel_new demo_world "test") in
  IsOn (fst (Leave demo_world bob true c)) (GetObjectGuid bob) = false
  /\ In (GetObjectGuid bob, MakeYouLeft "test") (snd (Leave demo_world bob true c))
  /\ ~ In (GetObjectGuid bob, MakeYouLeft "test") (snd (Leave demo_world bob false c)).
Proof.
  intros c.
  assert (Hwf : wf_players (m_players c)) by (split; repeat constructor).
  destruct (proj2 (Leave_removes demo_world bob true c Hwf) eq_refl)
    as (H1 & _ & _ & _ & _ & H6).
  destruct (proj2 (Leave_removes demo_world bob false c Hwf) eq_refl)
    as (_ & _ & _ & _ & _ & H6').
  split; [exact H1|]. split.
  - apply (proj2 (H6 _)). split; [reflexivity|]. split; [reflexivity|discriminate].
  - intros H. apply (proj1 (H6' _)) in H. destruct H as [H _]. discriminate H.
Defined.

Lemma Channel_new_custom w name :
  GetChannelEntryFor w name = None ->
  Channel_new w name
  = mkChannel true false name CHANNEL_FLAG_CUSTOM 0 EmptyGuid false
      (CheckPublicMessageLanguage w name) "" [] ∅.
Proof. intros H. unfold Channel_new. by rewrite H. Qed.

Ltac ground_bits :=
  repeat match goal with
    | |- context [N.lor ?a ?b] =>
        let v := eval vm_compute in (N.lor a b) in progress change (N.lor a b) with v
    | |- context [N.land ?a ?b] =>
        let v := eval vm_compute in (N.land a b) in progress change (N.land a b) with v
    | |- context [N.ldiff ?a ?b] =>
        let v := eval vm_compute in (N.ldiff a b) in progress change (N.ldiff a b) with v
    end.

(** Evaluation of a command on a table with one symbolic guid [g]: [Hg] says
    that [g] is not empty, [Hpl] that its player is online. *)
Ltac run_concrete Hg Hpl :=
  repeat (cbn;
          cbv delta [MEMBER_FLAG_NONE MEMBER_FLAG_MODERATOR MEMBER_FLAG_OWNER set_players
                     set_ownerGuid set_static set_announce set_moderate EmptyGuid
                     PlayerInfo.IsModerator PlayerInfo.IsOwner PlayerInfo.HasFlag
                     PlayerInfo.SetModerator PlayerInfo.SetOwner PlayerInfo.ApplyFlag
                     seq skip update SetModerator SetOwner SendToAll SendToOne
                     GetPlayerFlags PlayerList.subscript];
          change (N.of_nat 1) with 1;
          ground_bits;
          rewrite ?N.eqb_refl, ?Hg, ?Hpl).

(** X5. The first [Join] of a custom channel just created, by a player who
    is online.  Unless the static auto threshold is 1, the joiner becomes the
    owner with the owner and moderator bits, and receives "you joined" and
    one role change from 2 to 3 (the moderator bit is set before the old flag
    byte is read), with no "owner changed" notice.  With the threshold at 1
    the same call converts the channel to static at once: no owner, no role
    left on the joiner, announcements off. *)
Theorem first_Join_founds w p pw name :
  GetChannelEntryFor w name = None ->
  GetPlayer w (GetObjectGuid p) <> None ->
  let guid := GetObjectGuid p in
  let c := Channel_new w name in
  (CONFIG_UINT32_CHANNEL_STATIC_AUTO_TRESHOLD w <> 1 ->
   Join w p pw c
   = (set_ownerGuid guid (set_players [(guid, PlayerInfo.mk guid 3)] c),
      [(guid, MakeYouJoined name 1 0); (guid, MakeModeChange name guid 2 3)]))
  /\ (CONFIG_UINT32_CHANNEL_STATIC_AUTO_TRESHOLD w = 1 ->
      fst (Join w p pw c)
      = set_static true (set_announce false (set_players [(guid, PlayerInfo.mk guid 0)] c))).
Proof.
  intros Hn Hp guid c. subst c guid.
  rewrite (Channel_new_custom _ _ Hn).
  unfold Join. cbv zeta.
  assert (Hg : guid_bool (GetObjectGuid p) = true) by done.
  set (g := GetObjectGuid p) in *. clearbody g.
  destruct (GetPlayer w g) as [pl|] eqn:Hpl; [|done].
  unfold IsBanned, IsOn. cbn [m_players m_banned PlayerList.find].
  rewrite bool_decide_eq_false_2 by apply not_elem_of_empty.
  cbn [m_password String.length Nat.ltb Nat.leb andb GetFlags m_flags].
  replace (negb (GetGuildId p =? 0) && (CHANNEL_FLAG_CUSTOM =? 56)) with false
    by (by rewrite andb_false_r).
  unfold SetStatic, IsPublic, IsConstant, IsStatic, HasFlag, GetNumPlayers,
    PlayerList.size, CHANNEL_FLAG_CUSTOM.
  set (T := CONFIG_UINT32_CHANNEL_STATIC_AUTO_TRESHOLD w). clearbody T.
  split; intros HT.
  - destruct T as [|[q|q|]]; [| | |done];
      destruct (sec_lt (GetSecurity p) SEC_GAMEMASTER
                || negb (CONFIG_BOOL_CHANNEL_GM_JOIN_SILENTLY w));
      run_concrete Hg Hpl; reflexivity.
  - rewrite HT.
    destruct (sec_lt (GetSecurity p) SEC_GAMEMASTER
              || negb (CONFIG_BOOL_CHANNEL_GM_JOIN_SILENTLY w));
      destruct (SetOwner_exclaim_default w);
      run_concrete Hg Hpl; reflexivity.
Qed.

(** Ann founds "test" in the small world, where the threshold is 0. *)
Lemma first_Join_founds_witness :
  m_ownerGuid (fst (Join demo_world ann "" (Channel_new demo_world "test")))
  = GetObjectGuid ann.
Proof.
  refine (eq_trans
            (f_equal (fun r => m_ownerGuid (fst r))
               (proj1 (first_Join_founds demo_world ann "" "test" eq_refl _) _)) _);
    [discriminate|discriminate|reflexivity].
Defined.

(** X6. On a public channel (built-in or static) membership changes and
    nothing else does: an admitted [Join] only creates the joiner's entry,
    [Leave] of a member only erases it, and a [KickOrBan] that passes its
    gates only removes the target and records the ban.  No owner is
    appointed, no succession runs and no conversion is tried, so the owner
    guid stays what it was, also when the member it names is the one removed. *)
Theorem public_channel_membership_only w c :
  IsPublic c = true ->
  (forall p pw,
     Join_admitted p pw c = true ->
     fst (Join w p pw c)
     = set_players (joined (GetObjectGuid p) MEMBER_FLAG_NONE (m_players c)) c)
  /\ (forall p send,
        IsOn c (GetObjectGuid p) = true ->
        fst (Leave w p send c)
        = set_players (PlayerList.erase (GetObjectGuid p) (m_players c)) c
        /\ m_ownerGuid (fst (Leave w p send c)) = m_ownerGuid c)
  /\ (forall p t target ban,
        IsOn c (GetObjectGuid p) = true ->
        authorized c p = true ->
        GetPlayerByName w t = Some target ->
        IsOn c (GetObjectGuid target) = true ->
        owner_protected c p target = false ->
        fst (KickOrBan w p t ban c) = removed ban (GetObjectGuid target) c
        /\ m_ownerGuid (fst (KickOrBan w p t ban c)) = m_ownerGuid c).
Proof.
  intros Hpub. split; [|split].
  - intros p pw H. rewrite (Join_admitted_run w _ _ _ H). cbn [fst].
    set (c2 := set_players (joined (GetObjectGuid p) MEMBER_FLAG_NONE (m_players c)) c).
    assert (Hp2 : IsPublic c2 = true) by exact Hpub.
    rewrite Hp2. cbn [negb andb fst].
    rewrite SetStatic_refused; [done|].
    unfold SetStatic_blocked. unfold IsPublic, IsStatic in Hp2.
    destruct (IsConstant c2); [done|]. cbn [orb] in Hp2. rewrite Hp2. cbn [eqb].
    by rewrite orb_true_r.
  - intros p send Hon. rewrite (Leave_member_run w p send c Hon). cbn [fst].
    rewrite Hpub. cbn [negb]. rewrite andb_false_r. by split.
  - intros p t target ban Hon Hauth Ht Htg Hprot.
    rewrite (fst_KickOrBan_performed _ _ _ _ _ _ Hon Hauth Ht Htg Hprot). cbv zeta.
    rewrite Hpub. cbn [negb]. rewrite andb_false_r. split; [done|].
    unfold removed. by destruct (ban && _).
Qed.

(** The game master owns the built-in "General" and leaves it. *)
Lemma public_channel_membership_only_witness :
  let c := run demo_world [OpJoin gm ""; OpSetOwner gm "Gm"; OpJoin ann ""]
             (Channel_new demo_world "General") in
  m_ownerGuid (fst (Leave demo_world gm true c)) = GetObjectGuid gm
  /\ IsOn (fst (Leave demo_world gm true c)) (GetObjectGuid gm) = false.
Proof.
  intros c.
  destruct (proj1 (proj2 (public_channel_membership_only demo_world c eq_refl))
              gm true eq_refl) as [H1 H2].
  split; [exact H2|]. rewrite H1. reflexivity.
Defined.

Lemma SetStatic_state_on_no_moderator w c :
  wf_players (m_players c) ->
  forall k i, PlayerList.find k (m_players (SetStatic_state w true c)) = Some i ->
              PlayerInfo.IsModerator i = false.
Proof.
  intros Hwf k i Hi.
  destruct (SetStatic_state_on_kept w c Hwf) as (_ & Hmod & _).
  destruct (strip_moderators_spec w (PlayerList.keys (m_players c)) c Hwf)
    as (Hr1 & _ & Hclear).
  destruct (Hmod _ _ Hi) as (i1 & Hi1 & Himp). apply Himp.
  eapply Hclear; [|exact Hi1].
  destruct Hr1 as (m1 & Hc1 & Hs1). rewrite Hc1 in Hi1. cbn [m_players set_players] in Hi1.
  destruct (PlayerList.find k (m_players c)) eqn:E.
  - by eapply find_keys.
  - apply (same_keys_find_None _ _ k Hs1) in E. congruence.
Qed.

(** X7. An admitted [Join] on an owner-governed custom channel (not public,
    flagged custom) ends with the automatic conversion: the channel is static
    afterwards exactly when the auto threshold is not zero, the member count
    including the joiner has reached it and no password is set.  When it
    converts there is no owner and no moderator left and announcements and
    moderation are off; when it does not, the channel has an owner, the one
    it had or else the joiner. *)
Theorem Join_auto_static w p pw c :
  wf_players (m_players c) ->
  Join_admitted p pw c = true ->
  IsPublic c = false ->
  HasFlag c CHANNEL_FLAG_CUSTOM = true ->
  let T := CONFIG_UINT32_CHANNEL_STATIC_AUTO_TRESHOLD w in
  let c' := fst (Join w p pw c) in
  let converts :=
    negb (T =? 0) && (T <=? GetNumPlayers c + 1)
    && (String.length (m_password c) =? 0)%nat in
  m_static c' = converts
  /\ (converts = true ->
      m_ownerGuid c' = EmptyGuid
      /\ (forall k i, PlayerList.find k (m_players c') = Some i ->
            PlayerInfo.IsModerator i = false)
      /\ m_announce c' = false /\ m_moderate c' = false)
  /\ (converts = false ->
      m_ownerGuid c'
      = (if guid_bool (m_ownerGuid c) then m_ownerGuid c else GetObjectGuid p)
      /\ m_announce c' = m_announce c /\ m_moderate c' = m_moderate c).
Proof.
  intros Hwf H Hpub Hcu T c' converts. subst c'.
  destruct (Join_admitted_gates _ _ _ H) as (Hoff & _).
  rewrite (Join_admitted_run w _ _ _ H). cbn [fst].
  set (c2 := set_players (joined (GetObjectGuid p) MEMBER_FLAG_NONE (m_players c)) c).
  assert (Hwf2 : wf_players (m_players c2)) by (by apply wf_assign).
  assert (Hon2 : IsOn c2 (GetObjectGuid p) = true).
  { subst c2. by rewrite IsOn_joined, N.eqb_refl. }
  assert (Hp2 : IsPublic c2 = false) by exact Hpub.
  rewrite Hp2. cbn [negb andb].
  match goal with |- context [SetStatic w true false ?x] => set (c4 := x) end.
  assert (H4 : exists m4, c4 = set_players m4
                 (set_ownerGuid (if guid_bool (m_ownerGuid c) then m_ownerGuid c
                                 else GetObjectGuid p) c2)
               /\ same_keys (m_players c2) m4).
  { subst c4. change (m_ownerGuid c2) with (m_ownerGuid c).
    destruct (guid_bool (m_ownerGuid c)); cbn [negb fst].
    - exists (m_players c2). split; [by destruct c|apply same_keys_refl].
    - rewrite fst_SetOwner. eexists. split; [reflexivity|].
      apply same_keys_SetOwner_players. intros _. by apply IsOn_true. }
  destruct H4 as (m4 & Hc4 & Hs4).
  assert (Hwf4 : wf_players (m_players c4)).
  { rewrite Hc4. cbn [m_players set_players]. by eapply same_keys_wf. }
  assert (Hn4 : GetNumPlayers c4 = GetNumPlayers c + 1).
  { unfold GetNumPlayers. rewrite Hc4. cbn [m_players set_players].
    rewrite (same_keys_size _ _ Hs4). subst c2. cbn [m_players set_players].
    apply size_joined_new. by apply IsOn_false. }
  assert (Hb : SetStatic_blocked w true false c4 = negb converts).
  { unfold SetStatic_blocked. rewrite Hn4. rewrite Hc4.
    pose proof Hpub as Hpub'. unfold IsPublic, IsStatic in Hpub'.
    apply orb_false_iff in Hpub' as [Hk Hst].
    change (IsConstant (set_players m4 (set_ownerGuid
              (if guid_bool (m_ownerGuid c) then m_ownerGuid c else GetObjectGuid p) c2)))
      with (IsConstant c).
    change (HasFlag (set_players m4 (set_ownerGuid
              (if guid_bool (m_ownerGuid c) then m_ownerGuid c else GetObjectGuid p) c2))
              CHANNEL_FLAG_CUSTOM)
      with (HasFlag c CHANNEL_FLAG_CUSTOM).
    cbn [m_static m_password set_players set_ownerGuid]. subst c2.
    cbn [m_static m_password set_players set_ownerGuid].
    rewrite Hk, Hst, Hcu. subst converts T. cbn [negb orb eqb andb].
    destruct (CONFIG_UINT32_CHANNEL_STATIC_AUTO_TRESHOLD w =? 0),
      (CONFIG_UINT32_CHANNEL_STATIC_AUTO_TRESHOLD w <=? GetNumPlayers c + 1),
      (String.length (m_password c) =? 0)%nat; reflexivity. }
  destruct converts eqn:Hconv; cbn [negb] in Hb.
  - rewrite (proj2 (SetStatic_performed _ _ _ _ Hb)).
    split; [done|]. split; [|done]. intros _.
    split; [by apply SetStatic_state_on_owner|].
    split; [by apply SetStatic_state_on_no_moderator|]. done.
  - rewrite SetStatic_refused by done. cbn [fst snd].
    rewrite Hc4. cbn [m_static m_ownerGuid m_announce m_moderate set_players set_ownerGuid].
    unfold IsPublic, IsStatic in Hpub. apply orb_false_iff in Hpub as [_ Hst].
    split; [exact Hst|]. split; [done|]. intros _. by repeat split.
Qed.

(** With the threshold at 2, the second join converts "test". *)
Lemma Join_auto_static_witness :
  let w := world_with 0 2 in
  let c := run w [OpJoin ann ""] (Channel_new w "test") in
  m_static c = false /\ m_static (fst (Join w bob "" c)) = true.
Proof.
  intros w c. split; [reflexivity|].
  assert (Hwf : wf_players (m_players c)) by (split; repeat constructor).
  exact (proj1 (Join_auto_static w bob "" c Hwf eq_refl eq_refl eq_refl)).
Defined.

(** ** Static conversion, there and back *)

Lemma SelectNewOwner_no_moderator c :
  wf_players (m_players c) ->
  (forall k i, PlayerList.find k (m_players c) = Some i -> PlayerInfo.IsModerator i = false) ->
  SelectNewOwner c = hd EmptyGuid (PlayerList.keys (m_players c)).
Proof.
  intros Hwf Hno. unfold SelectNewOwner.
  rewrite first_moderator_none.
  - destruct (m_players c) as [|[k i] r] eqn:E; [done|]. cbn [PlayerList.keys map hd fst].
    destruct Hwf as [Ho _]. inversion Ho as [|? ? Hk _]; subst. exact Hk.
  - apply List.Forall_forall. intros [k i] Hin. cbn [snd].
    apply (Hno k). apply ascending_In_find; [apply Hwf|done].
Qed.

(** X8. After a conversion to static that went through, on a well-formed
    table: every further [SetStatic(true)] returns false and changes nothing;
    an explicit [SetStatic(false)] goes through, keeps the members and makes
    the first member of the table (the smallest guid) owner and moderator,
    or leaves the channel without owner when it has no member. *)
Theorem SetStatic_there_and_back w command c :
  wf_players (m_players c) ->
  SetStatic_blocked w true command c = false ->
  let c1 := fst (snd (SetStatic w true command c)) in
  let c2 := fst (snd (SetStatic w false true c1)) in
  (forall command', SetStatic w true command' c1 = (false, (c1, [])))
  /\ fst (SetStatic w false true c1) = true
  /\ m_static c2 = false
  /\ PlayerList.keys (m_players c2) = PlayerList.keys (m_players c)
  /\ m_ownerGuid c2 = hd EmptyGuid (PlayerList.keys (m_players c))
  /\ owner_invariant c2.
Proof.
  intros Hwf Hb c1 c2.
  assert (Hc1 : c1 = SetStatic_state w true c).
  { subst c1. apply SetStatic_performed, Hb. }
  assert (Hcl : same_class c c1) by apply same_class_SetStatic.
  destruct Hcl as (_ & Hf & Hi & _ & _).
  assert (Hst1 : m_static c1 = true) by (by rewrite Hc1).
  assert (Ho1 : m_ownerGuid c1 = EmptyGuid) by (rewrite Hc1; by apply SetStatic_state_on_owner).
  assert (Hs1 : same_keys (m_players c) (m_players c1)) by (by apply same_keys_SetStatic).
  assert (Hwf1 : wf_players (m_players c1)) by (by eapply same_keys_wf).
  assert (Hk : IsConstant c = false /\ HasFlag c CHANNEL_FLAG_CUSTOM = true).
  { unfold SetStatic_blocked in Hb. destruct (IsConstant c); [done|].
    by destruct (HasFlag c CHANNEL_FLAG_CUSTOM). }
  destruct Hk as [Hk Hcu].
  assert (Hb2 : SetStatic_blocked w false true c1 = false).
  { unfold SetStatic_blocked, IsConstant, HasFlag in *. by rewrite Hf, Hi, Hk, Hcu, Hst1. }
  split.
  { intros command'. apply SetStatic_refused. unfold SetStatic_blocked.
    rewrite Hst1. cbn [eqb]. by rewrite orb_true_r. }
  split; [by apply SetStatic_performed|].
  assert (Hc2 : c2 = set_static false
                       (fst (SetOwner w (SelectNewOwner c1) (SetOwner_exclaim_default w) c1))).
  { subst c2. rewrite (proj2 (SetStatic_performed _ _ _ _ Hb2)). unfold SetStatic_state.
    by rewrite Ho1. }
  assert (Hsel : SelectNewOwner c1 = hd EmptyGuid (PlayerList.keys (m_players c))).
  { rewrite <- (same_keys_keys _ _ Hs1). apply SelectNewOwner_no_moderator; [done|].
    rewrite Hc1. by apply SetStatic_state_on_no_moderator. }
  rewrite Hc2. split; [done|]. split; [|split].
  - cbn [m_players set_static]. rewrite fst_SetOwner. cbn [m_players set_players].
    rewrite (same_keys_keys _ _ (same_keys_SetOwner_players _ _ _
               (fun Hg => proj1 (IsOn_true _ _) (SelectNewOwner_found c1 Hwf1 Hg)))).
    by apply same_keys_keys.
  - cbn [m_ownerGuid set_static]. by rewrite SetOwner_ownerGuid.
  - intros Hg. cbn [m_ownerGuid m_players set_static] in *.
    destruct (owner_entry_SetOwner w (SelectNewOwner c1) (SetOwner_exclaim_default w) c1 Hg)
      as (i & Hi' & Hm & _). eauto.
Qed.

(** "test" of Ann and Bob is made static and dynamic again. *)
Lemma SetStatic_there_and_back_witness :
  let c := run demo_world [OpJoin ann ""; OpJoin bob ""] (Channel_new demo_world "test") in
  let c1 := fst (snd (SetStatic demo_world true true c)) in
  m_ownerGuid (fst (snd (SetStatic demo_world false true c1))) = GetObjectGuid ann.
Proof.
  intros c c1.
  assert (Hwf : wf_players (m_players c)) by (split; repeat constructor).
  exact (proj1 (proj2 (proj2 (proj2 (proj2
           (SetStatic_there_and_back demo_world true c Hwf eq_refl)))))).
Defined.

(** ** Password and admission *)

Lemma fst_Password_performed w p password c :
  IsOn c (GetObjectGuid p) = true -> authorized c p = true ->
  fst (Password w p password c) = set_password password c.
Proof.
  intros Hon Hauth. unfold Password. cbv zeta.
  by rewrite Hon, (authorized_true _ _ Hauth).
Qed.

Lemma Join_admitted_IsOn w p pw c :
  wf_players (m_players c) -> Join_admitted p pw c = true ->
  IsOn (fst (Join w p pw c)) (GetObjectGuid p) = true.
Proof.
  intros Hwf H. destruct (Join_admitted_table w p pw c Hwf H) as (Hs & _).
  rewrite (same_keys_IsOn
             (set_players (joined (GetObjectGuid p) MEMBER_FLAG_NONE (m_players c)) c) _ _ Hs).
  by rewrite IsOn_joined, N.eqb_refl.
Qed.

(** X9. After a member who is moderator or game master has set a non-empty
    password, for a player who is neither a member nor banned: [Join] with
    any other string is answered WrongPassword and changes nothing; [Join]
    with the password itself, the guild rule passed, makes the player a
    member and leaves the password in place. *)
Theorem Password_guards_Join w p q password pw c :
  wf_players (m_players c) ->
  IsOn c (GetObjectGuid p) = true ->
  authorized c p = true ->
  password <> "" ->
  IsOn c (GetObjectGuid q) = false ->
  IsBanned c (GetObjectGuid q) = false ->
  let c1 := fst (Password w p password c) in
  (pw <> password ->
   Join w q pw c1 = SendToOne w (MakeWrongPassword (m_name c)) (GetObjectGuid q) c1)
  /\ (negb (GetGuildId q =? 0) && (GetFlags c =? 0x38) = false ->
      IsOn (fst (Join w q password c1)) (GetObjectGuid q) = true
      /\ m_password (fst (Join w q password c1)) = password).
Proof.
  intros Hwf Hon Hauth Hne Hoff Hnb c1. subst c1.
  rewrite (fst_Password_performed _ _ _ _ Hon Hauth).
  assert (Hlen : (0 <? String.length password)%nat = true) by (by destruct password).
  split.
  - intros Hpw. unfold Join. cbv zeta.
    change (IsOn (set_password password c) (GetObjectGuid q)) with (IsOn c (GetObjectGuid q)).
    change (IsBanned (set_password password c) (GetObjectGuid q))
      with (IsBanned c (GetObjectGuid q)).
    rewrite Hoff, Hnb. cbn [m_password set_password m_name].
    by rewrite Hlen, (proj2 (String.eqb_neq pw password) Hpw).
  - intros Hguild.
    assert (Hadm : Join_admitted q password (set_password password c) = true).
    { unfold Join_admitted.
      change (IsOn (set_password password c) (GetObjectGuid q)) with (IsOn c (GetObjectGuid q)).
      change (IsBanned (set_password password c) (GetObjectGuid q))
        with (IsBanned c (GetObjectGuid q)).
      change (GetFlags (set_password password c)) with (GetFlags c).
      rewrite Hoff, Hnb, Hguild. cbn [m_password set_password].
      by rewrite String.eqb_refl, andb_false_r. }
    split; [by apply Join_admitted_IsOn|].
    by destruct (Join_admitted_table w q password (set_password password c) Hwf Hadm)
      as (_ & _ & ->).
Qed.

(** Ann protects "test" with a password; Cid guesses wrong. *)
Lemma Password_guards_Join_witness :
  let c := run demo_world [OpJoin ann ""; OpJoin bob ""] (Channel_new demo_world "test") in
  let c1 := fst (Password demo_world ann "secret" c) in
  Join demo_world cid "guess" c1
  = SendToOne demo_world (MakeWrongPassword "test") (GetObjectGuid cid) c1.
Proof.
  intros c c1.
  assert (Hwf : wf_players (m_players c)) by (split; repeat constructor).
  refine (proj1 (Password_guards_Join demo_world ann cid "secret" "guess" c
                   Hwf eq_refl eq_refl _ eq_refl eq_refl) _); discriminate.
Defined.

(** ** Kick, ban and unban *)

Lemma SetOwner_players_keeps_moderator guid owner m k i :
  (guid_bool guid = false -> PlayerList.find owner m = None) ->
  PlayerList.find k m = Some i ->
  exists i', PlayerList.find k (SetOwner_players guid owner m) = Some i'
             /\ (PlayerInfo.IsModerator i = true -> PlayerInfo.IsModerator i' = true).
Proof.
  intros Hold Hk. rewrite find_SetOwner_players, Hk. unfold SetOwner_entry.
  destruct (guid_bool guid) eqn:Hg; cbn [andb].
  - destruct (N.eqb_spec guid k) as [->|Hne].
    + eexists. split; [reflexivity|]. intros _.
      by rewrite IsModerator_SetOwner, IsModerator_SetModerator.
    + destruct (guid_bool owner && (owner =? k)); cbn [option_map].
      * eexists. split; [reflexivity|]. intros _.
        by rewrite IsModerator_SetOwner, IsModerator_SetModerator.
      * eauto.
  - destruct (guid_bool owner && (owner =? k)) eqn:E; [|eauto].
    apply andb_true_iff in E as [_ E]. apply N.eqb_eq in E. subst k.
    rewrite (Hold eq_refl) in Hk. done.
Qed.

Lemma removed_fields ban g c :
  m_name (removed ban g c) = m_name c
  /\ m_ownerGuid (removed ban g c) = m_ownerGuid c
  /\ m_password (removed ban g c) = m_password c
  /\ m_players (removed ban g c) = PlayerList.erase g (m_players c)
  /\ m_banned (removed ban g c)
     = if ban && negb (IsBanned c g) then {[g]} ∪ m_banned c else m_banned c.
Proof. unfold removed. by destruct (ban && negb (IsBanned c g)). Qed.

Lemma fst_UnBan_performed w q t target c :
  IsOn c (GetObjectGuid q) = true -> authorized c q = true ->
  GetPlayerByName w t = Some target ->
  IsBanned c (GetObjectGuid target) = true ->
  fst (UnBan w q t c) = set_banned (m_banned c ∖ {[GetObjectGuid target]}) c.
Proof.
  intros Hon Hauth Ht Hb. unfold UnBan. cbv zeta.
  by rewrite Hon, (authorized_true _ _ Hauth), Ht, Hb.
Qed.

(** X10. [KickOrBan] that goes through (actor a member, moderator or game
    master; the name resolves to a member the ownership protection does not
    cover), on a consistent channel.  As a kick it leaves the banned set
    alone.  As a ban it adds exactly the target to the banned set; the target
    is no member, and each of its [Join]s is answered Banned and changes
    nothing, whatever the password.  The actor, when it is not its own
    target, remains a member that passes the moderator gate.  [UnBan] by any
    member that passes the gate then restores the banned set of before the
    ban and leaves the members alone: the target is not brought back. *)
Theorem ban_then_UnBan w p q t target c :
  consistent c ->
  IsOn c (GetObjectGuid p) = true ->
  authorized c p = true ->
  GetPlayerByName w t = Some target ->
  IsOn c (GetObjectGuid target) = true ->
  owner_protected c p target = false ->
  let tg := GetObjectGuid target in
  let c1 := fst (KickOrBan w p t true c) in
  m_banned (fst (KickOrBan w p t false c)) = m_banned c
  /\ m_banned c1 = {[tg]} ∪ m_banned c
  /\ IsOn c1 tg = false
  /\ (forall pw, Join w target pw c1 = SendToOne w (MakeBanned (m_name c)) tg c1)
  /\ (GetObjectGuid p <> tg -> IsOn c1 (GetObjectGuid p) = true /\ authorized c1 p = true)
  /\ (IsOn c1 (GetObjectGuid q) = true -> authorized c1 q = true ->
      let c2 := fst (UnBan w q t c1) in
      m_banned c2 = m_banned c /\ m_players c2 = m_players c1
      /\ IsBanned c2 tg = false /\ IsOn c2 tg = false).
Proof.
  intros [Hwf Hdis] Hon Hauth Ht Htg Hprot tg c1.
  assert (Hnb : IsBanned c tg = false).
  { unfold IsBanned. apply bool_decide_eq_false_2. intros Hin.
    specialize (Hdis _ Hin). subst tg. congruence. }
  assert (Hshape : forall ban,
    let c' := fst (KickOrBan w p t ban c) in
    m_name c' = m_name c
    /\ m_banned c' = (if ban then {[tg]} ∪ m_banned c else m_banned c)
    /\ IsOn c' tg = false
    /\ (GetObjectGuid p <> tg -> IsOn c' (GetObjectGuid p) = true /\ authorized c' p = true)).
  { intros ban c'. subst c'.
    rewrite (fst_KickOrBan_performed _ _ _ _ _ _ Hon Hauth Ht Htg Hprot). cbv zeta.
    fold tg. destruct (removed_fields ban tg c) as (Hn & Ho & _ & Hpl & Hbn).
    rewrite Hnb, andb_true_r in Hbn.
    assert (Hwf2 : wf_players (m_players (removed ban tg c))) by (by apply wf_removed).
    assert (Hsel : guid_bool (SelectNewOwner (removed ban tg c)) = true ->
                   IsOn (removed ban tg c) (SelectNewOwner (removed ban tg c)) = true)
      by (by apply SelectNewOwner_found).
    destruct ((m_ownerGuid c =? tg) && negb (IsPublic c)) eqn:Hch.
    - apply andb_true_iff in Hch as [Hch _]. apply N.eqb_eq in Hch.
      rewrite fst_SetOwner. cbn [m_name m_banned set_players set_ownerGuid].
      split; [done|]. split; [done|]. split.
      + rewrite <- fst_SetOwner with (w := w) (exclaim := true).
        rewrite IsOn_SetOwner by done. apply IsOn_removed.
      + intros Hne.
        apply IsOn_true in Hon as [i Hi].
        assert (Hi2 : PlayerList.find (GetObjectGuid p) (m_players (removed ban tg c)) = Some i).
        { rewrite Hpl, find_erase_ne; [done|]. congruence. }
        destruct (SetOwner_players_keeps_moderator
                    (SelectNewOwner (removed ban tg c)) (m_ownerGuid (removed ban tg c))
                    (m_players (removed ban tg c)) (GetObjectGuid p) i) as (i' & Hi' & Hmod);
          [|done|].
        { intros _. rewrite Ho, Hch, Hpl. apply find_erase_eq. }
        split.
        * apply IsOn_true. cbn [m_players set_players]. eauto.
        * unfold authorized in *. unfold member in *.
          cbn [m_players set_players]. rewrite Hi'. rewrite Hi in Hauth.
          destruct (PlayerInfo.IsModerator i) eqn:E; [by rewrite Hmod|].
          cbn [orb] in Hauth. rewrite Hauth. apply orb_true_r.
    - split; [done|]. split; [done|]. split; [apply IsOn_removed|].
      intros Hne. unfold authorized, member, IsOn in *. rewrite Hpl.
      rewrite find_erase_ne by congruence. done. }
  destruct (Hshape false) as (_ & Hb0 & _).
  destruct (Hshape true) as (Hn1 & Hb1 & Hoff1 & Hact). fold c1 in Hn1, Hb1, Hoff1, Hact.
  assert (Hbanned1 : IsBanned c1 tg = true).
  { unfold IsBanned. apply bool_decide_eq_true_2. rewrite Hb1.
    apply elem_of_union. left. by apply elem_of_singleton. }
  split; [done|]. split; [done|]. split; [done|]. split; [|split; [done|]].
  - intros pw. unfold Join. cbv zeta. fold tg. by rewrite Hoff1, Hbanned1, Hn1.
  - intros Hq Hqa c2. subst c2.
    rewrite (fst_UnBan_performed _ _ _ _ _ Hq Hqa Ht Hbanned1). fold tg.
    unfold IsBanned, IsOn in *. cbn [m_banned m_players set_banned].
    apply bool_decide_eq_false in Hnb.
    split; [|split; [done|split; [|done]]].
    + rewrite Hb1. apply set_eq. intros x.
      rewrite elem_of_difference, elem_of_union, elem_of_singleton. split.
      * by intros [[->|H] Hx].
      * intros H. split; [by right|]. by intros ->.
    + apply bool_decide_eq_false_2.
      rewrite elem_of_difference, elem_of_singleton. by intros [_ H].
Qed.

(** Ann bans Bob from "test" and takes the ban back. *)
Lemma ban_then_UnBan_witness :
  let c := run demo_world [OpJoin ann ""; OpJoin bob ""] (Channel_new demo_world "test") in
  let c1 := fst (KickOrBan demo_world ann "Bob" true c) in
  Join demo_world bob "" c1
  = SendToOne demo_world (MakeBanned "test") (GetObjectGuid bob) c1
  /\ m_banned (fst (UnBan demo_world ann "Bob" c1)) = m_banned c.
Proof.
  intros c c1.
  assert (Hc : consistent c).
  { split; [split; repeat constructor|]. intros g Hg.
    exact (False_ind _ (not_elem_of_empty (C:=gset N) g Hg)). }
  destruct (ban_then_UnBan demo_world ann ann "Bob" bob c Hc eq_refl eq_refl eq_refl
              eq_refl eq_refl) as (_ & _ & _ & HJ & _ & HU).
  split; [exact (HJ "")|].
  exact (proj1 (HU eq_refl eq_refl)).
Defined.

(** ** The announce and moderate switches *)

Lemma Announce_performed w p c :
  IsOn c (GetObjectGuid p) = true -> authorized c p = true ->
  Announce w p c
  = (set_announce (negb (m_announce c)) c,
     snd (SendToAll w ((if m_announce c then MakeAnnouncementsOff else MakeAnnouncementsOn)
                         (m_name c) (GetObjectGuid p)) c)).
Proof.
  intros Hon Hauth. unfold Announce. cbv zeta.
  rewrite Hon, (authorized_true _ _ Hauth). unfold seq, update. cbn [negb fst snd app].
  cbn [m_announce set_announce m_name]. by destruct (m_announce c).
Qed.

Lemma Moderate_performed w p c :
  IsOn c (GetObjectGuid p) = true -> authorized c p = true ->
  Moderate w p c
  = (set_moderate (negb (m_moderate c)) c,
     snd (SendToAll w ((if m_moderate c then MakeModerationOff else MakeModerationOn)
                         (m_name c) (GetObjectGuid p)) c)).
Proof.
  intros Hon Hauth. unfold Moderate. cbv zeta.
  rewrite Hon, (authorized_true _ _ Hauth). unfold seq, update. cbn [negb fst snd app].
  cbn [m_moderate set_moderate m_name]. by destruct (m_moderate c).
Qed.

(** X11. [Announce] and [Moderate] by a member who is moderator or game
    master flip their flag and nothing else; the notice sent to the members
    is the On notice exactly when the flag was off before.  Each one done
    twice gives the channel back, and the two commute. *)
Theorem Announce_Moderate_toggle w p c :
  IsOn c (GetObjectGuid p) = true ->
  authorized c p = true ->
  let guid := GetObjectGuid p in
  Announce w p c
  = (set_announce (negb (m_announce c)) c,
     snd (SendToAll w ((if m_announce c then MakeAnnouncementsOff else MakeAnnouncementsOn)
                         (m_name c) guid) c))
  /\ Moderate w p c
     = (set_moderate (negb (m_moderate c)) c,
        snd (SendToAll w ((if m_moderate c then MakeModerationOff else MakeModerationOn)
                            (m_name c) guid) c))
  /\ fst (Announce w p (fst (Announce w p c))) = c
  /\ fst (Moderate w p (fst (Moderate w p c))) = c
  /\ fst (Announce w p (fst (Moderate w p c))) = fst (Moderate w p (fst (Announce w p c))).
Proof.
  intros Hon Hauth guid. subst guid.
  split; [by apply Announce_performed|]. split; [by apply Moderate_performed|].
  rewrite (Announce_performed w p c Hon Hauth), (Moderate_performed w p c Hon Hauth).
  cbn [fst].
  rewrite (Announce_performed w p (set_announce _ c)),
          (Announce_performed w p (set_moderate _ c)),
          (Moderate_performed w p (set_moderate _ c)),
          (Moderate_performed w p (set_announce _ c)) by done.
  cbn [fst]. destruct c as [an mo na fl ci ow st rz pw pl bn].
  unfold set_announce, set_moderate. cbn. by rewrite !negb_involutive.
Qed.

(** Ann, owner of "test", switches the announcements off and on again. *)
Lemma Announce_Moderate_toggle_witness :
  let c := run demo_world [OpJoin ann ""; OpJoin bob ""] (Channel_new demo_world "test") in
  fst (Announce demo_world ann (fst (Announce demo_world ann c))) = c.
Proof.
  intros c.
  exact (proj1 (proj2 (proj2 (Announce_Moderate_toggle demo_world ann c eq_refl eq_refl)))).
Defined.

(** ** Mode changes *)

Lemma IsMuted_SetMuted b i : PlayerInfo.IsMuted (PlayerInfo.SetMuted b i) = b.
Proof.
  destruct i as [p f]. unfold PlayerInfo.IsMuted, PlayerInfo.SetMuted,
    PlayerInfo.HasFlag, PlayerInfo.ApplyFlag, MEMBER_FLAG_MUTED.
  destruct b; simpl; bits_of f.
Qed.

Lemma IsMuted_SetModerator b i :
  PlayerInfo.IsMuted (PlayerInfo.SetModerator b i) = PlayerInfo.IsMuted i.
Proof.
  destruct i as [p f]. unfold PlayerInfo.IsMuted, PlayerInfo.SetModerator,
    PlayerInfo.HasFlag, PlayerInfo.ApplyFlag, MEMBER_FLAG_MUTED, MEMBER_FLAG_MODERATOR.
  destruct b; simpl; bits_of f.
Qed.

Lemma SetModerator_same i : PlayerInfo.SetModerator (PlayerInfo.IsModerator i) i = i.
Proof.
  destruct i as [p f]. unfold PlayerInfo.IsModerator, PlayerInfo.SetModerator,
    PlayerInfo.HasFlag, PlayerInfo.ApplyFlag, MEMBER_FLAG_MODERATOR.
  simpl. bits_of f.
Qed.

Lemma SetMuted_same i : PlayerInfo.SetMuted (PlayerInfo.IsMuted i) i = i.
Proof.
  destruct i as [p f]. unfold PlayerInfo.IsMuted, PlayerInfo.SetMuted,
    PlayerInfo.HasFlag, PlayerInfo.ApplyFlag, MEMBER_FLAG_MUTED.
  simpl. bits_of f.
Qed.

Lemma SetModerator_found w g set c i :
  PlayerList.find g (m_players c) = Some i ->
  let c' := set_players (PlayerList.modify g (PlayerInfo.SetModerator set) (m_players c)) c in
  SetModerator w g set c
  = if eqb (PlayerInfo.IsModerator i) set then (c, [])
    else (c', snd (SendToAll w (MakeModeChange (m_name c) g (PlayerInfo.flags i)
                                  (PlayerInfo.flags (PlayerInfo.SetModerator set i))) c)).
Proof.
  intros Hi c'. unfold SetModerator. rewrite Hi. destruct (eqb _ set); [done|].
  fold c'.
  assert (Hf : GetPlayerFlags c' g = PlayerInfo.flags (PlayerInfo.SetModerator set i)).
  { unfold GetPlayerFlags. subst c'. cbn [m_players set_players].
    by rewrite find_modify_eq, Hi. }
  rewrite Hf. rewrite <- (snd_SendToAll_keys w _ c c'); [done|apply keys_modify].
Qed.

Lemma SetMute_found w g set c i :
  PlayerList.find g (m_players c) = Some i ->
  let c' := set_players (PlayerList.modify g (PlayerInfo.SetMuted set) (m_players c)) c in
  SetMute w g set c
  = if eqb (PlayerInfo.IsMuted i) set then (c, [])
    else (c', snd (SendToAll w (MakeModeChange (m_name c) g (PlayerInfo.flags i)
                                  (PlayerInfo.flags (PlayerInfo.SetMuted set i))) c)).
Proof.
  intros Hi c'. unfold SetMute. rewrite Hi. destruct (eqb _ set); [done|].
  fold c'.
  assert (Hf : GetPlayerFlags c' g = PlayerInfo.flags (PlayerInfo.SetMuted set i)).
  { unfold GetPlayerFlags. subst c'. cbn [m_players set_players].
    by rewrite find_modify_eq, Hi. }
  rewrite Hf. rewrite <- (snd_SendToAll_keys w _ c c'); [done|apply keys_modify].
Qed.

Lemma SetMode_passes w p t target moderator set c :
  IsOn c (GetObjectGuid p) = true ->
  authorized c p = true ->
  GetPlayerByName w t = Some target ->
  IsOn c (GetObjectGuid target) = true ->
  SetMode_wrong_faction w p target = false ->
  (m_ownerGuid c = GetObjectGuid target ->
   GetObjectGuid p = GetObjectGuid target /\ moderator = false) ->
  SetMode w p t moderator set c
  = if moderator then SetModerator w (GetObjectGuid target) set c
    else SetMute w (GetObjectGuid target) set c.
Proof.
  intros Hon Hauth Ht Htg Hfac Hown. unfold SetMode. cbv zeta.
  unfold SetMode_wrong_faction in Hfac.
  rewrite Hon, (authorized_true _ _ Hauth), Ht, Htg, Hfac. cbn [negb].
  destruct (N.eqb_spec (m_ownerGuid c) (GetObjectGuid target)) as [He|Hne].
  - destruct (Hown He) as [Hp ->]. rewrite He, Hp, N.eqb_refl. done.
  - destruct (N.eqb_spec (GetObjectGuid target) (m_ownerGuid c)); [congruence|].
    by rewrite andb_false_r.
Qed.

(** X12. [SetMode] that passes its gates (actor a member, moderator or game
    master; the name resolves to a member of an admissible faction; the
    owner is targeted by nobody but itself, and then only for muting): the
    requested bit of the target is put in the requested state, the rest of
    its entry and every other entry are unchanged, and so is everything else
    in the channel.  A ModeChange notice with the old and the new flag byte
    goes to the members exactly when the bit flips.  A muted target's [Say]
    is answered Muted, whatever its rank; a target made moderator passes the
    moderator gate. *)
Theorem SetMode_performed w p t target moderator set c i :
  IsOn c (GetObjectGuid p) = true ->
  authorized c p = true ->
  GetPlayerByName w t = Some target ->
  PlayerList.find (GetObjectGuid target) (m_players c) = Some i ->
  SetMode_wrong_faction w p target = false ->
  (m_ownerGuid c = GetObjectGuid target ->
   GetObjectGuid p = GetObjectGuid target /\ moderator = false) ->
  let tg := GetObjectGuid target in
  let i' := (if moderator then PlayerInfo.SetModerator else PlayerInfo.SetMuted) set i in
  let c' := fst (SetMode w p t moderator set c) in
  roles_only c c'
  /\ PlayerList.find tg (m_players c') = Some i'
  /\ (forall k, k <> tg -> PlayerList.find k (m_players c') = PlayerList.find k (m_players c))
  /\ snd (SetMode w p t moderator set c)
     = (if eqb ((if moderator then PlayerInfo.IsModerator else PlayerInfo.IsMuted) i) set
        then []
        else snd (SendToAll w (MakeModeChange (m_name c) tg (PlayerInfo.flags i)
                                 (PlayerInfo.flags i')) c))
  /\ (moderator = false -> set = true -> forall text lang,
        Say w target (Some text) lang c' = SendToOne w (MakeMuted (m_name c)) tg c')
  /\ (moderator = true -> set = true -> authorized c' target = true).
Proof.
  intros Hon Hauth Ht Hi Hfac Hown tg i' c'. subst tg.
  assert (Htg : IsOn c (GetObjectGuid target) = true) by (apply IsOn_true; eauto).
  assert (Hrun : SetMode w p t moderator set c
                 = if moderator then SetModerator w (GetObjectGuid target) set c else SetMute w (GetObjectGuid target) set c)
    by (by apply SetMode_passes).
  assert (Hro : roles_only c c').
  { subst c'. rewrite Hrun.
    destruct moderator; [apply roles_only_SetModerator|apply roles_only_SetMute]. }
  assert (Hfind : PlayerList.find (GetObjectGuid target) (m_players c') = Some i'
                  /\ (forall k, k <> (GetObjectGuid target) ->
                        PlayerList.find k (m_players c') = PlayerList.find k (m_players c))).
  { subst c' i'. rewrite Hrun. destruct moderator.
    - rewrite (SetModerator_found w (GetObjectGuid target) set c i Hi).
      destruct (eqb (PlayerInfo.IsModerator i) set) eqn:E; cbn [fst].
      + apply eqb_prop in E. subst set. by rewrite SetModerator_same.
      + cbn [m_players set_players]. rewrite find_modify_eq, Hi. split; [done|].
        intros k Hk. by rewrite find_modify_ne.
    - rewrite (SetMute_found w (GetObjectGuid target) set c i Hi).
      destruct (eqb (PlayerInfo.IsMuted i) set) eqn:E; cbn [fst].
      + apply eqb_prop in E. subst set. by rewrite SetMuted_same.
      + cbn [m_players set_players]. rewrite find_modify_eq, Hi. split; [done|].
        intros k Hk. by rewrite find_modify_ne. }
  destruct Hfind as [Hf1 Hf2].
  assert (Hname : m_name c' = m_name c) by (by destruct Hro as (m' & -> & _)).
  split; [done|]. split; [done|]. split; [done|]. split; [|split].
  - subst i'. rewrite Hrun. destruct moderator.
    + rewrite (SetModerator_found w (GetObjectGuid target) set c i Hi). by destruct (eqb _ set).
    + rewrite (SetMute_found w (GetObjectGuid target) set c i Hi). by destruct (eqb _ set).
  - intros -> -> text lang. unfold Say. cbv zeta.
    rewrite (roles_only_IsOn _ _ (GetObjectGuid target) Hro), Htg. cbn [negb].
    rewrite (member_found _ _ _ Hf1). subst i'.
    by rewrite IsMuted_SetMuted, Hname.
  - intros -> ->. unfold authorized. rewrite (member_found _ _ _ Hf1). subst i'.
    by rewrite IsModerator_SetModerator.
Qed.

(** The game master mutes itself on "test" and is then refused like anybody. *)
Lemma SetMode_performed_witness :
  let c := run demo_world [OpJoin ann ""; OpJoin gm ""] (Channel_new demo_world "test") in
  let c' := fst (SetMode demo_world gm "Gm" false true c) in
  Say demo_world gm (Some "hello") 0 c'
  = SendToOne demo_world (MakeMuted "test") (GetObjectGuid gm) c'.
Proof.
  intros c c'.
  refine (proj1 (proj2 (proj2 (proj2 (proj2
            (SetMode_performed demo_world gm "Gm" gm false true c (PlayerInfo.mk 5 0)
               eq_refl eq_refl eq_refl eq_refl eq_refl _))))) eq_refl eq_refl "hello" 0).
  intros H. discriminate H.
Defined.

(** X13. Whatever its arguments and whoever the actor, game masters
    included, [SetMode] leaves the owner guid alone and never changes the
    moderator bit or the owner bit of the owner's entry; unless the actor is
    the owner itself, the owner's entry is untouched. *)
Theorem SetMode_spares_the_owner w p t moderator set c i :
  PlayerList.find (m_ownerGuid c) (m_players c) = Some i ->
  let c' := fst (SetMode w p t moderator set c) in
  m_ownerGuid c' = m_ownerGuid c
  /\ exists i', PlayerList.find (m_ownerGuid c) (m_players c') = Some i'
                /\ PlayerInfo.IsModerator i' = PlayerInfo.IsModerator i
                /\ PlayerInfo.IsOwner i' = PlayerInfo.IsOwner i
                /\ (GetObjectGuid p <> m_ownerGuid c -> i' = i).
Proof.
  intros Hi c'. subst c'.
  assert (Hsame : forall c0, c0 = c ->
            m_ownerGuid c0 = m_ownerGuid c
            /\ exists i', PlayerList.find (m_ownerGuid c) (m_players c0) = Some i'
                          /\ PlayerInfo.IsModerator i' = PlayerInfo.IsModerator i
                          /\ PlayerInfo.IsOwner i' = PlayerInfo.IsOwner i
                          /\ (GetObjectGuid p <> m_ownerGuid c -> i' = i)).
  { intros c0 ->. split; [done|]. exists i. done. }
  unfold SetMode. cbv zeta.
  destruct (negb (IsOn c (GetObjectGuid p))); [by apply Hsame|].
  split_if; [by apply Hsame|].
  destruct (GetPlayerByName w t) as [target|]; [|by apply Hsame].
  destruct (moderator && (GetObjectGuid p =? m_ownerGuid c)
            && (GetObjectGuid target =? m_ownerGuid c)) eqn:Hself; [by apply Hsame|].
  split_if; [by apply Hsame|]. split_if; [by apply Hsame|].
  destruct ((m_ownerGuid c =? GetObjectGuid target)
            && negb (m_ownerGuid c =? GetObjectGuid p)) eqn:Hown; [by apply Hsame|].
  destruct moderator.
  - assert (Hne : GetObjectGuid target ≠ m_ownerGuid c).
    { intros Heq. rewrite Heq in Hself, Hown. rewrite N.eqb_refl in Hself, Hown.
      cbn [andb] in Hown. apply negb_false_iff, N.eqb_eq in Hown.
      rewrite <- Hown, N.eqb_refl in Hself. done. }
    rewrite fst_SetModerator.
    destruct (PlayerList.find (GetObjectGuid target) (m_players c)); [|by apply Hsame].
    split_if; [by apply Hsame|]. split; [done|]. exists i.
    cbn [m_players set_players]. by rewrite find_modify_ne.
  - rewrite fst_SetMute.
    destruct (PlayerList.find (GetObjectGuid target) (m_players c)); [|by apply Hsame].
    split_if; [by apply Hsame|]. split; [done|]. cbn [m_players set_players].
    destruct (N.eq_dec (GetObjectGuid target) (m_ownerGuid c)) as [Heq|Hne].
    + rewrite Heq, find_modify_eq, Hi. cbn [option_map]. eexists. split; [done|].
      rewrite IsModerator_SetMuted, IsOwner_SetMuted. split; [done|]. split; [done|].
      intros Hp. rewrite <- Heq, N.eqb_refl in Hown. cbn [andb] in Hown.
      apply negb_false_iff, N.eqb_eq in Hown. congruence.
    + exists i. by rewrite find_modify_ne.
Qed.

(** The game master cannot take the moderator role from Ann, owner of "test". *)
Lemma SetMode_spares_the_owner_witness :
  let c := run demo_world [OpJoin ann ""; OpJoin gm ""] (Channel_new demo_world "test") in
  m_ownerGuid c = GetObjectGuid ann
  /\ exists i', PlayerList.find (GetObjectGuid ann)
                  (m_players (fst (SetMode demo_world gm "Ann" true false c))) = Some i'
                /\ PlayerInfo.IsModerator i' = true.
Proof.
  intros c. split; [reflexivity|].
  destruct (SetMode_spares_the_owner demo_world gm "Ann" true false c (PlayerInfo.mk 1 3)
              eq_refl) as (_ & i' & Hf & Hm & _).
  exists i'. split; [exact Hf|exact Hm].
Defined.

(** ** Transfer of ownership *)

Lemma SendToAll_keys w data c c' :
  PlayerList.keys (m_players c') = PlayerList.keys (m_players c) ->
  SendToAll w data c' = (c', snd (SendToAll w data c)).
Proof. intros H. by rewrite <- (snd_SendToAll_keys w data c c'). Qed.

Lemma SetOwner_transfer_events w guid exclaim c a b :
  guid_bool (m_ownerGuid c) = true ->
  guid_bool guid = true ->
  m_ownerGuid c <> guid ->
  PlayerList.find (m_ownerGuid c) (m_players c) = Some a ->
  PlayerList.find guid (m_players c) = Some b ->
  snd (SetOwner w guid exclaim c)
  = snd (SendToAll w (MakeModeChange (m_name c) guid
                        (PlayerInfo.flags (PlayerInfo.SetModerator true a))
                        (PlayerInfo.flags b)) c)
    ++ snd (SendToAll w (MakeModeChange (m_name c) guid
                           (PlayerInfo.flags (PlayerInfo.SetModerator true b))
                           (PlayerInfo.flags (PlayerInfo.SetOwner true
                                                (PlayerInfo.SetModerator true b)))) c)
    ++ (if exclaim then snd (SendToAll w (MakeOwnerChanged (m_name c) guid) c) else []).
Proof.
  intros Hgo Hg Hne Ha Hb. unfold SetOwner, seq, update.
  rewrite Hgo, Ha, Hg.
  set (m1 := PlayerList.modify (m_ownerGuid c) (PlayerInfo.SetModerator true) (m_players c)).
  set (m2 := PlayerList.modify (m_ownerGuid c) (PlayerInfo.SetOwner false) m1).
  change (m_players (set_players m1 c)) with m1. fold m2.
  assert (Hk2 : PlayerList.keys m2 = PlayerList.keys (m_players c)).
  { subst m2 m1. by rewrite !keys_modify. }
  assert (Hf1 : GetPlayerFlags (set_players m1 c) (m_ownerGuid c)
                = PlayerInfo.flags (PlayerInfo.SetModerator true a)).
  { unfold GetPlayerFlags. subst m1. cbn [m_players set_players].
    by rewrite find_modify_eq, Ha. }
  assert (Hb2 : PlayerList.find guid m2 = Some b).
  { subst m2 m1. by rewrite !find_modify_ne. }
  assert (Hf2 : GetPlayerFlags (set_players m2 (set_players m1 c)) guid = PlayerInfo.flags b).
  { unfold GetPlayerFlags. cbn [m_players set_players]. by rewrite Hb2. }
  rewrite Hf1, Hf2.
  rewrite (SendToAll_keys w _ c (set_players m2 (set_players m1 c))) by done.
  cbv beta iota.
  change (m_ownerGuid (set_ownerGuid guid (set_players m2 (set_players m1 c)))) with guid.
  change (m_players (set_ownerGuid guid (set_players m2 (set_players m1 c)))) with m2.
  change (m_name (set_ownerGuid guid (set_players m2 (set_players m1 c)))) with (m_name c).
  rewrite Hg. rewrite (subscript_found _ _ _ Hb2).
  set (m3 := PlayerList.modify guid (PlayerInfo.SetModerator true) m2).
  set (c3 := set_players m3 _).
  change (m_players c3) with m3.
  assert (Hb3 : PlayerList.find guid m3 = Some (PlayerInfo.SetModerator true b)).
  { subst m3. by rewrite find_modify_eq, Hb2. }
  rewrite (subscript_found _ _ _ Hb3).
  set (m4 := PlayerList.modify guid (PlayerInfo.SetOwner true) m3).
  assert (Hf3 : GetPlayerFlags c3 guid = PlayerInfo.flags (PlayerInfo.SetModerator true b)).
  { unfold GetPlayerFlags. change (m_players c3) with m3. by rewrite Hb3. }
  assert (Hf4 : GetPlayerFlags (set_players m4 c3) guid
                = PlayerInfo.flags (PlayerInfo.SetOwner true (PlayerInfo.SetModerator true b))).
  { unfold GetPlayerFlags. cbn [m_players set_players]. subst m4.
    by rewrite find_modify_eq, Hb3. }
  rewrite Hf3, Hf4.
  assert (Hk4 : PlayerList.keys m4 = PlayerList.keys (m_players c)).
  { subst m4 m3. by rewrite !keys_modify. }
  rewrite (SendToAll_keys w _ c (set_players m4 c3)) by done.
  cbv beta iota.
  change (m_name (set_players m4 c3)) with (m_name c).
  destruct exclaim.
  - rewrite (SendToAll_keys w _ c (set_players m4 c3)) by done. cbn [snd]. done.
  - cbn [snd]. done.
Qed.

(** X14. The [SetOwner] command that passes its gates (actor a member, the
    owner or a game master; the name resolves to a member of an admissible
    faction), from an owner who is a member to another member: the owner
    guid becomes the target; the target's entry gains the moderator and the
    owner bit; the old owner's entry loses the owner bit and has the
    moderator bit set; no other entry and nothing else in the channel
    changes.  The members get two ModeChange notices, both naming the target:
    the first carries the old owner's flag byte as old flags and the target's
    flag byte as new flags, the second the target's bytes before and after
    the owner bit; OwnerChanged follows when the channel has more than one
    member. *)
Theorem SetOwner_cmd_transfers w p t target c a b :
  IsOn c (GetObjectGuid p) = true ->
  sec_lt (GetSecurity p) SEC_GAMEMASTER && negb (GetObjectGuid p =? m_ownerGuid c) = false ->
  GetPlayerByName w t = Some target ->
  wrong_faction w p target = false ->
  guid_bool (m_ownerGuid c) = true ->
  m_ownerGuid c <> GetObjectGuid target ->
  PlayerList.find (m_ownerGuid c) (m_players c) = Some a ->
  PlayerList.find (GetObjectGuid target) (m_players c) = Some b ->
  let tg := GetObjectGuid target in
  let b1 := PlayerInfo.SetModerator true b in
  let c' := fst (SetOwner_cmd w p t c) in
  m_ownerGuid c' = tg
  /\ roles_only (set_ownerGuid tg c) c'
  /\ PlayerList.find tg (m_players c') = Some (PlayerInfo.SetOwner true b1)
  /\ PlayerList.find (m_ownerGuid c) (m_players c')
     = Some (PlayerInfo.SetOwner false (PlayerInfo.SetModerator true a))
  /\ (forall k, k <> tg -> k <> m_ownerGuid c ->
        PlayerList.find k (m_players c') = PlayerList.find k (m_players c))
  /\ snd (SetOwner_cmd w p t c)
     = snd (SendToAll w (MakeModeChange (m_name c) tg
                           (PlayerInfo.flags (PlayerInfo.SetModerator true a))
                           (PlayerInfo.flags b)) c)
       ++ snd (SendToAll w (MakeModeChange (m_name c) tg (PlayerInfo.flags b1)
                              (PlayerInfo.flags (PlayerInfo.SetOwner true b1))) c)
       ++ (if 1 <? PlayerList.size (m_players c)
           then snd (SendToAll w (MakeOwnerChanged (m_name c) tg) c) else []).
Proof.
  intros Hon Hgate Ht Hfac Hgo Hne Ha Hb tg b1 c'. subst tg b1 c'.
  assert (Htg : IsOn c (GetObjectGuid target) = true) by (apply IsOn_true; eauto).
  assert (Hrun : SetOwner_cmd w p t c
                 = SetOwner w (GetObjectGuid target) (1 <? PlayerList.size (m_players c)) c).
  { unfold SetOwner_cmd. cbv zeta. unfold wrong_faction in Hfac.
    by rewrite Hon, Hgate, Ht, Htg, Hfac. }
  rewrite Hrun.
  assert (Hgt : guid_bool (GetObjectGuid target) = true) by apply guid_bool_Npos.
  assert (Hfind : forall k,
            PlayerList.find k (m_players (fst (SetOwner w (GetObjectGuid target)
                                                 (1 <? PlayerList.size (m_players c)) c)))
            = SetOwner_entry (GetObjectGuid target) (m_ownerGuid c) k
                (PlayerList.find k (m_players c))).
  { intros k. rewrite fst_SetOwner. cbn [m_players set_players].
    apply find_SetOwner_players. }
  split; [apply SetOwner_ownerGuid|]. split; [|split; [|split; [|split]]].
  - apply SetOwner_roles_only. by intros _.
  - rewrite Hfind, Hb. unfold SetOwner_entry. rewrite Hgo, Hgt, N.eqb_refl.
    destruct (N.eqb_spec (m_ownerGuid c) (GetObjectGuid target)); [done|]. done.
  - rewrite Hfind, Ha. unfold SetOwner_entry. rewrite Hgo, Hgt, N.eqb_refl.
    destruct (N.eqb_spec (GetObjectGuid target) (m_ownerGuid c)); [congruence|]. done.
  - intros k Hk1 Hk2. rewrite Hfind. unfold SetOwner_entry.
    destruct (N.eqb_spec (m_ownerGuid c) k); [congruence|].
    destruct (N.eqb_spec (GetObjectGuid target) k); [congruence|].
    by rewrite !andb_false_r.
  - by apply SetOwner_transfer_events.
Qed.

(** Ann hands "test" over to Bob and stays moderator. *)
Lemma SetOwner_cmd_transfers_witness :
  let c := run demo_world [OpJoin ann ""; OpJoin bob ""] (Channel_new demo_world "test") in
  let c' := fst (SetOwner_cmd demo_world ann "Bob" c) in
  m_ownerGuid c' = GetObjectGuid bob
  /\ PlayerList.find (GetObjectGuid ann) (m_players c') = Some (PlayerInfo.mk 1 2)
  /\ PlayerList.find (GetObjectGuid bob) (m_players c') = Some (PlayerInfo.mk 2 3).
Proof.
  intros c c'.
  assert (Hne : m_ownerGuid c <> GetObjectGuid bob) by discriminate.
  destruct (SetOwner_cmd_transfers demo_world ann "Bob" bob c
              (PlayerInfo.mk 1 3) (PlayerInfo.mk 2 0)
              eq_refl eq_refl eq_refl eq_refl eq_refl Hne eq_refl eq_refl)
    as (H1 & _ & H3 & H4 & _).
  split; [exact H1|]. split; [exact H4|exact H3].
Defined.

(** ** Invitations *)

(** X15. [Invite] on a name that resolves never changes the channel.  The
    invitation is handled when the actor is a member and the target is not,
    is not banned and passes the faction gate.  The invitation packet, naming
    the actor, reaches the target exactly when the invitation is handled, the
    target does not ignore the actor and is online; the actor is told
    PlayerInvited exactly when the invitation is handled, whether or not the
    target ignores the actor.  Nothing is sent to a third party. *)
Theorem Invite_delivery w p t target c :
  GetPlayerByName w t = Some target ->
  let guid := GetObjectGuid p in
  let tg := GetObjectGuid target in
  let invited :=
    IsOn c guid && negb (IsOn c tg) && negb (IsBanned c tg)
    && negb (wrong_faction w p target) in
  fst (Invite w p t c) = c
  /\ (In (tg, MakeInvite (m_name c) guid) (snd (Invite w p t c))
      <-> invited = true /\ HasIgnore target guid = false /\ GetPlayer w tg <> None)
  /\ (In (guid, MakePlayerInvited (m_name c) t) (snd (Invite w p t c))
      <-> invited = true /\ GetPlayer w guid <> None)
  /\ (forall g d, In (g, d) (snd (Invite w p t c)) ->
        g = guid \/ (g = tg /\ d = MakeInvite (m_name c) guid)).
Proof.
  intros Ht guid tg invited. split; [apply fst_Invite|].
  subst invited. unfold Invite, wrong_faction. cbv zeta. rewrite Ht. fold guid tg.
  destruct (IsOn c guid) eqn:Hon; cbn [negb andb].
  2:{ unfold SendToOne. destruct (GetPlayer w guid); cbn [snd In];
      (split; [|split]); try (intros g d); intuition (try discriminate; try congruence). }
  destruct (IsOn c tg) eqn:Htg; cbn [negb andb].
  { unfold SendToOne. destruct (GetPlayer w guid); cbn [snd In];
      (split; [|split]); try (intros g d); intuition (try discriminate; try congruence). }
  destruct (IsBanned c tg) eqn:Hb; cbn [negb andb].
  { unfold SendToOne. destruct (GetPlayer w guid); cbn [snd In];
      (split; [|split]); try (intros g d); intuition (try discriminate; try congruence). }
  destruct (negb (GetTeam target =? GetTeam p)
            && negb (CONFIG_BOOL_ALLOW_TWO_SIDE_INTERACTION_CHANNEL w)) eqn:Hf; cbn [negb].
  { unfold SendToOne. destruct (GetPlayer w guid); cbn [snd In];
      (split; [|split]); try (intros g d); intuition (try discriminate; try congruence). }
  assert (Hne : tg <> guid) by congruence.
  unfold seq, SendToOne.
  destruct (HasIgnore target guid); cbn [negb];
    destruct (GetPlayer w guid) eqn:Eg; destruct (GetPlayer w tg) eqn:Et;
    cbn [snd fst app In]; (split; [|split]); try (intros g d);
    intuition (try discriminate; try congruence).
Qed.

(** Bob ignores Ann: her invitation is not delivered, and she is told that
    Bob was invited. *)
Lemma Invite_delivery_witness :
  let c := run demo_world [OpJoin ann ""] (Channel_new demo_world "test") in
  In (GetObjectGuid ann, MakePlayerInvited "test" "Bob") (snd (Invite demo_world ann "Bob" c))
  /\ ~ In (GetObjectGuid bob, MakeInvite "test" (GetObjectGuid ann))
         (snd (Invite demo_world ann "Bob" c)).
Proof.
  intros c.
  destruct (Invite_delivery demo_world ann "Bob" bob c eq_refl) as (_ & H2 & H3 & _).
  split.
  - apply (proj2 H3). split; [reflexivity|discriminate].
  - intros H. apply (proj1 H2) in H. destruct H as (_ & H & _). discriminate H.
Defined.

(** ** Dispatch *)

Lemma recipients_SendToAll w data m c :
  m = m_players c ->
  map fst (snd (SendToAll w data c))
  = List.filter (fun g => match GetPlayer w g with Some _ => true | None => false end)
      (PlayerList.keys m)
  /\ Forall (fun e => snd e = data) (snd (SendToAll w data c)).
Proof.
  intros ->. unfold SendToAll, SendToOne, PlayerList.keys. cbn [snd].
  induction (m_players c) as [|[k i] r [IH1 IH2]]; [by split|].
  cbn [flat_map map List.filter fst]. destruct (GetPlayer w k).
  - cbn [app map fst]. split; [by rewrite IH1|]. by constructor.
  - cbn [app]. by split.
Qed.

Lemma NoDup_filter_list {A} (f : A -> bool) l : List.NoDup l -> List.NoDup (List.filter f l).
Proof.
  induction 1 as [|x l Hx Hl IH]; cbn; [constructor|].
  destruct (f x); [|done]. constructor; [|done].
  intros Hin. apply List.filter_In in Hin as [Hin _]. done.
Qed.

(** X16. [SendToAll] on a table with ascending keys hands the packet, and
    nothing but the packet, to the online members in guid order, each exactly
    once, and skips the members the object manager does not find.
    [SendMessage] with the empty guid as sender is [SendToAll]; with any
    sender its deliveries are a subsequence of those of [SendToAll]. *)
Theorem SendToAll_exactly_once w data sender c :
  ascending (m_players c) ->
  let online g := match GetPlayer w g with Some _ => true | None => false end in
  map fst (snd (SendToAll w data c)) = List.filter online (PlayerList.keys (m_players c))
  /\ Forall (fun e => snd e = data) (snd (SendToAll w data c))
  /\ List.NoDup (map fst (snd (SendToAll w data c)))
  /\ SendMessage w data EmptyGuid c = SendToAll w data c
  /\ sublist (snd (SendMessage w data sender c)) (snd (SendToAll w data c)).
Proof.
  intros Hasc online.
  destruct (recipients_SendToAll w data _ c eq_refl) as [H1 H2].
  split; [done|]. split; [done|]. split; [|split].
  - rewrite H1. apply NoDup_filter_list. apply NoDup_ListNoDup, ascending_NoDup, Hasc.
  - reflexivity.
  - clear Hasc H1 H2 online. unfold SendMessage, SendToAll, SendToOne. cbn [snd].
    induction (m_players c) as [|[k i] r IH]; [constructor|]. cbn [flat_map fst snd].
    destruct (GetPlayer w k) as [plr|]; [|exact IH].
    destruct (negb (guid_bool sender) || negb (HasIgnore plr sender)); cbn [app].
    + apply sublist_skip, IH.
    + apply sublist_cons, IH.
Qed.

(** A notice to "test" reaches Ann, then Bob. *)
Lemma SendToAll_exactly_once_witness :
  let c := run demo_world [OpJoin bob ""; OpJoin ann ""] (Channel_new demo_world "test") in
  map fst (snd (SendToAll demo_world (MakeMuted "test") c))
  = [GetObjectGuid ann; GetObjectGuid bob].
Proof.
  intros c.
  assert (Hasc : ascending (m_players c)) by repeat constructor.
  exact (proj1 (SendToAll_exactly_once demo_world (MakeMuted "test") EmptyGuid c Hasc)).
Defined.

(** ** The member list and the owner query *)

Lemma List_fold w d p m : forall acc,
  snd acc < 2 ^ 32 ->
  let listed := flat_map (fun kv : ObjectGuid * PlayerInfo.t =>
      match GetPlayer w (fst kv) with
      | Some member =>
          if (AccountTypes_level (GetSecurity p) =? AccountTypes_level SEC_PLAYER)
             && hidden_from d member p
          then [] else [(fst kv, PlayerInfo.flags (snd kv) mod 256)]
      | None => []
      end) m in
  fold_left (List_step w d p) m acc
  = (fst acc ++ listed, (snd acc + N.of_nat (List.length listed)) mod 2 ^ 32).
Proof.
  induction m as [|kv r IH]; intros [es n] Hn; cbn [fst snd] in *.
  - cbn. rewrite app_nil_r, N.add_0_r, N.mod_small; done.
  - cbn [fold_left flat_map]. unfold List_step at 2. cbn [fst snd].
    destruct (GetPlayer w (fst kv)) as [member|]; [|by apply IH].
    destruct ((AccountTypes_level (GetSecurity p) =? AccountTypes_level SEC_PLAYER)
              && hidden_from d member p); [by apply IH|].
    rewrite IH; cbn [fst snd].
    + rewrite <- app_assoc. cbn [app List.length]. f_equal.
      rewrite N.Div0.add_mod_idemp_l. f_equal. lia.
    + apply N.mod_upper_bound. done.
Qed.

(** X17. [List] for a non-member is the NotMember notice.  For a member, on
    a well-formed table, it is one packet for the actor with the channel
    name, the flag byte, and entries in guid order without repetition: a
    member is listed, with the low byte of its flags, exactly when the object
    manager finds it and, for a reader of player security, it is not hidden
    (security above the who-list level, or not globally visible for the
    reader).  The count written over the placeholder is the number of
    entries, as a 32-bit value. *)
Theorem List_reports w d p c :
  wf_players (m_players c) ->
  let guid := GetObjectGuid p in
  let visibilityCheck :=
    AccountTypes_level (GetSecurity p) =? AccountTypes_level SEC_PLAYER in
  (IsOn c guid = false ->
   List w d p c = inl (snd (SendToOne w (MakeNotMember (m_name c)) guid c)))
  /\ (IsOn c guid = true ->
      exists data,
        List w d p c = inr (match GetPlayer w guid with
                            | Some _ => [(guid, data)]
                            | None => []
                            end)
        /\ list_channel data = m_name c
        /\ list_flags data = GetFlags c mod 256
        /\ list_count data = N.of_nat (List.length (list_entries data)) mod 2 ^ 32
        /\ sublist (map fst (list_entries data)) (PlayerList.keys (m_players c))
        /\ (forall g f,
              In (g, f) (list_entries data)
              <-> exists i member,
                    PlayerList.find g (m_players c) = Some i
                    /\ f = PlayerInfo.flags i mod 256
                    /\ GetPlayer w g = Some member
                    /\ visibilityCheck && hidden_from d member p = false)).
Proof.
  intros Hwf guid visibilityCheck. subst guid. split.
  - intros Hoff. unfold List. cbv zeta. by rewrite Hoff.
  - intros Hon. unfold List. cbv zeta. rewrite Hon. cbn [negb].
    rewrite (List_fold w d p (m_players c) ([], 0)) by done. cbv zeta. cbn [fst snd app].
    eexists. split; [reflexivity|]. cbn [list_channel list_flags list_count list_entries].
    fold visibilityCheck.
    split; [done|]. split; [done|]. split; [by rewrite N.add_0_l|]. split.
    + clear. unfold PlayerList.keys. induction (m_players c) as [|[k i] r IH]; [constructor|].
      cbn [flat_map map fst snd]. destruct (GetPlayer w k) as [member|];
        [|by apply sublist_cons].
      destruct (visibilityCheck && hidden_from d member p); cbn [app map fst].
      * by apply sublist_cons.
      * by apply sublist_skip.
    + intros g f. rewrite in_flat_map. split.
      * intros ([k i] & Hin & H). cbn [fst snd] in H.
        destruct (GetPlayer w k) as [member|] eqn:Ek; [|done].
        destruct (visibilityCheck && hidden_from d member p) eqn:Eh; [done|].
        destruct H as [[= <- <-]|[]]. exists i, member.
        split; [by apply ascending_In_find; [apply Hwf|]|]. done.
      * intros (i & member & Hi & -> & Hg & Hh). exists (g, i).
        split; [by apply find_In|]. cbn [fst snd]. rewrite Hg, Hh. by left.
Qed.

(** Ann lists "test": the game master beside her is left out. *)
Lemma List_reports_witness :
  let c := run demo_world [OpJoin ann ""; OpJoin gm ""] (Channel_new demo_world "test") in
  exists data,
    List demo_world demo_directory ann c = inr [(GetObjectGuid ann, data)]
    /\ list_count data = N.of_nat (List.length (list_entries data)) mod 2 ^ 32
    /\ ~ In (GetObjectGuid gm, 0) (list_entries data).
Proof.
  intros c.
  assert (Hwf : wf_players (m_players c)) by (split; repeat constructor).
  destruct (proj2 (List_reports demo_world demo_directory ann c Hwf) eq_refl)
    as (data & HL & _ & _ & Hc & _ & Hin).
  exists data. split; [exact HL|]. split; [exact Hc|].
  intros H. apply (proj1 (Hin _ _)) in H. destruct H as (i & member & _ & _ & Hg & Hh).
  vm_compute in Hg. injection Hg as <-. discriminate Hh.
Defined.

(** X18. [SendWhoOwner] never changes the channel.  A non-member gets
    NotMember.  A member gets one owner notice, and the name in it is the one
    the directory has for the asking player itself, "PLAYER_NOT_FOUND" when
    it has none or an empty one: the owner guid the function computes is not
    the one it passes on.  So the reply is never "Nobody", and it is the same
    on any two channels of one name the player is a member of, whoever owns
    them and whatever the visibility of the owner. *)
Theorem SendWhoOwner_names_the_asker w d p c :
  let guid := GetObjectGuid p in
  let name := match GetPlayerNameByGUID d guid with
              | Some n => if (String.length n =? 0)%nat then "PLAYER_NOT_FOUND" else n
              | None => "PLAYER_NOT_FOUND"
              end in
  fst (SendWhoOwner w d p c) = c
  /\ (IsOn c guid = false ->
      snd (SendWhoOwner w d p c) = snd (SendToOne w (MakeNotMember (m_name c)) guid c))
  /\ (IsOn c guid = true ->
      snd (SendWhoOwner w d p c)
      = snd (SendToOne w (MakeNotifyPacket (m_name c) CHAT_CHANNEL_OWNER_NOTICE
                            <<< FString name) guid c)
      /\ forall c' d',
           m_name c' = m_name c -> IsOn c' guid = true ->
           GetPlayerNameByGUID d' guid = GetPlayerNameByGUID d guid ->
           snd (SendWhoOwner w d' p c') = snd (SendWhoOwner w d p c)).
Proof.
  intros guid name. subst guid name.
  assert (Hrun : forall d0 c0, IsOn c0 (GetObjectGuid p) = true ->
            SendWhoOwner w d0 p c0
            = SendToOne w (MakeChannelOwner d0 (m_name c0) (GetObjectGuid p))
                (GetObjectGuid p) c0).
  { intros d0 c0 H. unfold SendWhoOwner. cbv zeta. by rewrite H. }
  split; [|split].
  - unfold SendWhoOwner. cbv zeta. by destruct (IsOn c (GetObjectGuid p)).
  - intros Hoff. unfold SendWhoOwner. cbv zeta. by rewrite Hoff.
  - intros Hon. split.
    + rewrite Hrun by done. unfold MakeChannelOwner.
      by rewrite (guid_bool_Npos (GetGUIDLow p) : guid_bool (GetObjectGuid p) = true).
    + intros c' d' Hn Hon' Hd. rewrite !Hrun by done.
      unfold MakeChannelOwner, SendToOne. by rewrite Hd, Hn.
Qed.

(** Bob asks who owns Ann's channel "test" and is told "Bob". *)
Lemma SendWhoOwner_names_the_asker_witness :
  let c := run demo_world [OpJoin ann ""; OpJoin bob ""] (Channel_new demo_world "test") in
  m_ownerGuid c = GetObjectGuid ann
  /\ snd (SendWhoOwner demo_world demo_directory bob c)
     = [(GetObjectGuid bob,
         MakeNotifyPacket "test" CHAT_CHANNEL_OWNER_NOTICE <<< FString "Bob")].
Proof.
  intros c. split; [reflexivity|].
  exact (proj1 (proj2 (proj2 (SendWhoOwner_names_the_asker demo_world demo_directory bob c))
                  eq_refl)).
Defined.

(** ** Joining and leaving again *)

Lemma erase_absent k m : PlayerList.find k m = None -> PlayerList.erase k m = m.
Proof.
  induction m as [|[k' i] r IH]; simpl; [done|].
  destruct (k' =? k); [done|]. intros H. by rewrite IH.
Qed.

Lemma erase_modify k g m : PlayerList.erase k (PlayerList.modify k g m) = PlayerList.erase k m.
Proof.
  induction m as [|[k' i] r IH]; simpl; [done|].
  destruct (k' =? k) eqn:E; simpl; rewrite E; [done|]. by rewrite IH.
Qed.

Lemma erase_insert k d m :
  PlayerList.find k m = None -> PlayerList.erase k (PlayerList.insert k d m) = m.
Proof.
  induction m as [|[k' i] r IH]; simpl.
  - by rewrite N.eqb_refl.
  - destruct (k' =? k) eqn:E; [done|]. intros H.
    destruct (k <? k'); simpl.
    + rewrite N.eqb_refl, E. by rewrite erase_absent.
    + rewrite E. by rewrite IH.
Qed.

Lemma erase_joined k f m :
  PlayerList.find k m = None -> PlayerList.erase k (joined k f m) = m.
Proof.
  intros H. unfold joined, PlayerList.subscript. rewrite H, erase_modify.
  by apply erase_insert.
Qed.

(** X19. An admitted [Join] followed by [Leave] of the same player gives the
    channel back, field for field, when the channel is public or has an owner
    and the automatic conversion that ends [Join] does not go through: the
    entry created is erased, no role was granted, no succession runs. *)
Theorem Join_then_Leave w p pw send c :
  Join_admitted p pw c = true ->
  IsPublic c || guid_bool (m_ownerGuid c) = true ->
  SetStatic_blocked w true false
    (set_players (joined (GetObjectGuid p) MEMBER_FLAG_NONE (m_players c)) c) = true ->
  fst (Leave w p send (fst (Join w p pw c))) = c.
Proof.
  intros Hadm Hown Hblk.
  destruct (Join_admitted_gates _ _ _ Hadm) as (Hoff & _).
  rewrite (Join_admitted_run w _ _ _ Hadm). cbn [fst].
  set (c2 := set_players (joined (GetObjectGuid p) MEMBER_FLAG_NONE (m_players c)) c) in *.
  assert (Hno : negb (IsPublic c2) && negb (guid_bool (m_ownerGuid c2)) = false).
  { change (IsPublic c2) with (IsPublic c). change (m_ownerGuid c2) with (m_ownerGuid c).
    apply orb_true_iff in Hown as [-> | ->]; [done|apply andb_false_r]. }
  rewrite Hno. cbn [fst]. rewrite (SetStatic_refused _ _ _ _ Hblk). cbn [fst snd].
  assert (Hon : IsOn c2 (GetObjectGuid p) = true).
  { subst c2. by rewrite IsOn_joined, N.eqb_refl. }
  rewrite (Leave_member_run w p send c2 Hon). cbn [fst].
  assert (Hm : member c2 (GetObjectGuid p) = PlayerInfo.mk (GetObjectGuid p) MEMBER_FLAG_NONE).
  { apply member_found. subst c2. cbn [m_players set_players]. unfold joined.
    by rewrite find_assign, N.eqb_refl. }
  rewrite Hm. cbn [andb fst]. subst c2. cbn [m_players set_players].
  rewrite erase_joined by (by apply IsOn_false). by destruct c.
Qed.

(** Cid joins "test" of Ann and Bob and leaves again. *)
Lemma Join_then_Leave_witness :
  let c := run demo_world [OpJoin ann ""; OpJoin bob ""] (Channel_new demo_world "test") in
  fst (Leave demo_world cid true (fst (Join demo_world cid "" c))) = c.
Proof.
  intros c.
  exact (Join_then_Leave demo_world cid "" true c eq_refl eq_refl eq_refl).
Defined.

(** ** Where the packets go *)

Lemma well_sent_nil w name : well_sent w name [].
Proof. split; constructor. Qed.

Lemma well_sent_app w name e1 e2 :
  well_sent w name e1 -> well_sent w name e2 -> well_sent w name (e1 ++ e2).
Proof. intros [H1 H2] [H3 H4]. split; apply Forall_app; done. Qed.

Lemma addressed_quiet w c c' : m_name c' = m_name c -> addressed w c (c', []).
Proof. intros H. split; [done|apply well_sent_nil]. Qed.

Lemma addressed_SendToOne w c c' data g :
  m_name c' = m_name c -> packet_channel data = m_name c ->
  addressed w c (SendToOne w data g c').
Proof.
  intros Hn Hd. unfold SendToOne. split; [done|]. cbn [snd].
  destruct (GetPlayer w g) eqn:E; [|apply well_sent_nil].
  split; repeat constructor; cbn [fst snd]; congruence.
Qed.

Lemma addressed_SendToAll w c c' data :
  m_name c' = m_name c -> packet_channel data = m_name c ->
  addressed w c (SendToAll w data c').
Proof.
  intros Hn Hd. split; [done|]. unfold SendToAll. cbn [snd].
  induction (m_players c') as [|[k i] r IH]; [apply well_sent_nil|].
  cbn [flat_map]. apply well_sent_app; [|exact IH].
  by apply (addressed_SendToOne w c c' data k).
Qed.

Lemma addressed_SendMessage w c c' data sender :
  m_name c' = m_name c -> packet_channel data = m_name c ->
  addressed w c (SendMessage w data sender c').
Proof.
  intros Hn Hd. split; [done|]. unfold SendMessage. cbn [snd].
  induction (m_players c') as [|[k i] r IH]; [apply well_sent_nil|].
  cbn [flat_map]. apply well_sent_app; [|exact IH]. cbn [fst].
  destruct (GetPlayer w k) eqn:E; [|apply well_sent_nil].
  destruct (negb (guid_bool sender) || negb (HasIgnore p sender)); [|apply well_sent_nil].
  split; repeat constructor; cbn [fst snd]; congruence.
Qed.

Lemma addressed_seq w (a b : Cmd) c :
  addressed w c (a c) -> addressed w (fst (a c)) (b (fst (a c))) ->
  addressed w c ((a >> b) c).
Proof.
  intros [Ha1 Ha2] [Hb1 Hb2]. unfold seq.
  destruct (a c) as [c1 e1]. cbn [fst snd] in *.
  destruct (b c1) as [c2 e2]. cbn [fst snd] in *.
  split; cbn [fst snd]; [congruence|]. apply well_sent_app; [done|]. by rewrite <- Ha1.
Qed.

Lemma keeps_address_seq w (a b : Cmd) :
  keeps_address w a -> keeps_address w b -> keeps_address w (a >> b).
Proof. intros Ha Hb c. apply addressed_seq; [apply Ha|apply Hb]. Qed.

Lemma keeps_address_update w f :
  (forall c, m_name (f c) = m_name c) -> keeps_address w (update f).
Proof. intros H c. apply addressed_quiet, H. Qed.

Ltac addressed_leaf :=
  first [ apply addressed_quiet; reflexivity
        | apply addressed_SendToOne; reflexivity
        | apply addressed_SendToAll; reflexivity
        | apply addressed_SendMessage; reflexivity ].

Ltac addressed_step :=
  match goal with
  | |- keeps_address _ (_ >> _) => apply keeps_address_seq
  | |- keeps_address _ (update _) => apply keeps_address_update; intros; reflexivity
  | |- keeps_address _ (fun _ => _) => intros ?c; cbv beta
  | |- addressed _ _ ((update ?f >> _) ?c) =>
      apply addressed_seq;
      [unfold update; apply addressed_quiet; reflexivity
      |change (fst (update f c)) with (f c); cbv beta]
  | |- addressed _ _ ((_ >> _) _) => apply (keeps_address_seq _ _ _)
  | |- addressed _ _ (if ?b then _ else _) => destruct b
  | |- addressed _ _ (match ?x with Some _ => _ | None => _ end) => destruct x
  | |- addressed _ _ _ => addressed_leaf
  end.

Lemma keeps_address_SetModerator w g set : keeps_address w (SetModerator w g set).
Proof. intros c. unfold SetModerator. cbv zeta. repeat addressed_step. Qed.

Lemma keeps_address_SetMute w g set : keeps_address w (SetMute w g set).
Proof. intros c. unfold SetMute. cbv zeta. repeat addressed_step. Qed.

Lemma keeps_address_SetOwner w guid exclaim : keeps_address w (SetOwner w guid exclaim).
Proof. unfold SetOwner. repeat addressed_step. Qed.

Ltac addressed_call :=
  match goal with
  | |- addressed _ ?c (SetOwner _ _ _ ?c) => apply keeps_address_SetOwner
  | |- addressed _ ?c (SetModerator _ _ _ ?c) => apply keeps_address_SetModerator
  | |- addressed _ ?c (SetMute _ _ _ ?c) => apply keeps_address_SetMute
  end.

Ltac addressed_all := repeat first [addressed_call | addressed_step].

Lemma keeps_address_strip w ks : keeps_address w (strip_moderators w ks).
Proof.
  induction ks as [|k r IH]; cbn [strip_moderators].
  - intros c. by apply addressed_quiet.
  - apply keeps_address_seq; [|exact IH]. addressed_all.
Qed.

Lemma keeps_address_SetStatic w state command :
  keeps_address w (fun c => snd (SetStatic w state command c)).
Proof.
  intros c. unfold SetStatic. cbv zeta.
  repeat match goal with
         | |- addressed _ _ (snd (if ?b then _ else _)) => destruct b
         end; cbn [snd]; try (by apply addressed_quiet).
  apply (keeps_address_seq w); [|apply keeps_address_seq; [|apply keeps_address_seq;
                                    [|apply keeps_address_seq]]].
  - intros c0. destruct state; [apply keeps_address_strip|by apply addressed_quiet].
  - addressed_all.
  - addressed_all.
  - addressed_all.
  - addressed_all.
Qed.

Lemma keeps_address_Join w p pw : keeps_address w (Join w p pw).
Proof.
  intros c. unfold Join. cbv zeta.
  repeat match goal with
         | |- addressed _ _ (if ?b then _ else _) => destruct b
         end; try addressed_leaf.
  apply (keeps_address_seq w); [|apply keeps_address_seq; [|apply keeps_address_seq;
                                    [|apply keeps_address_seq]]].
  - addressed_all.
  - addressed_all.
  - addressed_all.
  - addressed_all.
  - apply keeps_address_SetStatic.
Qed.

Lemma keeps_address_Leave w p send : keeps_address w (Leave w p send).
Proof. intros c. unfold Leave. cbv zeta. addressed_all. Qed.

Lemma keeps_address_KickOrBan w p t ban : keeps_address w (KickOrBan w p t ban).
Proof. intros c. unfold KickOrBan. cbv zeta. addressed_all. Qed.

Lemma keeps_address_UnBan w p t : keeps_address w (UnBan w p t).
Proof. intros c. unfold UnBan. cbv zeta. addressed_all. Qed.

Lemma keeps_address_Password w p pw : keeps_address w (Password w p pw).
Proof. intros c. unfold Password. cbv zeta. addressed_all. Qed.

Lemma keeps_address_SetMode w p t moderator set : keeps_address w (SetMode w p t moderator set).
Proof. intros c. unfold SetMode. cbv zeta. addressed_all. Qed.

Lemma keeps_address_SetOwner_cmd w p t : keeps_address w (SetOwner_cmd w p t).
Proof. intros c. unfold SetOwner_cmd. cbv zeta. addressed_all. Qed.

Lemma keeps_address_Announce w p : keeps_address w (Announce w p).
Proof. intros c. unfold Announce. cbv zeta. addressed_all. Qed.

Lemma keeps_address_Moderate w p : keeps_address w (Moderate w p).
Proof. intros c. unfold Moderate. cbv zeta. addressed_all. Qed.

Lemma keeps_address_Say w p text lang : keeps_address w (Say w p text lang).
Proof. intros c. unfold Say. destruct text; cbv zeta; addressed_all. Qed.

Lemma keeps_address_Invite w p t : keeps_address w (Invite w p t).
Proof. intros c. unfold Invite. cbv zeta. addressed_all. Qed.

Lemma keeps_address_exec w o : keeps_address w (exec w o).
Proof.
  destruct o; cbn [exec];
    auto using keeps_address_Join, keeps_address_Leave, keeps_address_KickOrBan,
      keeps_address_UnBan, keeps_address_Password, keeps_address_SetMode,
      keeps_address_SetOwner_cmd, keeps_address_SetStatic, keeps_address_Announce,
      keeps_address_Moderate, keeps_address_Say, keeps_address_Invite.
Qed.

(** X20. Whatever the operation and the channel it runs on, every packet it
    sends names this channel and goes to a player the object manager finds,
    and the channel keeps its name; the same holds for the owner query and
    for the packet of the member list. *)
Theorem packets_are_addressed w d p o c :
  addressed w c (exec w o c)
  /\ addressed w c (SendWhoOwner w d p c)
  /\ match List w d p c with
     | inl events => well_sent w (m_name c) events
     | inr packets =>
         Forall (fun e => GetPlayer w (fst e) <> None /\ list_channel (snd e) = m_name c)
           packets
     end.
Proof.
  split; [apply keeps_address_exec|]. split.
  - unfold SendWhoOwner. cbv zeta. addressed_all.
  - unfold List. cbv zeta. destruct (negb (IsOn c (GetObjectGuid p))).
    + by apply (addressed_SendToOne w c c).
    + destruct (fold_left _ _ _) as [entries count].
      destruct (GetPlayer w (GetObjectGuid p)) eqn:E; repeat constructor.
      cbn [fst]. congruence.
Qed.

(** ** What the constructor decides *)

Lemma same_class_run w ops : forall c, same_class c (run w ops c).
Proof.
  induction ops as [|o r IH]; intros c; simpl; [apply same_class_refl|].
  eapply same_class_trans; [apply same_class_exec|apply IH].
Qed.

(** X21. What the constructor decides holds on every channel reached from
    it.  A name the catalogue knows gives a built-in channel: the catalogue's
    channel id, the realm zone set, the General flag, never the Custom flag,
    Trade, City and LFG as the catalogue flags say and NotLFG when LFG is not
    set.  The flag set is 0x38, the value the guild rule of [Join] tests,
    exactly for a city channel that is neither trade nor LFG, and there the
    [Join] of a guild member who is not a member, not banned and passes the
    password gate is dropped without any packet.  Any other name gives a
    custom channel: channel id 0, the Custom flag alone, the realm zone as
    the language check of the name says; the guild rule never applies. *)
Theorem constructor_classifies w name ops :
  let c := run w ops (Channel_new w name) in
  match GetChannelEntryFor w name with
  | Some ch =>
      let trade := negb (N.land (dbc_flags ch) CHANNEL_DBC_FLAG_TRADE =? 0) in
      let city := negb (N.land (dbc_flags ch) CHANNEL_DBC_FLAG_CITY_ONLY2 =? 0) in
      let lfg := negb (N.land (dbc_flags ch) CHANNEL_DBC_FLAG_LFG =? 0) in
      m_channelId c = ChannelID ch
      /\ m_realmzone c = true
      /\ HasFlag c CHANNEL_FLAG_GENERAL = true
      /\ HasFlag c CHANNEL_FLAG_CUSTOM = false
      /\ HasFlag c CHANNEL_FLAG_TRADE = trade
      /\ HasFlag c CHANNEL_FLAG_CITY = city
      /\ HasFlag c CHANNEL_FLAG_LFG = lfg
      /\ HasFlag c CHANNEL_FLAG_NOT_LFG = negb lfg
      /\ (GetFlags c =? 0x38) = negb trade && city && negb lfg
      /\ (forall p pw,
            negb trade && city && negb lfg = true ->
            GetGuildId p <> 0 ->
            IsOn c (GetObjectGuid p) = false ->
            IsBanned c (GetObjectGuid p) = false ->
            (0 <? String.length (m_password c))%nat
            && negb (String.eqb pw (m_password c)) = false ->
            Join w p pw c = (c, []))
  | None =>
      m_channelId c = 0
      /\ m_realmzone c = CheckPublicMessageLanguage w name
      /\ GetFlags c = CHANNEL_FLAG_CUSTOM
      /\ (forall p pw,
            Join_admitted p pw c
            = negb (IsOn c (GetObjectGuid p)) && negb (IsBanned c (GetObjectGuid p))
              && negb ((0 <? String.length (m_password c))%nat
                       && negb (String.eqb pw (m_password c))))
  end.
Proof.
  intros c. destruct (same_class_run w ops (Channel_new w name)) as (_ & Hf & Hi & Hr & _).
  fold c in Hf, Hi, Hr.
  destruct (GetChannelEntryFor w name) as [ch|] eqn:Hch.
  - cbv zeta.
    assert (Hflags : m_flags c
              = let f0 := N.lor 0 CHANNEL_FLAG_GENERAL in
                let f1 := if negb (N.land (dbc_flags ch) CHANNEL_DBC_FLAG_TRADE =? 0)
                          then N.lor f0 CHANNEL_FLAG_TRADE else f0 in
                let f2 := if negb (N.land (dbc_flags ch) CHANNEL_DBC_FLAG_CITY_ONLY2 =? 0)
                          then N.lor f1 CHANNEL_FLAG_CITY else f1 in
                if negb (N.land (dbc_flags ch) CHANNEL_DBC_FLAG_LFG =? 0)
                then N.lor f2 CHANNEL_FLAG_LFG else N.lor f2 CHANNEL_FLAG_NOT_LFG).
    { rewrite Hf. unfold Channel_new. by rewrite Hch. }
    assert (Hgate : (GetFlags c =? 0x38)
                    = negb (negb (N.land (dbc_flags ch) CHANNEL_DBC_FLAG_TRADE =? 0))
                      && negb (N.land (dbc_flags ch) CHANNEL_DBC_FLAG_CITY_ONLY2 =? 0)
                      && negb (negb (N.land (dbc_flags ch) CHANNEL_DBC_FLAG_LFG =? 0))).
    { unfold GetFlags. rewrite Hflags.
      destruct (negb (N.land (dbc_flags ch) CHANNEL_DBC_FLAG_TRADE =? 0));
      destruct (negb (N.land (dbc_flags ch) CHANNEL_DBC_FLAG_CITY_ONLY2 =? 0));
      destruct (negb (N.land (dbc_flags ch) CHANNEL_DBC_FLAG_LFG =? 0)); reflexivity. }
    split; [rewrite Hi; unfold Channel_new; by rewrite Hch|].
    split; [rewrite Hr; unfold Channel_new; by rewrite Hch|].
    unfold HasFlag. rewrite Hflags.
    repeat split;
      try (destruct (negb (N.land (dbc_flags ch) CHANNEL_DBC_FLAG_TRADE =? 0));
           destruct (negb (N.land (dbc_flags ch) CHANNEL_DBC_FLAG_CITY_ONLY2 =? 0));
           destruct (negb (N.land (dbc_flags ch) CHANNEL_DBC_FLAG_LFG =? 0)); reflexivity).
    + exact Hgate.
    + intros p pw Hkind Hguild Hoff Hnb Hpw. unfold Join. cbv zeta.
      rewrite Hoff, Hnb, Hpw, Hgate, Hkind.
      by destruct (N.eqb_spec (GetGuildId p) 0).
  - assert (Hflags : m_flags c = CHANNEL_FLAG_CUSTOM).
    { rewrite Hf. unfold Channel_new. by rewrite Hch. }
    split; [rewrite Hi; unfold Channel_new; by rewrite Hch|].
    split; [rewrite Hr; unfold Channel_new; by rewrite Hch|].
    split; [done|]. intros p pw. unfold Join_admitted, GetFlags. rewrite Hflags.
    change (CHANNEL_FLAG_CUSTOM =? 56) with false. by rewrite andb_false_r, andb_true_r.
Qed.

(** ** The notices of a removal and the lifting of a ban *)

(** X22. [KickOrBan] that passes its gates sends its notice, naming the target
    and the actor, to the members as they are before the removal, so to the
    target as well when it is online; the packets of the succession, when
    one runs, follow.  The notice is PlayerBanned when a ban is asked for and
    the target is not banned yet, PlayerKicked otherwise; where nobody banned
    is a member, a ban is always announced as one. *)
Theorem KickOrBan_notice w p t target ban c :
  IsOn c (GetObjectGuid p) = true ->
  authorized c p = true ->
  GetPlayerByName w t = Some target ->
  IsOn c (GetObjectGuid target) = true ->
  owner_protected c p target = false ->
  let guid := GetObjectGuid p in
  let tg := GetObjectGuid target in
  let notice :=
    (if ban && negb (IsBanned c tg) then MakePlayerBanned else MakePlayerKicked)
      (m_name c) tg guid in
  let c2 := removed ban tg c in
  snd (KickOrBan w p t ban c)
  = snd (SendToAll w notice c)
    ++ (if (m_ownerGuid c =? tg) && negb (IsPublic c)
        then snd (SetOwner w (SelectNewOwner c2) (1 <? PlayerList.size (m_players c2)) c2)
        else [])
  /\ (GetPlayer w tg <> None -> In (tg, notice) (snd (KickOrBan w p t ban c)))
  /\ (banned_disjoint c -> ban = true -> notice = MakePlayerBanned (m_name c) tg guid).
Proof.
  intros Hon Hauth Ht Htg Hprot guid tg notice c2. subst guid tg notice c2.
  assert (Hev : snd (KickOrBan w p t ban c)
    = snd (SendToAll w
             ((if ban && negb (IsBanned c (GetObjectGuid target))
               then MakePlayerBanned else MakePlayerKicked)
                (m_name c) (GetObjectGuid target) (GetObjectGuid p)) c)
      ++ (if (m_ownerGuid c =? GetObjectGuid target) && negb (IsPublic c)
          then snd (SetOwner w (SelectNewOwner (removed ban (GetObjectGuid target) c))
                      (1 <? PlayerList.size
                              (m_players (removed ban (GetObjectGuid target) c)))
                      (removed ban (GetObjectGuid target) c))
          else [])).
  { unfold KickOrBan. cbv zeta. unfold owner_protected in Hprot.
    rewrite Hon, (authorized_true _ _ Hauth), Ht, Htg, Hprot. cbn [negb].
    unfold removed, seq, update.
    destruct (ban && negb (IsBanned c (GetObjectGuid target))); cbn [fst snd SendToAll app];
      cbn [m_players set_banned set_players m_name];
      repeat match goal with
             | |- context [IsPublic ?x] =>
                 lazymatch x with
                 | c => fail
                 | _ => change (IsPublic x) with (IsPublic c)
                 end
             end;
      destruct ((m_ownerGuid c =? GetObjectGuid target) && negb (IsPublic c));
      try destruct (SetOwner w _ _ _); cbn [fst snd]; rewrite ?app_nil_r; reflexivity. }
  split; [exact Hev|]. split.
  - intros Hp. rewrite Hev. apply in_or_app. left. by apply In_SendToAll.
  - intros Hdis ->. cbn [andb].
    assert (Hnb : IsBanned c (GetObjectGuid target) = false).
    { unfold IsBanned. apply bool_decide_eq_false_2. intros Hin.
      specialize (Hdis _ Hin). congruence. }
    by rewrite Hnb.
Qed.

(** Ann kicks Bob from "test": Bob is told so himself. *)
Lemma KickOrBan_notice_witness :
  let c := run demo_world [OpJoin ann ""; OpJoin bob ""] (Channel_new demo_world "test") in
  In (GetObjectGuid bob, MakePlayerKicked "test" (GetObjectGuid bob) (GetObjectGuid ann))
    (snd (KickOrBan demo_world ann "Bob" false c)).
Proof.
  intros c.
  refine (proj1 (proj2 (KickOrBan_notice demo_world ann "Bob" bob false c
                          eq_refl eq_refl eq_refl eq_refl eq_refl)) _).
  discriminate.
Defined.

(** X23. [UnBan] changes nothing but the banned set, and that only by taking
    the target out.  By a member who is moderator or game master: a name that
    does not resolve, as that of a banned player who is offline, is answered
    PlayerNotFound and the ban stays; a player who is not banned is answered
    PlayerNotBanned; a banned player is taken out of the banned set, nobody
    else's ban changes, and PlayerUnbanned naming target and actor goes to
    the members.  Anybody else is answered NotMember, or NotModerator when a
    member, and nothing changes. *)
Theorem UnBan_semantics w p t c :
  let guid := GetObjectGuid p in
  let c' := fst (UnBan w p t c) in
  (exists B, c' = set_banned B c /\ B ⊆ m_banned c)
  /\ (IsOn c guid = true -> authorized c p = true ->
      match GetPlayerByName w t with
      | None => UnBan w p t c = SendToOne w (MakePlayerNotFound (m_name c) t) guid c
      | Some target =>
          let tg := GetObjectGuid target in
          if IsBanned c tg
          then UnBan w p t c
               = (set_banned (m_banned c ∖ {[tg]}) c,
                  snd (SendToAll w (MakePlayerUnbanned (m_name c) tg guid) c))
               /\ IsBanned c' tg = false
               /\ (forall g, g <> tg -> IsBanned c' g = IsBanned c g)
          else UnBan w p t c = SendToOne w (MakePlayerNotBanned (m_name c) t) guid c
      end)
  /\ (IsOn c guid && authorized c p = false ->
      UnBan w p t c
      = SendToOne w (if IsOn c guid then MakeNotModerator (m_name c)
                     else MakeNotMember (m_name c)) guid c).
Proof.
  intros guid c'. subst guid c'.
  assert (Hid : exists B, c = set_banned B c /\ B ⊆ m_banned c).
  { exists (m_banned c). split; [by destruct c|done]. }
  split; [|split].
  - unfold UnBan. cbv zeta. destruct (negb (IsOn c (GetObjectGuid p))); [done|].
    split_if; [done|]. destruct (GetPlayerByName w t) as [target|]; [|done].
    split_if; [done|]. cbn [fst]. eexists. split; [reflexivity|].
    apply elem_of_subseteq. intros x [H _]%elem_of_difference. exact H.
  - intros Hon Hauth. destruct (GetPlayerByName w t) as [target|] eqn:Ht.
    2:{ unfold UnBan. cbv zeta. by rewrite Hon, (authorized_true _ _ Hauth), Ht. }
    cbv zeta. destruct (IsBanned c (GetObjectGuid target)) eqn:Hb.
    2:{ unfold UnBan. cbv zeta. by rewrite Hon, (authorized_true _ _ Hauth), Ht, Hb. }
    rewrite (fst_UnBan_performed _ _ _ _ _ Hon Hauth Ht Hb). split; [|split].
    + unfold UnBan. cbv zeta. by rewrite Hon, (authorized_true _ _ Hauth), Ht, Hb.
    + unfold IsBanned. cbn [m_banned set_banned]. apply bool_decide_eq_false_2.
      rewrite elem_of_difference, elem_of_singleton. by intros [_ H].
    + intros g Hg. unfold IsBanned. cbn [m_banned set_banned]. apply bool_decide_ext.
      rewrite elem_of_difference, elem_of_singleton. split; [by intros [H _]|done].
  - intros H. unfold UnBan. cbv zeta. destruct (IsOn c (GetObjectGuid p)); [|done].
    cbn [andb negb] in *. by rewrite (authorized_false _ _ H).
Qed.

(** Ann lifts a ban that is not there. *)
Lemma UnBan_semantics_witness :
  let c := run demo_world [OpJoin ann ""; OpJoin bob ""] (Channel_new demo_world "test") in
  UnBan demo_world ann "Cid" c
  = SendToOne demo_world (MakePlayerNotBanned "test" "Cid") (GetObjectGuid ann) c.
Proof.
  intros c.
  exact (proj1 (proj2 (UnBan_semantics demo_world ann "Cid" c)) eq_refl eq_refl).
Defined.

(** ** Refusals and the empty channel *)

(** X24. When the only member of a channel that is not public leaves and its
    entry carries the owner role, the channel is left empty and without
    owner, and no packet is sent but "you left" to the leaver when [send] is
    set: the "left" notice and the succession find nobody. *)
Theorem last_member_leaves w p send c i :
  m_players c = [(GetObjectGuid p, i)] ->
  IsPublic c = false ->
  PlayerInfo.IsOwner i = true ->
  Leave w p send c
  = (set_ownerGuid EmptyGuid (set_players [] c),
     if send then snd (SendToOne w (MakeYouLeft (m_name c)) (GetObjectGuid p) c) else []).
Proof.
  intros Hm Hpub Hown.
  assert (Hon : IsOn c (GetObjectGuid p) = true).
  { unfold IsOn. rewrite Hm. cbn [PlayerList.find]. by rewrite N.eqb_refl. }
  assert (Hmem : member c (GetObjectGuid p) = i).
  { unfold member. rewrite Hm. cbn [PlayerList.find]. by rewrite N.eqb_refl. }
  rewrite (Leave_member_run w p send c Hon). cbv zeta. rewrite Hmem, Hown, Hpub.
  cbn [negb andb]. rewrite Hm. cbn [PlayerList.erase]. rewrite N.eqb_refl.
  assert (HS : SetOwner w (SelectNewOwner (set_players [] c))
                 (1 <? PlayerList.size (m_players (set_players [] c))) (set_players [] c)
               = (set_ownerGuid EmptyGuid (set_players [] c), [])).
  { unfold SetOwner, SelectNewOwner, seq, update. cbn [m_players set_players first_moderator].
    cbn. by destruct (guid_bool (m_ownerGuid c)). }
  rewrite HS. cbn [fst snd]. f_equal. unfold announces, SendToAll.
  cbn [m_players set_players flat_map snd]. destruct (m_announce c && _); by rewrite !app_nil_r.
Qed.

(** Ann, alone on "test", leaves. *)
Lemma last_member_leaves_witness :
  let c := run demo_world [OpJoin ann ""] (Channel_new demo_world "test") in
  Leave demo_world ann true c
  = (set_ownerGuid EmptyGuid (set_players [] c), [(GetObjectGuid ann, MakeYouLeft "test")]).
Proof.
  intros c.
  exact (last_member_leaves demo_world ann true c (PlayerInfo.mk 1 3) eq_refl eq_refl eq_refl).
Defined.

(** X25. A [Join] that is not admitted changes nothing and sends at most one
    packet, to the joiner, decided in this order: a member is told
    PlayerAlreadyMember, or nothing on a built-in channel; a banned player is
    told Banned; a wrong password is answered WrongPassword; a guild member
    stopped by the guild rule is told nothing. *)
Theorem Join_refused w p pw c :
  Join_admitted p pw c = false ->
  let guid := GetObjectGuid p in
  let wrong := (0 <? String.length (m_password c))%nat
               && negb (String.eqb pw (m_password c)) in
  fst (Join w p pw c) = c
  /\ snd (Join w p pw c)
     = if IsOn c guid
       then (if IsConstant c then []
             else snd (SendToOne w (MakePlayerAlreadyMember (m_name c) guid) guid c))
       else if IsBanned c guid then snd (SendToOne w (MakeBanned (m_name c)) guid c)
       else if wrong then snd (SendToOne w (MakeWrongPassword (m_name c)) guid c)
       else [].
Proof.
  intros H guid wrong. subst guid wrong. unfold Join_admitted in H. unfold Join. cbv zeta.
  destruct (IsOn c (GetObjectGuid p)); [by destruct (IsConstant c)|].
  destruct (IsBanned c (GetObjectGuid p)); [done|].
  destruct ((0 <? String.length (m_password c))%nat
            && negb (String.eqb pw (m_password c))); [done|].
  cbn [negb andb] in H. apply negb_false_iff in H. by rewrite H.
Qed.


(** Bob, a member of "test", joins again. *)
Lemma Join_refused_witness :
  let c := run demo_world [OpJoin ann ""; OpJoin bob ""] (Channel_new demo_world "test") in
  Join demo_world bob "" c
  = (c, [(GetObjectGuid bob, MakePlayerAlreadyMember "test" (GetObjectGuid bob))]).
Proof.
  intros c.
  destruct (Join_refused demo_world bob "" c eq_refl) as [H1 H2].
  rewrite (surjective_pairing (Join demo_world bob "" c)), H1, H2. reflexivity.
Defined.

(** X26. The gates in front of the commands.  Whoever is not a member is
    answered NotMember and nothing else happens, for [Leave] asked to report,
    [KickOrBan], [UnBan], [Password], [SetMode], the [SetOwner] command,
    [Announce], [Moderate], [Say] with a text and [Invite].  A member who is
    neither moderator nor game master is answered NotModerator and nothing
    else happens, for [KickOrBan], [UnBan], [Password], [SetMode], [Announce]
    and [Moderate].  A member below game master who is not the owner is
    answered NotOwner by the [SetOwner] command. *)
Theorem privilege_gates w o p c :
  (actor o = Some p -> IsOn c (GetObjectGuid p) = false ->
   exec w o c = SendToOne w (MakeNotMember (m_name c)) (GetObjectGuid p) c)
  /\ (moderation o = Some p -> IsOn c (GetObjectGuid p) = true -> authorized c p = false ->
      exec w o c = SendToOne w (MakeNotModerator (m_name c)) (GetObjectGuid p) c)
  /\ (forall t, o = OpSetOwner p t -> IsOn c (GetObjectGuid p) = true ->
        sec_lt (GetSecurity p) SEC_GAMEMASTER = true -> GetObjectGuid p <> m_ownerGuid c ->
        exec w o c = SendToOne w (MakeNotOwner (m_name c)) (GetObjectGuid p) c).
Proof.
  split; [|split].
  - intros Ha Hoff.
    destruct o as [| ? [|] | | | | | | | | | ? [?|] ? |]; try discriminate Ha;
      injection Ha as ->; cbn [exec];
      unfold Leave, KickOrBan, UnBan, Password, SetMode, SetOwner_cmd, Announce, Moderate,
        Say, Invite; cbv zeta; by rewrite Hoff.
  - intros Hm Hon Hauth.
    destruct o; try discriminate Hm; injection Hm as ->; cbn [exec];
      unfold KickOrBan, UnBan, Password, SetMode, Announce, Moderate; cbv zeta;
      by rewrite Hon, (authorized_false _ _ Hauth).
  - intros t -> Hon Hsec Hne. cbn [exec]. unfold SetOwner_cmd. cbv zeta.
    rewrite Hon, Hsec. by destruct (N.eqb_spec (GetObjectGuid p) (m_ownerGuid c)).
Qed.

(** Cid, not a member of "test", tries to set its password. *)
Lemma privilege_gates_witness :
  let c := run demo_world [OpJoin ann ""; OpJoin bob ""] (Channel_new demo_world "test") in
  Password demo_world cid "mine" c = (c, [(GetObjectGuid cid, MakeNotMember "test")]).
Proof.
  intros c.
  exact (proj1 (privilege_gates demo_world (OpPassword cid "mine") cid c) eq_refl eq_refl).
Defined.

(** ** One owner at most *)

Lemma sole_owner_fields c c' :
  m_players c' = m_players c -> m_ownerGuid c' = m_ownerGuid c ->
  sole_owner c -> sole_owner c'.
Proof. unfold sole_owner. intros -> ->. done. Qed.

Lemma sole_owner_kept c c' :
  m_ownerGuid c' = m_ownerGuid c ->
  (forall k i', PlayerList.find k (m_players c') = Some i' ->
     exists i, PlayerList.find k (m_players c) = Some i
               /\ PlayerInfo.IsOwner i' = PlayerInfo.IsOwner i) ->
  sole_owner c -> sole_owner c'.
Proof.
  intros Ho Hk Hc k i' Hi' Hown. destruct (Hk k i' Hi') as (i & Hi & Hb).
  rewrite Ho. apply (Hc k i Hi). congruence.
Qed.

Lemma sole_owner_modify g f c :
  (forall i, PlayerInfo.IsOwner (f i) = PlayerInfo.IsOwner i) ->
  sole_owner c -> sole_owner (set_players (PlayerList.modify g f (m_players c)) c).
Proof.
  intros Hf. apply sole_owner_kept; [done|]. intros k i'. cbn [m_players set_players].
  destruct (N.eq_dec g k) as [->|Hne].
  - rewrite find_modify_eq. destruct (PlayerList.find k (m_players c)) as [i|]; [|done].
    intros [= <-]. eauto.
  - rewrite find_modify_ne by done. eauto.
Qed.

Lemma sole_owner_SetModerator w g set c :
  sole_owner c -> sole_owner (fst (SetModerator w g set c)).
Proof.
  intros Hc. rewrite fst_SetModerator. destruct (PlayerList.find g (m_players c)); [|done].
  destruct (eqb _ set); [done|]. apply sole_owner_modify; [|done].
  intros i. apply IsOwner_SetModerator.
Qed.

Lemma sole_owner_SetMute w g set c :
  sole_owner c -> sole_owner (fst (SetMute w g set c)).
Proof.
  intros Hc. rewrite fst_SetMute. destruct (PlayerList.find g (m_players c)); [|done].
  destruct (eqb _ set); [done|]. apply sole_owner_modify; [|done].
  intros i. apply IsOwner_SetMuted.
Qed.

Lemma sole_owner_strip w ks : forall c,
  sole_owner c -> sole_owner (fst (strip_moderators w ks c)).
Proof.
  induction ks as [|k r IH]; intros c Hc; cbn [strip_moderators]; [done|].
  rewrite fst_seq. apply IH.
  destruct (PlayerList.find k (m_players c)) as [i|]; [|done].
  destruct (PlayerInfo.IsModerator i); [|done]. by apply sole_owner_SetModerator.
Qed.

Lemma sole_owner_SetOwner w guid exclaim c :
  sole_owner c -> sole_owner (fst (SetOwner w guid exclaim c)).
Proof.
  intros Hc k i'. rewrite fst_SetOwner. cbn [m_players m_ownerGuid set_players set_ownerGuid].
  rewrite find_SetOwner_players. unfold SetOwner_entry.
  destruct (guid_bool guid) eqn:Hg; cbn [andb].
  - destruct (N.eqb_spec guid k) as [->|Hne]; [done|].
    destruct (guid_bool (m_ownerGuid c) && (m_ownerGuid c =? k)) eqn:E.
    + destruct (PlayerList.find k (m_players c)); [|done]. cbn [option_map].
      intros <-%(inj Some). by rewrite IsOwner_SetOwner.
    + intros Hi Hown. destruct (Hc k i' Hi Hown) as [-> Hgo].
      by rewrite Hgo, N.eqb_refl in E.
  - destruct (guid_bool (m_ownerGuid c) && (m_ownerGuid c =? k)) eqn:E.
    + destruct (PlayerList.find k (m_players c)); [|done]. cbn [option_map].
      intros <-%(inj Some). by rewrite IsOwner_SetOwner.
    + intros Hi Hown. destruct (Hc k i' Hi Hown) as [-> Hgo].
      by rewrite Hgo, N.eqb_refl in E.
Qed.

Lemma sole_owner_erase g c :
  sole_owner c -> sole_owner (set_players (PlayerList.erase g (m_players c)) c).
Proof.
  apply sole_owner_kept; [done|]. intros k i'. cbn [m_players set_players].
  destruct (N.eq_dec g k) as [->|Hne].
  - by rewrite find_erase_eq.
  - rewrite find_erase_ne by done. eauto.
Qed.

Lemma sole_owner_SetStatic w state command c :
  sole_owner c -> sole_owner (fst (snd (SetStatic w state command c))).
Proof.
  intros Hc. destruct (SetStatic_blocked w state command c) eqn:E.
  - by rewrite SetStatic_refused.
  - rewrite (proj2 (SetStatic_performed _ _ _ _ E)). unfold SetStatic_state.
    destruct state.
    + eapply sole_owner_fields; [reflexivity|reflexivity|].
      destruct (guid_bool _); [apply sole_owner_SetOwner|]; by apply sole_owner_strip.
    + eapply sole_owner_fields; [reflexivity|reflexivity|].
      destruct (guid_bool _); [done|]. by apply sole_owner_SetOwner.
Qed.

Lemma sole_owner_Join w p pw c : sole_owner c -> sole_owner (fst (Join w p pw c)).
Proof.
  intros Hc. unfold Join. cbv zeta.
  destruct (IsOn c (GetObjectGuid p)); [by destruct (negb (IsConstant c))|].
  destruct (IsBanned c (GetObjectGuid p)); [done|].
  split_if; [done|]. split_if; [done|].
  rewrite !fst_seq. apply sole_owner_SetStatic.
  set (c2 := fst (update _ _)).
  assert (H2 : sole_owner c2).
  { subst c2. intros k i. split_if; cbn [fst update SendToAll m_players m_ownerGuid set_players];
      rewrite find_assign; destruct (N.eqb_spec (GetObjectGuid p) k); try (intros [= <-]; done);
      apply Hc. }
  cbn [SendToOne fst]. split_if; [|done]. by apply sole_owner_SetOwner.
Qed.

Lemma sole_owner_Leave w p send c : sole_owner c -> sole_owner (fst (Leave w p send c)).
Proof.
  intros Hc. unfold Leave. cbv zeta.
  destruct (negb (IsOn c (GetObjectGuid p))); [by destruct send|].
  rewrite !fst_seq. unfold update. cbn [fst].
  set (c1 := fst (if send then _ else _)).
  assert (c1 = c) as -> by (subst c1; by destruct send).
  set (c2 := set_players _ c).
  assert (H2 : sole_owner c2) by (by apply sole_owner_erase).
  set (c3 := fst (if m_announce c2 && _ then _ else _)).
  assert (c3 = c2) as -> by (subst c3; by split_if).
  split_if; [|done]. by apply sole_owner_SetOwner.
Qed.

Lemma sole_owner_KickOrBan w p t ban c :
  sole_owner c -> sole_owner (fst (KickOrBan w p t ban c)).
Proof.
  intros Hc. unfold KickOrBan. cbv zeta.
  destruct (negb (IsOn c (GetObjectGuid p))); [done|].
  split_if; [done|].
  destruct (GetPlayerByName w t) as [target|]; [|done].
  destruct (negb (IsOn c (GetObjectGuid target))); [done|].
  split_if; [done|].
  rewrite !fst_seq. unfold update. cbn [fst].
  set (c1 := fst (if ban && _ then _ else _)).
  set (c2 := set_players _ c1).
  assert (H2 : sole_owner c2).
  { subst c2. apply sole_owner_erase. subst c1.
    split_if; cbn [seq update SendToAll fst]; [|done].
    eapply sole_owner_fields; [reflexivity|reflexivity|done]. }
  split_if; [|done]. by apply sole_owner_SetOwner.
Qed.

Lemma sole_owner_SetMode w p t moderator set c :
  sole_owner c -> sole_owner (fst (SetMode w p t moderator set c)).
Proof.
  intros Hc. unfold SetMode. cbv zeta.
  destruct (negb (IsOn c (GetObjectGuid p))); [done|].
  split_if; [done|].
  destruct (GetPlayerByName w t) as [target|]; [|done].
  split_if; [done|]. split_if; [done|]. split_if; [done|]. split_if; [done|].
  destruct moderator; [by apply sole_owner_SetModerator|by apply sole_owner_SetMute].
Qed.

Lemma sole_owner_SetOwner_cmd w p t c :
  sole_owner c -> sole_owner (fst (SetOwner_cmd w p t c)).
Proof.
  intros Hc. unfold SetOwner_cmd. cbv zeta.
  destruct (negb (IsOn c (GetObjectGuid p))); [done|].
  split_if; [done|].
  destruct (GetPlayerByName w t) as [target|]; [|done].
  split_if; [done|]. split_if; [done|]. by apply sole_owner_SetOwner.
Qed.

Lemma sole_owner_exec w o c : sole_owner c -> sole_owner (fst (exec w o c)).
Proof.
  destruct o; cbn [exec]; intros Hc.
  - by apply sole_owner_Join.
  - by apply sole_owner_Leave.
  - by apply sole_owner_KickOrBan.
  - unfold UnBan. cbv zeta. repeat (split_if; [done|]).
    destruct (GetPlayerByName w targetName); [|done]. split_if; done.
  - unfold Password. cbv zeta. repeat (split_if; [done|]). done.
  - by apply sole_owner_SetMode.
  - by apply sole_owner_SetOwner_cmd.
  - by apply sole_owner_SetStatic.
  - unfold Announce. cbv zeta. repeat (split_if; [done|]). rewrite fst_seq.
    cbn [fst update]. by split_if.
  - unfold Moderate. cbv zeta. repeat (split_if; [done|]). rewrite fst_seq.
    cbn [fst update]. by split_if.
  - by rewrite fst_Say.
  - by rewrite fst_Invite.
Qed.

Lemma sole_owner_run w ops : forall c, sole_owner c -> sole_owner (run w ops c).
Proof.
  induction ops as [|o r IH]; intros c Hc; simpl; [done|].
  apply IH. by apply sole_owner_exec.
Qed.

(** X27. On every channel reached from a fresh one by any sequence of
    operations, transfers by game masters on public channels included, the
    owner bit is carried by no entry but the one the owner guid names, and the
    owner guid is then not empty: at most one member has the owner role. *)
Theorem owner_bit_is_the_owners w name ops :
  let c := run w ops (Channel_new w name) in
  sole_owner c
  /\ (forall k i, In (k, i) (m_players c) -> PlayerInfo.IsOwner i = true ->
        k = m_ownerGuid c /\ k <> EmptyGuid)
  /\ (forall k1 i1 k2 i2,
        In (k1, i1) (m_players c) -> In (k2, i2) (m_players c) ->
        PlayerInfo.IsOwner i1 = true -> PlayerInfo.IsOwner i2 = true ->
        k1 = k2 /\ i1 = i2).
Proof.
  intros c.
  assert (Hs : sole_owner c).
  { apply sole_owner_run. intros k i. unfold Channel_new.
    by destruct (GetChannelEntryFor w name). }
  assert (Hwf : wf_players (m_players c)) by apply consistent_run, consistent_new.
  assert (Hfind : forall k i, In (k, i) (m_players c) -> PlayerList.find k (m_players c) = Some i).
  { intros k i. apply ascending_In_find, Hwf. }
  split; [exact Hs|]. split.
  - intros k i Hin Hown. destruct (Hs k i (Hfind _ _ Hin) Hown) as [-> Hg].
    split; [done|]. by apply guid_bool_true.
  - intros k1 i1 k2 i2 H1 H2 Ho1 Ho2.
    destruct (Hs k1 i1 (Hfind _ _ H1) Ho1) as [-> _].
    destruct (Hs k2 i2 (Hfind _ _ H2) Ho2) as [-> _].
    split; [done|]. apply Hfind in H1, H2. congruence.
Qed.

(** ** What each operation can change *)

Lemma settings_kept_refl c : settings_kept c c.
Proof. by repeat split. Qed.

Lemma settings_kept_trans c1 c2 c3 :
  settings_kept c1 c2 -> settings_kept c2 c3 -> settings_kept c1 c3.
Proof.
  intros (H1 & H2 & H3 & H4 & H5) (G1 & G2 & G3 & G4 & G5).
  repeat split; congruence.
Qed.

Lemma settings_kept_roles_only c c' : roles_only c c' -> settings_kept c c'.
Proof. intros (m' & -> & _). by repeat split. Qed.

Lemma settings_kept_SetOwner w guid exclaim c :
  settings_kept c (fst (SetOwner w guid exclaim c)).
Proof. rewrite fst_SetOwner. by repeat split. Qed.

Lemma roles_only_SetMode w p t moderator set c :
  roles_only c (fst (SetMode w p t moderator set c)).
Proof.
  unfold SetMode. cbv zeta.
  destruct (negb (IsOn c (GetObjectGuid p))); [apply roles_only_refl|].
  split_if; [apply roles_only_refl|].
  destruct (GetPlayerByName w t) as [target|]; [|apply roles_only_refl].
  do 4 (split_if; [apply roles_only_refl|]).
  destruct moderator; [apply roles_only_SetModerator|apply roles_only_SetMute].
Qed.

Lemma settings_kept_Leave w p send c : settings_kept c (fst (Leave w p send c)).
Proof.
  destruct (IsOn c (GetObjectGuid p)) eqn:Hon.
  - rewrite (Leave_member_run w p send c Hon). cbn [fst].
    split_if; [|by repeat split].
    eapply settings_kept_trans; [|apply settings_kept_SetOwner]. by repeat split.
  - unfold Leave. cbv zeta. rewrite Hon. destruct send; apply settings_kept_refl.
Qed.

Lemma Join_keeps_banned_password w p pw c :
  wf_players (m_players c) ->
  m_banned (fst (Join w p pw c)) = m_banned c
  /\ m_password (fst (Join w p pw c)) = m_password c.
Proof.
  intros Hwf. destruct (Join_admitted p pw c) eqn:Hadm.
  - by destruct (Join_admitted_table w p pw c Hwf Hadm) as (_ & -> & ->).
  - unfold Join_admitted in Hadm. unfold Join. cbv zeta.
    destruct (IsOn c (GetObjectGuid p)); [by destruct (negb (IsConstant c))|].
    destruct (IsBanned c (GetObjectGuid p)); [done|].
    split_if; [done|]. cbn [negb andb] in Hadm. apply negb_false_iff in Hadm.
    by rewrite Hadm.
Qed.

Lemma KickOrBan_shape w p t ban c :
  fst (KickOrBan w p t ban c) = c
  \/ exists target,
       let c2 := removed ban (GetObjectGuid target) c in
       IsOn c (GetObjectGuid target) = true
       /\ (fst (KickOrBan w p t ban c) = c2
           \/ fst (KickOrBan w p t ban c)
              = fst (SetOwner w (SelectNewOwner c2) (1 <? PlayerList.size (m_players c2)) c2)).
Proof.
  destruct (IsOn c (GetObjectGuid p)) eqn:Hon.
  2:{ left. unfold KickOrBan. cbv zeta. by rewrite Hon. }
  destruct (authorized c p) eqn:Hauth.
  2:{ left. unfold KickOrBan. cbv zeta. by rewrite Hon, (authorized_false _ _ Hauth). }
  destruct (GetPlayerByName w t) as [target|] eqn:Ht.
  2:{ left. unfold KickOrBan. cbv zeta. by rewrite Hon, (authorized_true _ _ Hauth), Ht. }
  destruct (IsOn c (GetObjectGuid target)) eqn:Htg.
  2:{ left. unfold KickOrBan. cbv zeta. by rewrite Hon, (authorized_true _ _ Hauth), Ht, Htg. }
  destruct (owner_protected c p target) eqn:Hprot.
  { left. unfold KickOrBan. cbv zeta. unfold owner_protected in Hprot.
    by rewrite Hon, (authorized_true _ _ Hauth), Ht, Htg, Hprot. }
  right. exists target. cbv zeta. split; [done|].
  rewrite (fst_KickOrBan_performed _ _ _ _ _ _ Hon Hauth Ht Htg Hprot). cbv zeta.
  destruct (_ && _); auto.
Qed.

(** X28. What an operation leaves alone, on a well-formed table.  The banned
    set changes by nothing but [KickOrBan] asked to ban and [UnBan]; the
    password by nothing but [Password]; the announce switch by nothing but
    [Announce] and a conversion to static, explicit or at the end of [Join];
    the moderate switch likewise with [Moderate]; the static flag by nothing
    but [SetStatic] and [Join]; the owner guid by nothing but [Join], [Leave],
    [KickOrBan], the [SetOwner] command and [SetStatic]; and who is a member
    by nothing but [Join], [Leave] and [KickOrBan]. *)
Theorem fields_frame w o c :
  wf_players (m_players c) ->
  let c' := fst (exec w o c) in
  match o with
  | OpKickOrBan _ _ true | OpUnBan _ _ => True
  | _ => m_banned c' = m_banned c
  end
  /\ match o with
     | OpPassword _ _ => True
     | _ => m_password c' = m_password c
     end
  /\ match o with
     | OpAnnounce _ | OpJoin _ _ | OpSetStatic true _ => True
     | _ => m_announce c' = m_announce c
     end
  /\ match o with
     | OpModerate _ | OpJoin _ _ | OpSetStatic true _ => True
     | _ => m_moderate c' = m_moderate c
     end
  /\ match o with
     | OpJoin _ _ | OpSetStatic _ _ => True
     | _ => m_static c' = m_static c
     end
  /\ match o with
     | OpJoin _ _ | OpLeave _ _ | OpKickOrBan _ _ _ | OpSetOwner _ _ | OpSetStatic _ _ => True
     | _ => m_ownerGuid c' = m_ownerGuid c
     end
  /\ match o with
     | OpJoin _ _ | OpLeave _ _ | OpKickOrBan _ _ _ => True
     | _ => forall g, IsOn c' g = IsOn c g
     end.
Proof.
  intros Hwf c'. subst c'. destruct o as [p pw|p send|p t ban|p t|p pw|p t md st|p t|state command|p|p|p text lang|p t];
    cbn [exec].
  - destruct (Join_keeps_banned_password w p pw c Hwf) as [H1 H2]. by repeat split.
  - destruct (settings_kept_Leave w p send c) as (H1 & H2 & H3 & H4 & H5). by repeat split.
  - assert (Hk : m_password (fst (KickOrBan w p t ban c)) = m_password c
                 /\ m_announce (fst (KickOrBan w p t ban c)) = m_announce c
                 /\ m_moderate (fst (KickOrBan w p t ban c)) = m_moderate c
                 /\ m_static (fst (KickOrBan w p t ban c)) = m_static c
                 /\ (ban = false -> m_banned (fst (KickOrBan w p t ban c)) = m_banned c)).
    { destruct (KickOrBan_shape w p t ban c) as [->|(target & Htg & [-> | ->])]; [done| |].
      - destruct (removed_fields ban (GetObjectGuid target) c) as (_ & _ & Hp & _ & Hb).
        unfold removed in *. destruct (ban && _) eqn:E; repeat split; try done.
        intros ->. done.
      - rewrite fst_SetOwner. cbn [m_password m_announce m_moderate m_static m_banned
                                     set_players set_ownerGuid].
        unfold removed. destruct (ban && _) eqn:E; repeat split; try done.
        intros ->. done. }
    destruct Hk as (H2 & H3 & H4 & H5 & H1). destruct ban; repeat split; auto.
  - unfold UnBan. cbv zeta. destruct (negb (IsOn c (GetObjectGuid p))); [by repeat split|].
    split_if; [by repeat split|]. destruct (GetPlayerByName w t); [|by repeat split].
    split_if; by repeat split.
  - unfold Password. cbv zeta. destruct (negb (IsOn c (GetObjectGuid p))); [by repeat split|].
    split_if; by repeat split.
  - pose proof (roles_only_SetMode w p t md st c) as Hr.
    destruct (settings_kept_roles_only _ _ Hr) as (H1 & H2 & H3 & H4 & H5).
    repeat split; try done.
    + by destruct Hr as (m' & -> & _).
    + intros g. by apply roles_only_IsOn.
  - unfold SetOwner_cmd. cbv zeta.
    destruct (negb (IsOn c (GetObjectGuid p))); [by repeat split|].
    split_if; [by repeat split|]. destruct (GetPlayerByName w t) as [target|]; [|by repeat split].
    destruct (IsOn c (GetObjectGuid target)) eqn:Htg; [|by repeat split]. cbn [negb].
    split_if; [by repeat split|].
    destruct (settings_kept_SetOwner w (GetObjectGuid target)
                (1 <? PlayerList.size (m_players c)) c) as (H1 & H2 & H3 & H4 & H5).
    repeat split; try done. intros g. by apply IsOn_SetOwner.
  - assert (Hon : forall g, IsOn (fst (snd (SetStatic w state command c))) g = IsOn c g).
    { intros g. apply same_keys_IsOn. by apply same_keys_SetStatic. }
    assert (Hset : m_banned (fst (snd (SetStatic w state command c))) = m_banned c
                   /\ m_password (fst (snd (SetStatic w state command c))) = m_password c
                   /\ (state = false ->
                       m_announce (fst (snd (SetStatic w state command c))) = m_announce c
                       /\ m_moderate (fst (snd (SetStatic w state command c)))
                          = m_moderate c)).
    { destruct (SetStatic_blocked w state command c) eqn:E.
      - by rewrite SetStatic_refused.
      - rewrite (proj2 (SetStatic_performed _ _ _ _ E)). unfold SetStatic_state.
        destruct state.
        + destruct (strip_moderators_spec w (PlayerList.keys (m_players c)) c Hwf)
            as ((m1 & -> & _) & _ & _).
          cbn [m_ownerGuid set_players]. split_if; [rewrite fst_SetOwner|]; by repeat split.
        + split_if; [|rewrite fst_SetOwner]; by repeat split. }
    destruct Hset as (H1 & H2 & H3).
    destruct state; repeat split; try done; by apply H3.
  - unfold Announce. cbv zeta. destruct (negb (IsOn c (GetObjectGuid p))); [by repeat split|].
    split_if; [by repeat split|]. rewrite fst_seq. cbn [fst update].
    split_if; by repeat split.
  - unfold Moderate. cbv zeta. destruct (negb (IsOn c (GetObjectGuid p))); [by repeat split|].
    split_if; [by repeat split|]. rewrite fst_seq. cbn [fst update].
    split_if; by repeat split.
  - rewrite fst_Say. by repeat split.
  - rewrite fst_Invite. by repeat split.
Qed.

(** Ann makes Bob moderator of "test": nothing but his role changes. *)
Lemma fields_frame_witness :
  let c := run demo_world [OpJoin ann ""; OpJoin bob ""] (Channel_new demo_world "test") in
  let c' := fst (SetMode demo_world ann "Bob" true true c) in
  m_banned c' = m_banned c /\ m_ownerGuid c' = m_ownerGuid c.
Proof.
  intros c c'.
  assert (Hwf : wf_players (m_players c)) by (split; repeat constructor).
  destruct (fields_frame demo_world (OpSetMode ann "Bob" true true) c Hwf)
    as (H1 & _ & _ & _ & _ & H6 & _).
  split; [exact H1|exact H6].
Defined.
